(** * PolyDB: a shallow embedding of the query, overflow, audit, security and
      orchestration core, with the properties stated about it.

    The development follows the Python sources module by module:

    - [Py]       the fragment of Python's object model the code relies on
                 (truthiness, [==], ordering, [in], [str], slicing, exceptions);
    - [Query]    [polydb/query.py];
    - [Retry]    [polydb/retry.py];
    - [Utils]    [polydb/utils.py];
    - [NoSQLKV]  [polydb/base/NoSQLKVAdapter.py];
    - [Postgres] [polydb/adapters/PostgreSQLAdapter.py];
    - [Audit]    [polydb/audit/AuditStorage.py];
    - [Security] [polydb/security.py];
    - [Tenancy]  [polydb/multitenancy.py] and [polydb/audit/context.py];
    - [Factory]  [polydb/databaseFactory.py].

    Further modules, named after the classes, cover more of the same
    files: [RetryTrace] (runs of the retry wrapper as seen from outside),
    [NoSQLKVAdapter] ([_retrieve_overflow] with the lazy creation of the
    object store), [QueryBuilder] ([to_nosql_filter]), [PostgreSQLAdapter]
    ([select] and [insert] with the connection checkout, [update],
    [delete]), [FieldEncryption] ([encrypt_fields]),
    [DataMasking], [RLS] ([add_policy] and the example policies),
    [TenantRegistry], [TenantContext], [ModelRegistry]
    ([polydb/registry.py]) and [DatabaseFactory] ([_compute_field_changes],
    [query_linq]).

    Part I holds the definitions, Part II the lemmas and theorems.

    Conventions.  A Python [dict] with string keys is a [gmap string _]
    (insertion order is forgotten, lookups and updates are kept).  Field
    values range over the JSON scalars [None], [bool], [int], [str]; the
    value of a filter or of a lookup may also be a list of scalars.  A
    Python [str] and a Python [bytes] are both byte sequences, the former a
    [string], the latter a [list Byte.byte]; [encode]/[decode] convert.  A
    function that may raise returns a [result]; a method that reads or
    changes the object store threads a [World]. *)

From Stdlib Require Import ZArith List String Ascii Bool Lia.
From Stdlib Require Import QArith Permutation Sorted OrderedTypeEx.
From Stdlib Require Import DecimalString DecimalPos DecimalZ.
From stdpp Require Import gmap strings list fin_maps.

#[local] Open Scope string_scope.
#[local] Open Scope Z_scope.

(* ===================================================================== *)
(** * Part I: the model                                                   *)
(* ===================================================================== *)

(** ** Python values, exceptions and built-ins *)

Module Py.

(** Exception classes of [polydb/errors.py] and the built-in ones the
    code raises or catches. *)
Inductive exn_class :=
| Exception_ | TypeError | ValueError | KeyError | ImportError
| PermissionError | CloudDBError | DatabaseError | NoSQLError
| StorageError | QueueError | ConnectionError | ValidationError.

Record exn := mk_exn { exn_cls : exn_class; exn_msg : string }.

(** [issubclass c d] for the classes above: the CloudDB errors derive
    from [CloudDBError], everything derives from [Exception]. *)
Definition issubclass (c d : exn_class) : bool :=
  match d, c with
  | Exception_, _ => true
  | CloudDBError, (CloudDBError | DatabaseError | NoSQLError | StorageError
                   | QueueError | ConnectionError | ValidationError) => true
  | TypeError, TypeError | ValueError, ValueError | KeyError, KeyError
  | ImportError, ImportError | PermissionError, PermissionError
  | DatabaseError, DatabaseError | NoSQLError, NoSQLError
  | StorageError, StorageError | QueueError, QueueError
  | ConnectionError, ConnectionError | ValidationError, ValidationError => true
  | _, _ => false
  end.

(** [isinstance(e, classes)] with a tuple of classes, as [except] uses it. *)
Definition isinstance (e : exn) (classes : list exn_class) : bool :=
  existsb (issubclass (exn_cls e)) classes.

Inductive result (A : Type) : Type :=
| Ok (a : A)
| Raise (e : exn).
Arguments Ok {A} a.
Arguments Raise {A} e.

Definition bind {A B} (c : result A) (k : A -> result B) : result B :=
  match c with Ok a => k a | Raise e => Raise e end.

Definition raise {A} (c : exn_class) (msg : string) : result A :=
  Raise (mk_exn c msg).

(** [[f(x) for x in l]] when [f] may raise: the first exception wins. *)
Fixpoint mapM {A B} (f : A -> result B) (l : list A) : result (list B) :=
  match l with
  | [] => Ok []
  | x :: l' =>
      match f x with
      | Raise e => Raise e
      | Ok y => match mapM f l' with
                | Raise e => Raise e
                | Ok ys => Ok (y :: ys)
                end
      end
  end.

(** JSON scalars. *)
Inductive value :=
| VNone
| VBool (b : bool)
| VInt (z : Z)
| VStr (s : string).

(** A filter or lookup value: a scalar or a list of scalars. *)
Inductive operand :=
| OVal (v : value)
| OList (l : list value).

Abbreviation JsonDict := (gmap string value).
Abbreviation Lookup := (gmap string operand).

(** [d.get(k)]: [None] when the key is missing. *)
Definition get (d : gmap string value) (k : string) : value :=
  default VNone (d !! k).

(** [d.get(k, dflt)]. *)
Definition get_default (d : gmap string value) (k : string) (dflt : value) : value :=
  default dflt (d !! k).

(** [d.setdefault(k, v)] seen as a function on the dict. *)
Definition setdefault {V} (k : string) (v : V) (d : gmap string V) : gmap string V :=
  match d !! k with
  | Some _ => d
  | None => <[k := v]> d
  end.

(** [bool(v)]. *)
Definition truthy (v : value) : bool :=
  match v with
  | VNone => false
  | VBool b => b
  | VInt z => negb (z =? 0)
  | VStr s => negb (String.eqb s "")
  end.

(** [bool] is a subclass of [int]: both compare as numbers. *)
Definition as_num (v : value) : option Z :=
  match v with
  | VBool true => Some 1
  | VBool false => Some 0
  | VInt z => Some z
  | _ => None
  end.

(** [a == b]. *)
Definition py_eq (a b : value) : bool :=
  match as_num a, as_num b with
  | Some x, Some y => x =? y
  | _, _ =>
      match a, b with
      | VNone, VNone => true
      | VStr s, VStr t => String.eqb s t
      | _, _ => false
      end
  end.

(** [a < b]: numbers with numbers, strings with strings (by code unit);
    anything else is a [TypeError]. *)
Definition py_lt (a b : value) : result bool :=
  match as_num a, as_num b with
  | Some x, Some y => Ok (x <? y)
  | _, _ =>
      match a, b with
      | VStr s, VStr t => Ok (String.ltb s t)
      | _, _ => raise TypeError "'<' not supported between instances"
      end
  end.

(** [a <= b]. *)
Definition py_le (a b : value) : result bool :=
  match as_num a, as_num b with
  | Some x, Some y => Ok (x <=? y)
  | _, _ =>
      match a, b with
      | VStr s, VStr t => Ok (String.leb s t)
      | _, _ => raise TypeError "'<=' not supported between instances"
      end
  end.

(** Comparisons of a field value with a filter value.  A list on the
    right is never equal to a scalar and cannot be ordered against one. *)
Definition eq_operand (v : value) (o : operand) : bool :=
  match o with
  | OVal w => py_eq v w
  | OList _ => false
  end.

Definition lt_operand (v : value) (o : operand) : result bool :=
  match o with
  | OVal w => py_lt v w
  | OList _ => raise TypeError "'<' not supported between instances"
  end.

Definition le_operand (v : value) (o : operand) : result bool :=
  match o with
  | OVal w => py_le v w
  | OList _ => raise TypeError "'<=' not supported between instances"
  end.

Definition gt_operand (v : value) (o : operand) : result bool :=
  match o with
  | OVal w => py_lt w v
  | OList _ => raise TypeError "'>' not supported between instances"
  end.

Definition ge_operand (v : value) (o : operand) : result bool :=
  match o with
  | OVal w => py_le w v
  | OList _ => raise TypeError "'>=' not supported between instances"
  end.

(** [sub in s] on strings. *)
Definition contains (sub s : string) : bool :=
  match String.index 0 sub s with
  | Some _ => true
  | None => false
  end.

(** [s.startswith(p)] and [s.endswith(p)]. *)
Definition startswith (s p : string) : bool := String.prefix p s.

Definition endswith (s p : string) : bool :=
  let n := String.length s in
  let m := String.length p in
  (m <=? n)%nat && String.eqb (String.substring (n - m) m s) p.

(** [s[n:]] for [n >= 0]. *)
Definition str_from (n : nat) (s : string) : string :=
  String.substring n (String.length s - n) s.

(** [v in container]. *)
Definition py_in (v : value) (container : operand) : result bool :=
  match container with
  | OList l => Ok (existsb (py_eq v) l)
  | OVal (VStr t) =>
      match v with
      | VStr s => Ok (contains s t)
      | _ => raise TypeError "'in <string>' requires string as left operand"
      end
  | OVal _ => raise TypeError "argument is not iterable"
  end.

(** [str(v)]. *)
Definition py_str (v : value) : string :=
  match v with
  | VNone => "None"
  | VBool true => "True"
  | VBool false => "False"
  | VInt z => NilZero.string_of_int (Z.to_int z)
  | VStr s => s
  end.

(** [int(s)] on a decimal literal with an optional minus sign.  (Python
    also accepts surrounding blanks, a plus sign and digit-group
    underscores; the code never produces such spellings.) *)
Definition py_int (s : string) : result Z :=
  match NilZero.int_of_string s with
  | Some d => Ok (Z.of_int d)
  | None => raise ValueError "invalid literal for int() with base 10"
  end.

(** [l[k:]] and [l[:k]], negative indices counting from the end. *)
Definition slice_from {A} (k : Z) (l : list A) : list A :=
  if 0 <=? k then drop (Z.to_nat k) l
  else drop (length l - Z.to_nat (- k)) l.

Definition slice_to {A} (k : Z) (l : list A) : list A :=
  if 0 <=? k then take (Z.to_nat k) l
  else take (length l - Z.to_nat (- k)) l.

(** *** [sorted(l, key=..., reverse=...)]

    [sorted] is stable, also with [reverse=True]: records with equal keys
    keep their original order.  It compares keys with [<] only, and that
    raises [TypeError] unless the keys are all numbers or all strings (a
    list with fewer than two elements is never compared). *)

Fixpoint insert_by {A} (lt : A -> A -> bool) (x : A) (l : list A) : list A :=
  match l with
  | [] => [x]
  | y :: l' => if lt y x then y :: insert_by lt x l' else x :: y :: l'
  end.

Definition stable_sort {A} (lt : A -> A -> bool) (l : list A) : list A :=
  foldr (insert_by lt) [] l.

Definition type_rank (v : value) : Z :=
  match v with
  | VNone => 0
  | VBool _ | VInt _ => 1
  | VStr _ => 2
  end.

(** The order [sorted] sees on keys.  It agrees with [py_lt] wherever
    [py_lt] is defined; keys of different kinds, which [sorted] never
    gets to compare, are ranked by kind so that the relation is a strict
    weak order on all values. *)
Definition key_ltb (a b : value) : bool :=
  match as_num a, as_num b with
  | Some x, Some y => x <? y
  | _, _ =>
      match a, b with
      | VStr s, VStr t => String.ltb s t
      | _, _ => type_rank a <? type_rank b
      end
  end.

Definition is_num (v : value) : bool :=
  match as_num v with Some _ => true | None => false end.

Definition is_str (v : value) : bool :=
  match v with VStr _ => true | _ => false end.

(** The keys can be compared pairwise without a [TypeError]. *)
Definition comparable (keys : list value) : bool :=
  forallb is_num keys || forallb is_str keys.

Definition sort_lt {A} (key : A -> value) (reverse : bool) (a b : A) : bool :=
  if reverse then key_ltb (key b) (key a) else key_ltb (key a) (key b).

Definition sorted {A} (key : A -> value) (reverse : bool) (l : list A)
  : result (list A) :=
  if (length l <? 2)%nat || comparable (map key l)
  then Ok (stable_sort (sort_lt key reverse) l)
  else raise TypeError "'<' not supported between instances".

End Py.

Import Py.

(** ** [polydb/query.py] *)

Module Query.

Inductive Operator :=
| EQ | NE | GT | GTE | LT | LTE | IN | NOT_IN
| CONTAINS | STARTS_WITH | ENDS_WITH.

(** The enum values, and [Operator(s)], which looks a member up by value. *)
Definition Operator_value (o : Operator) : string :=
  match o with
  | EQ => "==" | NE => "!=" | GT => ">" | GTE => ">=" | LT => "<"
  | LTE => "<=" | IN => "in" | NOT_IN => "not_in" | CONTAINS => "contains"
  | STARTS_WITH => "starts_with" | ENDS_WITH => "ends_with"
  end.

Definition all_operators : list Operator :=
  [EQ; NE; GT; GTE; LT; LTE; IN; NOT_IN; CONTAINS; STARTS_WITH; ENDS_WITH].

Definition Operator_of_string (s : string) : result Operator :=
  match List.find (fun o => String.eqb (Operator_value o) s) all_operators with
  | Some o => Ok o
  | None => raise ValueError (s ++ " is not a valid Operator")
  end.

Record QueryFilter := mkFilter {
  field : string;
  operator : Operator;
  value : operand
}.

Record QueryBuilder := mkBuilder {
  filters : list QueryFilter;
  order_by_fields : list (string * bool);   (* (field, desc) *)
  skip_count : Z;
  take_count : option Z;
  select_fields : option (list string);
  group_by_fields : option (list string);
  distinct : bool;
  count_only : bool
}.

(** [QueryBuilder()]: the dataclass defaults. *)
Definition new : QueryBuilder :=
  {| filters := []; order_by_fields := []; skip_count := 0;
     take_count := None; select_fields := None; group_by_fields := None;
     distinct := false; count_only := false |}.

(** The builder methods mutate [self] and return it; here each returns the
    updated builder.  ([where] is a keyword, hence [where_].) *)
Definition where_ (f : string) (op : Operator) (v : operand)
  (self : QueryBuilder) : QueryBuilder :=
  {| filters := filters self ++ [mkFilter f op v];
     order_by_fields := order_by_fields self; skip_count := skip_count self;
     take_count := take_count self; select_fields := select_fields self;
     group_by_fields := group_by_fields self; distinct := distinct self;
     count_only := count_only self |}.

Definition order_by (f : string) (descending : bool)
  (self : QueryBuilder) : QueryBuilder :=
  {| filters := filters self;
     order_by_fields := order_by_fields self ++ [(f, descending)];
     skip_count := skip_count self; take_count := take_count self;
     select_fields := select_fields self;
     group_by_fields := group_by_fields self; distinct := distinct self;
     count_only := count_only self |}.

Definition skip (count : Z) (self : QueryBuilder) : QueryBuilder :=
  {| filters := filters self; order_by_fields := order_by_fields self;
     skip_count := count; take_count := take_count self;
     select_fields := select_fields self;
     group_by_fields := group_by_fields self; distinct := distinct self;
     count_only := count_only self |}.

Definition take (count : Z) (self : QueryBuilder) : QueryBuilder :=
  {| filters := filters self; order_by_fields := order_by_fields self;
     skip_count := skip_count self; take_count := Some count;
     select_fields := select_fields self;
     group_by_fields := group_by_fields self; distinct := distinct self;
     count_only := count_only self |}.

Definition select (fields : list string) (self : QueryBuilder) : QueryBuilder :=
  {| filters := filters self; order_by_fields := order_by_fields self;
     skip_count := skip_count self; take_count := take_count self;
     select_fields := Some fields;
     group_by_fields := group_by_fields self; distinct := distinct self;
     count_only := count_only self |}.

Definition group_by (fields : list string) (self : QueryBuilder) : QueryBuilder :=
  {| filters := filters self; order_by_fields := order_by_fields self;
     skip_count := skip_count self; take_count := take_count self;
     select_fields := select_fields self;
     group_by_fields := Some fields; distinct := distinct self;
     count_only := count_only self |}.

Definition distinct_on (self : QueryBuilder) : QueryBuilder :=
  {| filters := filters self; order_by_fields := order_by_fields self;
     skip_count := skip_count self; take_count := take_count self;
     select_fields := select_fields self;
     group_by_fields := group_by_fields self; distinct := true;
     count_only := count_only self |}.

Definition count (self : QueryBuilder) : QueryBuilder :=
  {| filters := filters self; order_by_fields := order_by_fields self;
     skip_count := skip_count self; take_count := take_count self;
     select_fields := select_fields self;
     group_by_fields := group_by_fields self; distinct := distinct self;
     count_only := true |}.

(** [','.join(['%s'] * n)]. *)
Definition placeholders (n : nat) : string :=
  String.concat "," (repeat "%s" n).

(** [len(v)] and [list(v)] for the value of an IN filter: a list, or a
    string taken character by character; other scalars have no [len]. *)
Definition in_params (v : operand) : result (list Py.value) :=
  match v with
  | OList l => Ok l
  | OVal (VStr s) => Ok (map (fun c => VStr (String c "")) (list_ascii_of_string s))
  | OVal _ => raise TypeError "object has no len()"
  end.

(** [f"{v}"].  A list is rendered as Python prints it, its strings between
    single quotes (exact for strings without quotes or escapes). *)
Definition py_repr (v : Py.value) : string :=
  match v with
  | VStr s => "'" ++ s ++ "'"
  | _ => py_str v
  end.

Definition format_operand (v : operand) : string :=
  match v with
  | OVal w => py_str w
  | OList l => "[" ++ String.concat ", " (map py_repr l) ++ "]"
  end.

(** One loop iteration of [to_sql_where]: the clause and the parameters
    it appends. *)
Definition filter_clause (f : QueryFilter) : result (string * list operand) :=
  match operator f with
  | EQ => Ok (field f ++ " = %s", [value f])
  | NE => Ok (field f ++ " != %s", [value f])
  | GT => Ok (field f ++ " > %s", [value f])
  | GTE => Ok (field f ++ " >= %s", [value f])
  | LT => Ok (field f ++ " < %s", [value f])
  | LTE => Ok (field f ++ " <= %s", [value f])
  | IN =>
      Py.bind (in_params (value f)) (fun ps =>
      Ok (field f ++ " IN (" ++ placeholders (length ps) ++ ")", map OVal ps))
  | NOT_IN =>
      Py.bind (in_params (value f)) (fun ps =>
      Ok (field f ++ " NOT IN (" ++ placeholders (length ps) ++ ")", map OVal ps))
  | CONTAINS =>
      Ok (field f ++ " LIKE %s",
          [OVal (VStr ("%" ++ format_operand (value f) ++ "%"))])
  | STARTS_WITH =>
      Ok (field f ++ " LIKE %s",
          [OVal (VStr (format_operand (value f) ++ "%"))])
  | ENDS_WITH =>
      Ok (field f ++ " LIKE %s",
          [OVal (VStr ("%" ++ format_operand (value f)))])
  end.

(** [to_sql_where]: the clauses joined by [" AND "], and the parameters
    (both empty when there is no filter). *)
Definition to_sql_where (self : QueryBuilder) : result (string * list operand) :=
  Py.bind (mapM filter_clause (filters self)) (fun cps =>
  Ok (String.concat " AND " (map fst cps), concat (map snd cps))).

End Query.

(** ** [polydb/retry.py] *)

Module Retry.

Section Retry.

(** The decorated function runs in some state [W] (what it reads and
    changes); [sleep d] is what [time.sleep(d)] does to that state.  The
    [MetricsHooks] callbacks are empty methods and are left out. *)
Context {W A : Type}.
Variable sleep : Q -> W -> W.

(** The [while attempt < max_attempts] loop, by the number of attempts
    that remain.  Falling out of the loop returns [None]. *)
Fixpoint retry_loop (remaining : nat) (current_delay backoff : Q)
  (exceptions : list exn_class) (func : W -> result A * W) (w : W)
  : result (option A) * W :=
  match remaining with
  | O => (Ok None, w)
  | S k =>
      match func w with
      | (Ok r, w') => (Ok (Some r), w')
      | (Raise e, w') =>
          if isinstance e exceptions then
            match k with
            | O => (Raise e, w')                     (* attempt >= max_attempts *)
            | S _ => retry_loop k (current_delay * backoff)%Q backoff exceptions
                       func (sleep current_delay w')
            end
          else (Raise e, w')
      end
  end.

(** [@retry(max_attempts, delay, backoff, exceptions)]. *)
Definition retry (max_attempts : nat) (delay backoff : Q)
  (exceptions : list exn_class) (func : W -> result A * W) (w : W)
  : result (option A) * W :=
  retry_loop max_attempts delay backoff exceptions func w.

(** The call sites decorate with [max_attempts=3], for which the wrapper
    never falls out of its loop; [retry3] is the wrapper at those sites
    (default [backoff=2.0]). *)
Definition retry3 (delay : Q) (exceptions : list exn_class)
  (func : W -> result A * W) (w : W) : result A * W :=
  match retry 3 delay 2 exceptions func w with
  | (Ok (Some r), w') => (Ok r, w')
  | (Ok None, w') => (raise TypeError "retry wrapper returned None", w')
  | (Raise e, w') => (Raise e, w')
  end.

End Retry.

End Retry.

(** ** [polydb/utils.py] *)

Module Utils.

Definition is_alnum (c : ascii) : bool :=
  let n := nat_of_ascii c in
  ((48 <=? n) && (n <=? 57) || (65 <=? n) && (n <=? 90)
   || (97 <=? n) && (n <=? 122))%nat.

(** The character classes [[a-zA-Z0-9_-]] and [[a-zA-Z0-9_]]. *)
Definition table_char (c : ascii) : bool :=
  is_alnum c || Ascii.eqb c "_" || Ascii.eqb c "-".

Definition column_char (c : ascii) : bool :=
  is_alnum c || Ascii.eqb c "_".

(** The longest prefix of [s] made of characters of the class, and the rest. *)
Fixpoint span (cls : ascii -> bool) (s : string) : string * string :=
  match s with
  | EmptyString => (EmptyString, EmptyString)
  | String c s' =>
      if cls c then let (p, r) := span cls s' in (String c p, r)
      else (EmptyString, s)
  end.

(** [re.match(r'^[cls]+$', s)]: one or more characters of the class from
    the start, then [$], which in Python matches at the end of the string
    and also just before a newline that ends the string. *)
Definition re_match_class_plus (cls : ascii -> bool) (s : string) : bool :=
  let (p, r) := span cls s in
  negb (String.eqb p "") && (String.eqb r "" || String.eqb r (String "010" "")).

Definition validate_table_name (table : string) : result string :=
  if re_match_class_plus table_char table then Ok table
  else raise ValidationError
         ("Invalid table name: '" ++ table
          ++ "'. Only alphanumeric, underscore, and hyphen allowed.").

Definition validate_column_name (column : string) : result string :=
  if re_match_class_plus column_char column then Ok column
  else raise ValidationError
         ("Invalid column name: '" ++ column
          ++ "'. Only alphanumeric and underscore allowed.").

(** [validate_columns]: every key of the dict. *)
Definition validate_columns {V} (data : gmap string V) : result (gmap string V) :=
  Py.bind (mapM validate_column_name (map fst (map_to_list data)))
          (fun _ => Ok data).

End Utils.

(** ** [polydb/base/NoSQLKVAdapter.py] *)

Module NoSQLKV.

(** What the adapter takes from Python's library: [json.dumps(d,
    default=json_safe)], the same with [sort_keys=True], [json.loads]
    ([None] when it raises), [hashlib.md5(b).hexdigest()] and
    [template.format] on the fields of a record ([None] when a field is
    missing: [KeyError]). *)
Class Json := {
  json_dumps : JsonDict -> string;
  json_dumps_sorted : JsonDict -> string;
  json_loads : string -> option JsonDict
}.

Class Hashlib := { md5_hexdigest : list Byte.byte -> string }.

Class Format := { str_format : string -> JsonDict -> option string }.

(** [s.encode()] and [b.decode()]. *)
Definition encode (s : string) : list Byte.byte := list_byte_of_string s.
Definition decode (b : list Byte.byte) : string := string_of_list_byte b.

(** [PartitionConfig] of [polydb/models.py] and the [__polydb__] metadata
    of a model class, as far as the adapter reads them. *)
Record PartitionConfig := mkPartitionConfig {
  partition_key_template : string;
  row_key_template : option string
}.

Record Model := mkModel {
  model_name : string;
  pk_field : option string;
  rk_field : option string
}.

(** The adapter object: [partition_config] and [max_size]. *)
Record Adapter := mkAdapter {
  partition_config : option PartitionConfig;
  max_size : Z
}.

(** [__init__]: the threshold is 1 MiB (subclasses overwrite it). *)
Definition init (partition_config : option PartitionConfig) : Adapter :=
  {| partition_config := partition_config; max_size := 1024 * 1024 |}.

(** The abstract methods a backend implements, over its own state [K]. *)
Class Backend (K : Type) := {
  _put_raw : Model -> string -> string -> JsonDict -> K -> result JsonDict * K;
  _query_raw : Model -> Lookup -> option Z -> K -> result (list JsonDict) * K
}.

(** The adapter's surroundings: the backend, the object store
    ([put(key, bytes)], [get(key)]; it is there from the start, its lazy
    creation under the lock is left out), the keys fetched from it so far
    and the pauses slept by the retry wrapper. *)
Record World (K : Type) := mkWorld {
  backend : K;
  object_storage : gmap string (list Byte.byte);
  fetched : list string;
  slept : list Q
}.
Arguments mkWorld {K} _ _ _ _.
Arguments backend {K} _.
Arguments object_storage {K} _.
Arguments fetched {K} _.
Arguments slept {K} _.

Section Adapter.

Context {json : Json} {hashlib : Hashlib} {format : Format}
        {K : Type} {backend_impl : Backend K}.

Definition M (A : Type) : Type := World K -> result A * World K.

Definition ret {A} (a : A) : M A := fun w => (Ok a, w).

Definition throw {A} (e : exn) : M A := fun w => (Raise e, w).

Definition st_bind {A B} (c : M A) (k : A -> M B) : M B :=
  fun w => match c w with
           | (Ok a, w') => k a w'
           | (Raise e, w') => (Raise e, w')
           end.

(** [try: c except Exception as e: raise cls(prefix + str(e))]. *)
Definition reraise_as {A} (cls : exn_class) (prefix : string) (c : M A) : M A :=
  fun w => match c w with
           | (Ok a, w') => (Ok a, w')
           | (Raise e, w') => (Raise (mk_exn cls (prefix ++ exn_msg e)), w')
           end.

Definition lift {A} (r : result A) : M A := fun w => (r, w).

Fixpoint mapM_st {A B} (f : A -> M B) (l : list A) : M (list B) :=
  match l with
  | [] => ret []
  | x :: l' => st_bind (f x) (fun y => st_bind (mapM_st f l') (fun ys => ret (y :: ys)))
  end.

Definition sleep (d : Q) (w : World K) : World K :=
  mkWorld (backend w) (object_storage w) (fetched w) (slept w ++ [d]).

Definition os_put (key : string) (data : list Byte.byte) : M unit :=
  fun w => (Ok tt, mkWorld (backend w) (<[key := data]> (object_storage w))
                           (fetched w) (slept w)).

Definition os_get (key : string) : M (list Byte.byte) :=
  fun w =>
    (match object_storage w !! key with
     | Some b => Ok b
     | None => raise Exception_ ("The specified blob does not exist: " ++ key)
     end,
     mkWorld (backend w) (object_storage w) (fetched w ++ [key]) (slept w)).

Definition on_backend {A} (c : K -> result A * K) : M A :=
  fun w => let (r, k') := c (backend w) in
           (r, mkWorld k' (object_storage w) (fetched w) (slept w)).

(** [hashlib.md5(json.dumps(data, sort_keys=True, default=json_safe)
    .encode()).hexdigest()]. *)
Definition content_hash (data : JsonDict) : string :=
  md5_hexdigest (encode (json_dumps_sorted data)).

Definition _get_pk_rk (self : Adapter) (model : Model) (data : JsonDict)
  : string * string :=
  let pk_field := default "id" (pk_field model) in
  let pk :=
    match partition_config self with
    | Some pc =>
        match str_format (partition_key_template pc) data with
        | Some pk => pk
        | None =>
            "default_"
            ++ py_str (get_default data pk_field
                         (VStr (String.substring 0 8 (content_hash data))))
        end
    | None => py_str (get_default data pk_field (VStr "default"))
    end in
  let by_template :=
    match partition_config self with
    | Some pc =>
        match row_key_template pc with
        | Some t => if String.eqb t "" then None else Some t
        | None => None
        end
    | None => None
    end in
  let rk :=
    match rk_field model with
    | Some rkf =>
        if negb (String.eqb rkf "") && bool_decide (is_Some (data !! rkf))
        then py_str (get data rkf)
        else
          match by_template with
          | Some t => default (content_hash data) (str_format t data)
          | None => py_str (get_default data "id" (VStr (content_hash data)))
          end
    | None =>
        match by_template with
        | Some t => default (content_hash data) (str_format t data)
        | None => py_str (get_default data "id" (VStr (content_hash data)))
        end
    end in
  (pk, rk).

(** The [OverflowReference] stub. *)
Definition overflow_stub (blob_key : string) (data_size : Z) (blob_id : string)
  : JsonDict :=
  <["_overflow" := VBool true]>
    (<["_blob_key" := VStr blob_key]>
       (<["_size" := VInt data_size]>
          (<["_checksum" := VStr blob_id]> ∅))).

(** The body of [_check_overflow], before decoration. *)
Definition _check_overflow_body (self : Adapter) (data : JsonDict)
  : M (JsonDict * option string) :=
  let data_bytes := encode (json_dumps data) in
  let data_size := Z.of_nat (length data_bytes) in
  if max_size self <? data_size then
    let blob_id := md5_hexdigest data_bytes in
    let blob_key := "overflow/" ++ blob_id ++ ".json" in
    st_bind (reraise_as StorageError "Overflow storage failed: "
               (os_put blob_key data_bytes)) (fun _ =>
    ret (overflow_stub blob_key data_size blob_id, Some blob_key))
  else ret (data, None).

(** [@retry(max_attempts=3, delay=1.0, exceptions=(NoSQLError,))]. *)
Definition _check_overflow (self : Adapter) (data : JsonDict)
  : M (JsonDict * option string) :=
  Retry.retry3 sleep 1 [NoSQLError] (_check_overflow_body self data).

(** The body of [_retrieve_overflow], before decoration. *)
Definition _retrieve_overflow_body (self : Adapter) (data : JsonDict)
  : M JsonDict :=
  if negb (truthy (get data "_overflow")) then ret data
  else
    reraise_as StorageError "Overflow retrieval failed: "
      (st_bind
         (match data !! "_blob_key" with
          | Some (VStr key) => os_get key
          | Some _ => throw (mk_exn TypeError "blob key must be a string")
          | None => throw (mk_exn KeyError "'_blob_key'")
          end) (fun blob_data =>
       match json_loads (decode blob_data) with
       | None => throw (mk_exn ValueError "Expecting value")
       | Some retrieved =>
           let checksum := md5_hexdigest blob_data in
           if negb (py_eq (VStr checksum) (get data "_checksum"))
           then throw (mk_exn StorageError "Checksum mismatch on overflow retrieval")
           else ret retrieved
       end)).

(** [@retry(max_attempts=3, delay=1.0, exceptions=(StorageError,))]. *)
Definition _retrieve_overflow (self : Adapter) (data : JsonDict) : M JsonDict :=
  Retry.retry3 sleep 1 [StorageError] (_retrieve_overflow_body self data).

(** One pass of the inner loop of [_apply_filters]: does [item] pass
    filter [f]?  ([match] stays [True] unless the branch of the operator
    sets it to [False].) *)
Definition filter_matches (f : Query.QueryFilter) (item : JsonDict) : result bool :=
  let value := get item (Query.field f) in
  let fvalue := Query.value f in
  match Query.operator f with
  | Query.EQ => Ok (eq_operand value fvalue)
  | Query.NE => Ok (negb (eq_operand value fvalue))
  | Query.GT => if truthy value then gt_operand value fvalue else Ok false
  | Query.GTE => if truthy value then ge_operand value fvalue else Ok false
  | Query.LT => if truthy value then lt_operand value fvalue else Ok false
  | Query.LTE => if truthy value then le_operand value fvalue else Ok false
  | Query.IN => py_in value fvalue
  | Query.NOT_IN => Py.bind (py_in value fvalue) (fun b => Ok (negb b))
  | Query.CONTAINS =>
      if truthy value then
        match fvalue with
        | OVal (VStr s) => Ok (contains s (py_str value))
        | _ => raise TypeError "'in <string>' requires string as left operand"
        end
      else Ok false
  | Query.STARTS_WITH =>
      if truthy value then
        match fvalue with
        | OVal (VStr s) => Ok (startswith (py_str value) s)
        | _ => raise TypeError "startswith first arg must be str or a tuple of str"
        end
      else Ok false
  | Query.ENDS_WITH =>
      if truthy value then
        match fvalue with
        | OVal (VStr s) => Ok (endswith (py_str value) s)
        | _ => raise TypeError "endswith first arg must be str or a tuple of str"
        end
      else Ok false
  end.

(** The inner [for f in builder.filters] loop with its [break]. *)
Fixpoint item_matches (fs : list Query.QueryFilter) (item : JsonDict) : result bool :=
  match fs with
  | [] => Ok true
  | f :: fs' =>
      match filter_matches f item with
      | Raise e => Raise e
      | Ok false => Ok false
      | Ok true => item_matches fs' item
      end
  end.

(** The outer [for item in results] loop, appending the matches. *)
Fixpoint filter_loop (fs : list Query.QueryFilter) (results : list JsonDict)
  : result (list JsonDict) :=
  match results with
  | [] => Ok []
  | item :: rest =>
      match item_matches fs item with
      | Raise e => Raise e
      | Ok m =>
          match filter_loop fs rest with
          | Raise e => Raise e
          | Ok filtered => Ok (if m then item :: filtered else filtered)
          end
      end
  end.

Definition _apply_filters (results : list JsonDict) (builder : Query.QueryBuilder)
  : result (list JsonDict) :=
  match Query.filters builder with
  | [] => Ok results
  | fs => filter_loop fs results
  end.

(** [key=lambda x: x.get(field, '')]. *)
Definition sort_key (field : string) (x : JsonDict) : value :=
  get_default x field (VStr "").

(** The loop of [_apply_ordering] over the keys in the order it visits
    them: one [sorted] per key, each on the result of the one before. *)
Fixpoint ordering_loop (keys : list (string * bool)) (results : list JsonDict)
  : result (list JsonDict) :=
  match keys with
  | [] => Ok results
  | (field, desc) :: keys' =>
      match sorted (sort_key field) desc results with
      | Raise e => Raise e
      | Ok results' => ordering_loop keys' results'
      end
  end.

(** [for field, desc in reversed(builder.order_by_fields)]. *)
Definition _apply_ordering (results : list JsonDict) (builder : Query.QueryBuilder)
  : result (list JsonDict) :=
  ordering_loop (rev (Query.order_by_fields builder)) results.

Definition _apply_pagination (results : list JsonDict) (builder : Query.QueryBuilder)
  : list JsonDict :=
  let results :=
    if Query.skip_count builder =? 0 then results
    else slice_from (Query.skip_count builder) results in
  match Query.take_count builder with
  | None => results
  | Some n => if n =? 0 then results else slice_to n results
  end.

(** [{k: v for k, v in item.items() if k in select_fields}]. *)
Definition project (fields : list string) (item : JsonDict) : JsonDict :=
  filter (fun kv => fst kv ∈ fields) item.

Definition _apply_projection (results : list JsonDict) (builder : Query.QueryBuilder)
  : list JsonDict :=
  match Query.select_fields builder with
  | None | Some [] => results
  | Some fields => map (project fields) results
  end.

(** The [distinct] loop of [query_linq]: [seen] is the set of canonical
    serialisations met so far, [unique] the records kept, in order. *)
Fixpoint distinct_loop (seen : gset string) (unique : list JsonDict)
  (results : list JsonDict) : list JsonDict :=
  match results with
  | [] => unique
  | r :: rest =>
      let key := json_dumps_sorted r in
      if bool_decide (key ∈ seen) then distinct_loop seen unique rest
      else distinct_loop ({[key]} ∪ seen) (unique ++ [r]) rest
  end.

(** [put]. *)
Definition put (self : Adapter) (model : Model) (data : JsonDict) : M JsonDict :=
  let (pk, rk) := _get_pk_rk self model data in
  st_bind (_check_overflow self data) (fun '(store_data, _) =>
  on_backend (_put_raw model pk rk store_data)).

(** [upsert] is [put]. *)
Definition upsert (self : Adapter) (model : Model) (data : JsonDict)
  (replace : bool) : M JsonDict :=
  put self model data.

(** [query]: [query or {}] goes to the backend, every row through
    [_retrieve_overflow].  ([no_cache] and [cache_ttl] are not used.) *)
Definition query (self : Adapter) (model : Model) (query : option Lookup)
  (limit : option Z) : M (list JsonDict) :=
  st_bind (on_backend (_query_raw model (default ∅ query) limit)) (fun results =>
  mapM_st (_retrieve_overflow self) results).

(** [query_page]. *)
Definition query_page (self : Adapter) (model : Model) (q : Lookup)
  (page_size : Z) (continuation_token : option string)
  : M (list JsonDict * option string) :=
  st_bind (lift (match continuation_token with
                 | None => Ok 0
                 | Some t => if String.eqb t "" then Ok 0 else py_int t
                 end)) (fun offset =>
  st_bind (query self model (Some q) (Some (page_size + 1))) (fun results =>
  let has_more := page_size <? Z.of_nat (length results) in
  let results := if has_more then slice_to page_size results else results in
  let next_token :=
    if has_more then Some (py_str (VInt (offset + page_size))) else None in
  ret (results, next_token))).

(** What [query_linq] returns: rows, or a count. *)
Inductive LinqResult :=
| Rows (rows : list JsonDict)
| Count (n : nat).

(** [query_linq]. *)
Definition query_linq (self : Adapter) (model : Model)
  (builder : Query.QueryBuilder) : M LinqResult :=
  st_bind (on_backend (_query_raw model ∅ None)) (fun results =>
  st_bind (mapM_st (_retrieve_overflow self) results) (fun results =>
  st_bind (lift (_apply_filters results builder)) (fun results =>
  if Query.count_only builder then ret (Count (length results))
  else
    st_bind (lift (_apply_ordering results builder)) (fun results =>
    let results := _apply_pagination results builder in
    let results := _apply_projection results builder in
    let results :=
      if Query.distinct builder then distinct_loop ∅ [] results else results in
    ret (Rows results))))).

End Adapter.

End NoSQLKV.

(** ** [polydb/adapters/PostgreSQLAdapter.py] *)

Module Postgres.

(** The driver: [cursor.execute(sql, params)] answers with the column
    names ([cursor.description]) and the rows ([cursor.fetchall()]), or
    raises.  It stands for the database as it is while one operation of
    the orchestrator runs.  Connection pooling and transactions do not
    change what is sent or returned and are left out. *)
Record Cursor := mkCursor {
  description : list string;
  fetchall : list (list value)
}.

Class Driver := { execute : string -> list operand -> result Cursor }.

(** [dict(zip(columns, row))]: a later duplicate column wins. *)
Definition row_dict (columns : list string) (row : list value) : JsonDict :=
  list_to_map (rev (zip columns row)).

(** [[dict(zip(columns, row)) for row in cursor.fetchall()]]. *)
Definition rows_of (c : Cursor) : list JsonDict :=
  map (row_dict (description c)) (fetchall c).

(** [try: c except Exception as e: raise DatabaseError(prefix + str(e))]. *)
Definition database_error {A} (prefix : string) (c : result A) : result A :=
  match c with
  | Ok a => Ok a
  | Raise e => Raise (mk_exn DatabaseError (prefix ++ exn_msg e))
  end.

(** [@retry(max_attempts=3, delay=1.0, exceptions=(DatabaseError,))] around
    a method whose outcome depends on its arguments and the driver only. *)
Definition retried {A} (body : result A) : result A :=
  fst (Retry.retry3 (fun _ (w : unit) => w) 1 [DatabaseError]
         (fun w => (body, w)) tt).

(** [if n:] for an [Optional[int]]. *)
Definition given (n : option Z) : option Z :=
  match n with
  | Some z => if z =? 0 then None else Some z
  | None => None
  end.

(** One iteration of the WHERE loop of [select]. *)
Definition where_part (kv : string * operand) : result (string * list operand) :=
  let (k, v) := kv in
  Py.bind (Utils.validate_column_name k) (fun _ =>
  match v with
  | OList l => Ok (k ++ " IN (" ++ Query.placeholders (length l) ++ ")", map OVal l)
  | OVal _ => Ok (k ++ " = %s", [v])
  end).

(** The statement and the parameters [select] hands to the driver.  The
    WHERE parts follow the iteration order of the map. *)
Definition select_sql (table : string) (query : option Lookup)
  (limit offset : option Z) : result (string * list operand) :=
  Py.bind (mapM where_part (map_to_list (default ∅ query))) (fun parts =>
  let sql := "SELECT * FROM " ++ table in
  let sql :=
    match parts with
    | [] => sql
    | _ => sql ++ " WHERE " ++ String.concat " AND " (map fst parts)
    end in
  let params := concat (map snd parts) in
  let '(sql, params) :=
    match given limit with
    | Some l => (sql ++ " LIMIT %s", (params ++ [OVal (VInt l)])%list)
    | None => (sql, params)
    end in
  let '(sql, params) :=
    match given offset with
    | Some o => (sql ++ " OFFSET %s", (params ++ [OVal (VInt o)])%list)
    | None => (sql, params)
    end in
  Ok (sql, params)).

Section Adapter.

Context {driver : Driver}.

(** [select]. *)
Definition select (table : string) (query : option Lookup)
  (limit offset : option Z) : result (list JsonDict) :=
  retried
    (Py.bind (Utils.validate_table_name table) (fun table =>
     database_error "Select failed: "
       (Py.bind (select_sql table query limit offset) (fun '(sql, params) =>
        Py.bind (execute sql params) (fun cursor =>
        Ok (rows_of cursor)))))).

(** [select_page]. *)
Definition select_page (table : string) (query : Lookup) (page_size : Z)
  (continuation_token : option string)
  : result (list JsonDict * option string) :=
  retried
    (Py.bind (match continuation_token with
              | None => Ok 0
              | Some t => if String.eqb t "" then Ok 0 else py_int t
              end) (fun offset =>
     Py.bind (select table (Some query) (Some (page_size + 1)) (Some offset))
       (fun results =>
     let has_more := page_size <? Z.of_nat (length results) in
     let results := if has_more then slice_to page_size results else results in
     let next_token :=
       if has_more then Some (py_str (VInt (offset + page_size))) else None in
     Ok (results, next_token)))).

(** The statement and the parameters [query_linq] hands to the driver. *)
Definition linq_sql (table : string) (builder : Query.QueryBuilder)
  : result (string * list operand) :=
  Py.bind
    (if Query.count_only builder then Ok ("SELECT COUNT(*) FROM " ++ table)
     else
       match Query.select_fields builder with
       | None | Some [] => Ok ("SELECT * FROM " ++ table)
       | Some fs =>
           Py.bind (mapM Utils.validate_column_name fs) (fun _ =>
           let fields := String.concat ", " fs in
           if Query.distinct builder
           then Ok ("SELECT DISTINCT " ++ fields ++ " FROM " ++ table)
           else Ok ("SELECT " ++ fields ++ " FROM " ++ table))
       end) (fun sql =>
  Py.bind (Query.to_sql_where builder) (fun '(where_clause, where_params) =>
  let '(sql, params) :=
    if String.eqb where_clause "" then (sql, [])
    else (sql ++ " WHERE " ++ where_clause, where_params) in
  Py.bind
    (match Query.group_by_fields builder with
     | None | Some [] => Ok sql
     | Some gs =>
         Py.bind (mapM Utils.validate_column_name gs) (fun _ =>
         Ok (sql ++ " GROUP BY " ++ String.concat ", " gs))
     end) (fun sql =>
  Py.bind
    (match Query.order_by_fields builder with
     | [] => Ok sql
     | os =>
         Py.bind (mapM (fun '(field, desc) =>
                          Py.bind (Utils.validate_column_name field) (fun _ =>
                          Ok (field ++ " " ++ (if desc : bool then "DESC" else "ASC"))))
                       os) (fun order_parts =>
         Ok (sql ++ " ORDER BY " ++ String.concat ", " order_parts))
     end) (fun sql =>
  let '(sql, params) :=
    match given (Query.take_count builder) with
    | Some n => (sql ++ " LIMIT %s", (params ++ [OVal (VInt n)])%list)
    | None => (sql, params)
    end in
  let '(sql, params) :=
    match given (Some (Query.skip_count builder)) with
    | Some n => (sql ++ " OFFSET %s", (params ++ [OVal (VInt n)])%list)
    | None => (sql, params)
    end in
  Ok (sql, params))))).

(** What reaches [cursor.execute]: the statement built for a table name
    that passed [validate_table_name]. *)
Definition select_statement (table : string) (query : option Lookup)
  (limit offset : option Z) : result (string * list operand) :=
  Py.bind (Utils.validate_table_name table) (fun table =>
  select_sql table query limit offset).

Definition linq_statement (table : string) (builder : Query.QueryBuilder)
  : result (string * list operand) :=
  Py.bind (Utils.validate_table_name table) (fun table =>
  linq_sql table builder).

(** What [query_linq] returns: rows, or the count the database computed. *)
Inductive LinqResult :=
| Rows (rows : list JsonDict)
| Count (n : value).

(** [query_linq]. *)
Definition query_linq (table : string) (builder : Query.QueryBuilder)
  : result LinqResult :=
  retried
    (Py.bind (Utils.validate_table_name table) (fun table =>
     database_error "LINQ query failed: "
       (Py.bind (linq_sql table builder) (fun '(sql, params) =>
        Py.bind (execute sql params) (fun cursor =>
        if Query.count_only builder then
          match fetchall cursor with
          | (n :: _) :: _ => Ok (Count n)
          | _ => raise TypeError "'NoneType' object is not subscriptable"
          end
        else Ok (Rows (rows_of cursor))))))).

End Adapter.

End Postgres.

(** ** [polydb/audit/AuditStorage.py] *)

Module Audit.

Section AuditStorage.

(** [self.sql]: the SQL adapter the storage queries the ledger with. *)
Variable sql_query_linq : string -> Query.QueryBuilder -> result Postgres.LinqResult.

(** The builder [verify_chain] makes: the tenant's rows (all rows when no
    tenant is given), by ascending [timestamp]. *)
Definition verify_builder (tenant_id : option string) : Query.QueryBuilder :=
  let builder := Query.new in
  let builder :=
    match tenant_id with
    | Some t => Query.where_ "tenant_id" Query.EQ (OVal (VStr t)) builder
    | None => builder
    end in
  Query.order_by "timestamp" false builder.

(** The [for record in records] loop of [verify_chain]. *)
Fixpoint chain_walk (prev_hash : value) (records : list JsonDict) : bool :=
  match records with
  | [] => true
  | record :: rest =>
      if negb (py_eq (get record "previous_hash") prev_hash) then false
      else chain_walk (get record "hash") rest
  end.

(** [verify_chain]. *)
Definition verify_chain (tenant_id : option string) : result bool :=
  Py.bind (sql_query_linq "polydb_audit_log" (verify_builder tenant_id))
    (fun records =>
  match records with
  | Postgres.Rows [] => Ok true
  | Postgres.Rows rs => Ok (chain_walk VNone rs)
  | Postgres.Count n =>
      if truthy n then raise TypeError "'int' object is not iterable"
      else Ok true
  end).

End AuditStorage.

End Audit.

(** ** [polydb/multitenancy.py] and [polydb/audit/context.py] *)

Module Tenancy.

Inductive IsolationLevel := SHARED_SCHEMA | SEPARATE_SCHEMA | SEPARATE_DATABASE.

Record TenantConfig := mkTenantConfig {
  tenant_id : string;
  isolation_level : IsolationLevel;
  schema_name : option string;
  database_name : option string
}.

(** The ambient request context: [TenantContext.current_tenant], the
    [AuditContext] variables the orchestrator reads, and the clock. *)
Record Env := mkEnv {
  current_tenant : option TenantConfig;
  audit_tenant_id : option string;
  audit_actor_id : option string;
  utcnow : string
}.

(** [if s:] for an [Optional[str]]. *)
Definition nonempty (s : option string) : option string :=
  match s with
  | Some t => if String.eqb t "" then None else Some t
  | None => None
  end.

(** [TenantIsolationEnforcer.enforce_read] and [enforce_write]: both need
    a tenant in [TenantContext] and, for a shared schema, set [tenant_id]. *)
Definition enforce {V} (inj : value -> V) (env : Env) (d : gmap string V)
  : result (gmap string V) :=
  match current_tenant env with
  | None => raise ValueError "No tenant context set"
  | Some tenant =>
      match isolation_level tenant with
      | SHARED_SCHEMA => Ok (<["tenant_id" := inj (VStr (tenant_id tenant))]> d)
      | _ => Ok d
      end
  end.

Definition enforce_read (env : Env) (model : string) (query : Lookup)
  : result Lookup :=
  enforce OVal env query.

Definition enforce_write (env : Env) (model : string) (data : JsonDict)
  : result JsonDict :=
  enforce (fun v => v) env data.

End Tenancy.

(** ** [polydb/security.py] *)

Module Security.

(** What field encryption takes from [cryptography], [base64] and [json]:
    whether [cryptography] can be imported, [base64.b64decode],
    [AESGCM(key).decrypt(nonce, ciphertext, None)], [bytes.decode("utf-8")]
    and [json.loads] of a plaintext ([None] for [JSONDecodeError]). *)
Class Crypto := {
  cryptography_installed : bool;
  b64decode : string -> result (list Byte.byte);
  aesgcm_decrypt : list Byte.byte -> list Byte.byte -> list Byte.byte
                   -> result (list Byte.byte);
  utf8_decode : list Byte.byte -> result string;
  json_loads_value : string -> option value
}.

Record FieldEncryption := mkFieldEncryption { encryption_key : list Byte.byte }.

Section FieldEncryption.

Context {crypto : Crypto}.

(** The statements of the [try] block of [_decrypt_value] from
    [b64decode] to [decode("utf-8")]: the plaintext, or the exception. *)
Definition decrypt_payload (self : FieldEncryption) (payload : string)
  : result string :=
  Py.bind (b64decode payload) (fun combined =>
  let nonce := take 12 combined in
  let ciphertext := drop 12 combined in
  Py.bind (aesgcm_decrypt (encryption_key self) nonce ciphertext)
    (fun plaintext_bytes =>
  utf8_decode plaintext_bytes)).

(** [_decrypt_value].  Inside the [try] the name [encrypted_data] is
    rebound to the text after the prefix, and that is what the handler of
    [Exception] returns. *)
Definition _decrypt_value (self : FieldEncryption) (encrypted_data : value)
  : result value :=
  match encrypted_data with
  | VStr s =>
      if negb (startswith s "encrypted:") then Ok encrypted_data
      else if negb cryptography_installed
      then raise ImportError "cryptography not installed"
      else
        let encrypted_data := str_from 10 s in
        match decrypt_payload self encrypted_data with
        | Ok plaintext =>
            match json_loads_value plaintext with
            | Some v => Ok v
            | None => Ok (VStr plaintext)
            end
        | Raise e => Ok (VStr encrypted_data)
        end
  | _ => Ok encrypted_data
  end.

(** [decrypt_fields]: the listed fields that are present and not [None]. *)
Fixpoint decrypt_fields (self : FieldEncryption) (data : JsonDict)
  (fields : list string) : result JsonDict :=
  match fields with
  | [] => Ok data
  | field :: rest =>
      match data !! field with
      | Some VNone | None => decrypt_fields self data rest
      | Some v =>
          Py.bind (_decrypt_value self v) (fun v' =>
          decrypt_fields self (<[field := v']> data) rest)
      end
  end.

End FieldEncryption.

(** Row-level security. *)
Record SecurityContext := mkContext {
  ctx_actor_id : option string;
  ctx_tenant_id : option string;
  ctx_roles : list string;
  ctx_timestamp : string
}.

Record Policy := mkPolicy {
  name : string;
  func : JsonDict -> SecurityContext -> bool;
  apply_to : string            (* 'read', 'write' or 'both' *)
}.

Record RowLevelSecurity := mkRLS {
  policies : gmap string (list Policy);
  _read_filters : gmap string Lookup;
  _write_filters : gmap string JsonDict;
  request_timestamp : string   (* os.getenv("REQUEST_TIMESTAMP", "") *)
}.

(** [_get_context()] with its defaults. *)
Definition _get_context (self : RowLevelSecurity) : SecurityContext :=
  mkContext None None [] (request_timestamp self).

(** [check_access]. *)
Definition check_access (self : RowLevelSecurity) (model : string)
  (item : JsonDict) (ctx : SecurityContext) (operation : string) : bool :=
  match policies self !! model with
  | None => true
  | Some ps =>
      forallb (fun p =>
                 if contains operation (apply_to p) || String.eqb (apply_to p) "both"
                 then func p item ctx else true) ps
  end.

(** Keys of [extra] missing from [d] are added. *)
Definition add_missing {V} (extra d : gmap string V) : gmap string V := d ∪ extra.

(** [enforce_read], called without a context. *)
Definition enforce_read (self : RowLevelSecurity) (model : string)
  (query : Lookup) : Lookup :=
  let result :=
    match _read_filters self !! model with
    | Some fs => add_missing fs query
    | None => query
    end in
  match Tenancy.nonempty (ctx_tenant_id (_get_context self)) with
  | Some t => setdefault "tenant_id" (OVal (VStr t)) result
  | None => result
  end.

(** [enforce_write], called without a context. *)
Definition enforce_write (self : RowLevelSecurity) (model : string)
  (data : JsonDict) : result JsonDict :=
  let ctx := _get_context self in
  if negb (check_access self model data ctx "write")
  then raise PermissionError ("RLS write denied for model '" ++ model ++ "'")
  else
    let result :=
      match _write_filters self !! model with
      | Some fs => add_missing fs data
      | None => data
      end in
    match Tenancy.nonempty (ctx_tenant_id ctx) with
    | Some t => Ok (setdefault "tenant_id" (VStr t) result)
    | None => Ok result
    end.

End Security.

(** ** [polydb/databaseFactory.py] *)

Module Factory.

(** An entity identifier: a plain id, or a lookup dict. *)
Inductive EntityId :=
| EId (v : value)
| ELookup (q : Lookup).

(** [ModelMeta] ([polydb/types.py]) with the optional [encrypted_fields]
    attribute the orchestrator asks for, and a registered model: its name,
    its metadata and its class ([ModelRegistry.get] and [resolve] succeed
    and [ModelValidator.validate_and_raise] passes; otherwise an operation
    raises before it does anything else). *)
Record ModelMeta := mkModelMeta {
  storage : string;
  table : option string;
  cache : bool;
  cache_ttl : option Z;
  encrypted_fields : list string
}.

Record ModelRef := mkModelRef {
  model_name : string;
  meta : ModelMeta;
  model_type : NoSQLKV.Model
}.

(** The adapter protocols of [polydb/types.py].  An adapter answers from
    the database as it is while one operation runs. *)
Record SQLAdapter := mkSQLAdapter {
  sql_insert : string -> JsonDict -> result JsonDict;
  sql_select : string -> option Lookup -> option Z -> option Z
               -> result (list JsonDict);
  sql_select_page : string -> Lookup -> Z -> option string
                    -> result (list JsonDict * option string);
  sql_update : string -> EntityId -> JsonDict -> result JsonDict;
  sql_upsert : string -> JsonDict -> result JsonDict;
  sql_delete : string -> EntityId -> result JsonDict
}.

Record NoSQLAdapter := mkNoSQLAdapter {
  nosql_put : NoSQLKV.Model -> JsonDict -> result JsonDict;
  nosql_query : NoSQLKV.Model -> option Lookup -> option Z -> bool -> option Z
                -> result (list JsonDict);
  nosql_query_page : NoSQLKV.Model -> Lookup -> Z -> option string
                     -> result (list JsonDict * option string);
  nosql_patch : NoSQLKV.Model -> EntityId -> JsonDict -> option string -> bool
                -> result JsonDict;
  nosql_upsert : NoSQLKV.Model -> JsonDict -> bool -> result JsonDict;
  nosql_delete : NoSQLKV.Model -> EntityId -> option string -> result JsonDict
}.

(** The external cache ([get]; [set] and [invalidate] return nothing),
    the field encryption object and the masking object. *)
Record Cache := mkCache {
  cache_get : string -> Lookup -> option (list JsonDict)
}.

Record Encryption := mkEncryption {
  encrypt_fields : JsonDict -> list string -> result JsonDict;
  decrypt_fields : JsonDict -> list string -> result JsonDict
}.

(** The orchestrator.  Audit recording, metrics and cache writes happen
    beside the operation (their failures are caught) and change neither
    what is sent to storage nor what is returned; they are left out. *)
Record DatabaseFactory := mkFactory {
  _enable_retries : bool;
  _enable_cache : bool;
  _soft_delete : bool;
  _cache : option Cache;
  encryption : option Encryption;
  mask : JsonDict -> string -> option string -> option string -> JsonDict;
  rls : option Security.RowLevelSecurity;
  tenant_enforcer : bool;
  _sql : SQLAdapter;
  _nosql : NoSQLAdapter
}.

Section Orchestrator.

Variable self : DatabaseFactory.
Variable env : Tenancy.Env.

Definition _current_tenant_id : option string :=
  match Tenancy.current_tenant env with
  | Some tenant =>
      if negb (String.eqb (Tenancy.tenant_id tenant) "")
      then Some (Tenancy.tenant_id tenant)
      else Tenancy.audit_tenant_id env
  | None => Tenancy.audit_tenant_id env
  end.

Definition _current_actor_id : option string := Tenancy.audit_actor_id env.

Definition _inject_tenant (data : JsonDict) : result JsonDict :=
  match Tenancy.nonempty _current_tenant_id with
  | None =>
      raise ValueError
        "Tenant ID is required but not set in AuditContext or TenantContext"
  | Some tenant_id => Ok (setdefault "tenant_id" (VStr tenant_id) data)
  end.

Definition _inject_audit_fields (data : JsonDict) (is_create : bool) : JsonDict :=
  let actor_id := Tenancy.nonempty _current_actor_id in
  let now := VStr (Tenancy.utcnow env) in
  let stamp (k : string) (d : JsonDict) :=
    match actor_id with
    | Some a => setdefault k (VStr a) d
    | None => d
    end in
  let data :=
    if is_create then stamp "created_by" (setdefault "created_at" now data)
    else data in
  stamp "updated_by" (setdefault "updated_at" now data).

Definition _apply_soft_delete_filter (query : option Lookup) : Lookup :=
  if negb (_soft_delete self) then default ∅ query
  else setdefault "deleted_at" (OVal VNone) (default ∅ query).

(** [_run]: three attempts on any exception when retries are enabled. *)
Definition _run {A} (fn : result A) : result A :=
  if negb (_enable_retries self) then fn
  else fst (Retry.retry3 (fun _ (w : unit) => w) (1 # 2) [Exception_]
              (fun w => (fn, w)) tt).

(** [meta.storage == "sql" and meta.table]. *)
Definition sql_table (m : ModelMeta) : option string :=
  if String.eqb (storage m) "sql" then Tenancy.nonempty (table m) else None.

(** [self.encryption and encrypted_fields]. *)
Definition encrypting (m : ModelMeta) : option Encryption :=
  match encrypted_fields m with
  | [] => None
  | _ => encryption self
  end.

(** The encryption step in front of [create] and [upsert]. *)
Definition encrypt_record (m : ModelMeta) (data : JsonDict) : result JsonDict :=
  match encrypting m with
  | Some e => encrypt_fields e data (encrypted_fields m)
  | None => Ok data
  end.

(** The tenant and security steps in front of a write. *)
Definition write_policies (model_name : string) (data : JsonDict)
  : result JsonDict :=
  Py.bind (if tenant_enforcer self then Tenancy.enforce_write env model_name data
           else Ok data) (fun data =>
  match rls self with
  | Some r => Security.enforce_write r model_name data
  | None => Ok data
  end).

(** The statements with which [read] and [read_page] turn the caller's
    query into the one they dispatch. *)
Definition dispatch_query (model_name : string) (query : option Lookup)
  (include_deleted : bool) : result Lookup :=
  let query := _apply_soft_delete_filter (if include_deleted then None else query) in
  Py.bind (if tenant_enforcer self then Tenancy.enforce_read env model_name query
           else Ok query) (fun query =>
  let query :=
    match rls self with
    | Some r => Security.enforce_read r model_name query
    | None => query
    end in
  match Tenancy.nonempty _current_tenant_id with
  | Some tenant_id => Ok (setdefault "tenant_id" (OVal (VStr tenant_id)) query)
  | None => Ok query
  end).

(** Decrypt, then mask, every row. *)
Definition decrypt_row (m : ModelMeta) (row : JsonDict) : result JsonDict :=
  match encrypting m with
  | Some e => decrypt_fields e row (encrypted_fields m)
  | None => Ok row
  end.

Definition postprocess (model : ModelRef) (raw_rows : list JsonDict)
  : result (list JsonDict) :=
  Py.bind (mapM (decrypt_row (meta model)) raw_rows) (fun raw_rows =>
  Ok (map (fun r => mask self r (model_name model) _current_actor_id
                      _current_tenant_id) raw_rows)).

(** [create]. *)
Definition create_op (model : ModelRef) (data : JsonDict) : result JsonDict :=
  Py.bind (match sql_table (meta model) with
           | Some t => sql_insert (_sql self) t data
           | None => nosql_put (_nosql self) (model_type model) data
           end) (fun result => decrypt_row (meta model) result).

Definition create (model : ModelRef) (data : JsonDict) : result JsonDict :=
  Py.bind (write_policies (model_name model) data) (fun data =>
  Py.bind (_inject_tenant data) (fun data =>
  let data := _inject_audit_fields data true in
  Py.bind (encrypt_record (meta model) data) (fun data =>
  _run (create_op model data)))).

(** [read]. *)
Definition use_external_cache (m : ModelMeta) : option Cache :=
  if _enable_cache self && cache m then _cache self else None.

Definition read_op (model : ModelRef) (query : Lookup) (limit offset : option Z)
  (no_cache : bool) (cache_ttl : option Z) : result (list JsonDict) :=
  Py.bind (match sql_table (meta model) with
           | Some t => sql_select (_sql self) t (Some query) limit offset
           | None =>
               let eff_no_cache :=
                 no_cache || bool_decide (is_Some (use_external_cache (meta model))) in
               let eff_ttl :=
                 match cache_ttl with
                 | Some t => Some t
                 | None => Factory.cache_ttl (meta model)
                 end in
               nosql_query (_nosql self) (model_type model) (Some query) limit
                 eff_no_cache (if eff_no_cache then None else eff_ttl)
           end) (fun raw_rows => postprocess model raw_rows).

Definition read (model : ModelRef) (query : option Lookup)
  (limit offset : option Z) (no_cache : bool) (cache_ttl : option Z)
  (include_deleted : bool) : result (list JsonDict) :=
  Py.bind (dispatch_query (model_name model) query include_deleted) (fun query =>
  let cached :=
    match use_external_cache (meta model) with
    | Some c => if no_cache then None else cache_get c (model_name model) query
    | None => None
    end in
  match cached with
  | Some rows => Ok rows
  | None => _run (read_op model query limit offset no_cache cache_ttl)
  end).

(** [read_one]. *)
Definition read_one (model : ModelRef) (query : Lookup) (no_cache : bool)
  (include_deleted : bool) : result (option JsonDict) :=
  Py.bind (read model (Some query) (Some 1) None no_cache None include_deleted)
    (fun rows => Ok (head rows)).

(** [read_page]. *)
Definition read_page_op (model : ModelRef) (query : Lookup) (page_size : Z)
  (continuation_token : option string)
  : result (list JsonDict * option string) :=
  Py.bind (match sql_table (meta model) with
           | Some t => sql_select_page (_sql self) t query page_size
                         continuation_token
           | None => nosql_query_page (_nosql self) (model_type model) query
                       page_size continuation_token
           end) (fun '(raw_rows, next_token) =>
  Py.bind (postprocess model raw_rows) (fun rows => Ok (rows, next_token))).

Definition read_page (model : ModelRef) (query : Lookup) (page_size : Z)
  (continuation_token : option string) (include_deleted : bool)
  : result (list JsonDict * option string) :=
  Py.bind (dispatch_query (model_name model) (Some query) include_deleted)
    (fun query => _run (read_page_op model query page_size continuation_token)).

(** [_fetch_before]. *)
Definition _fetch_before (model : ModelRef) (entity_id : EntityId)
  : result (option JsonDict) :=
  let lookup :=
    match entity_id with
    | EId v => {["id" := OVal v]}
    | ELookup q => q
    end in
  read_one model lookup true true.

(** [update]. *)
Definition update_op (model : ModelRef) (entity_id : EntityId) (data : JsonDict)
  (etag : option string) (replace : bool) : result JsonDict :=
  Py.bind (match sql_table (meta model) with
           | Some t =>
               let entity_id :=
                 match Tenancy.nonempty _current_tenant_id, entity_id with
                 | Some tenant_id, ELookup q =>
                     ELookup (setdefault "tenant_id" (OVal (VStr tenant_id)) q)
                 | _, _ => entity_id
                 end in
               sql_update (_sql self) t entity_id data
           | None => nosql_patch (_nosql self) (model_type model) entity_id data
                       etag replace
           end) (fun result => decrypt_row (meta model) result).

Definition update (model : ModelRef) (entity_id : EntityId) (data : JsonDict)
  (etag : option string) (replace : bool) : result JsonDict :=
  let data := _inject_audit_fields data false in
  Py.bind (write_policies (model_name model) data) (fun data =>
  Py.bind (match encrypting (meta model) with
           | Some e =>
               encrypt_fields e data
                 (List.filter (fun f => bool_decide (is_Some (data !! f)))
                    (encrypted_fields (meta model)))
           | None => Ok data
           end) (fun data =>
  Py.bind (_fetch_before model entity_id) (fun before =>
  _run (update_op model entity_id data etag replace)))).

(** [upsert]. *)
Definition upsert_op (model : ModelRef) (data : JsonDict) (replace : bool)
  : result JsonDict :=
  Py.bind (match sql_table (meta model) with
           | Some t => sql_upsert (_sql self) t data
           | None => nosql_upsert (_nosql self) (model_type model) data replace
           end) (fun result => decrypt_row (meta model) result).

Definition upsert (model : ModelRef) (data : JsonDict) (replace : bool)
  : result JsonDict :=
  Py.bind (write_policies (model_name model) data) (fun data =>
  Py.bind (_inject_tenant data) (fun data =>
  let data := _inject_audit_fields data true in
  Py.bind (encrypt_record (meta model) data) (fun data =>
  _run (upsert_op model data replace)))).

(** [delete]. *)
Definition delete_op (model : ModelRef) (entity_id : EntityId)
  (etag : option string) : result JsonDict :=
  match sql_table (meta model) with
  | Some t => sql_delete (_sql self) t entity_id
  | None => nosql_delete (_nosql self) (model_type model) entity_id etag
  end.

Definition delete (model : ModelRef) (entity_id : EntityId)
  (etag : option string) (hard : bool) : result JsonDict :=
  if _soft_delete self && negb hard then
    let delete_payload : JsonDict :=
      <["deleted_at" := VStr (Tenancy.utcnow env)]>
        (<["deleted_by" := match _current_actor_id with
                           | Some a => VStr a
                           | None => VNone
                           end]> ∅) in
    update model entity_id delete_payload None false
  else
    Py.bind (_fetch_before model entity_id) (fun before =>
    _run (delete_op model entity_id etag)).

End Orchestrator.

End Factory.

(** ** Specification-side definitions

    What the properties of Part II are stated against.  These follow the
    wording of the specification, not the code. *)

Module Spec.

(** *** Ordering *)

(** A comparison [lt] on records is a strict weak order: irreflexive,
    transitive, and with a transitive "neither is smaller" relation. *)
Record StrictWeak {A} (lt : A -> A -> bool) : Prop := mkStrictWeak {
  sw_irrefl : forall x, lt x x = false;
  sw_trans : forall x y z, lt x y = true -> lt y z = true -> lt x z = true;
  sw_negtrans : forall x y z, lt x y = false -> lt y z = false -> lt x z = false
}.

(** [lex lt1 lt2]: order by [lt1], ties of [lt1] by [lt2]. *)
Definition lex {A} (lt1 lt2 : A -> A -> bool) (x y : A) : bool :=
  lt1 x y || (negb (lt1 y x) && lt2 x y).

(** The lexicographic order of a list of comparisons, the most
    significant one first. *)
Fixpoint lex_list {A} (lts : list (A -> A -> bool)) : A -> A -> bool :=
  match lts with
  | [] => fun _ _ => false
  | lt :: rest => lex lt (lex_list rest)
  end.

(** Two records are tied when neither is smaller. *)
Definition tied {A} (lt : A -> A -> bool) (x y : A) : bool :=
  negb (lt x y) && negb (lt y x).

(** [r] is in order for [lt]: no element is smaller than an earlier one. *)
Definition in_order {A} (lt : A -> A -> bool) (r : list A) : Prop :=
  StronglySorted (fun a b => lt b a = false) r.

(** [r] is the stable sort of [l] by [lt]: the same records, in order, and
    records tied with each other in the order they had in [l]. *)
Definition stable_sort_of {A} (lt : A -> A -> bool) (l r : list A) : Prop :=
  Permutation l r /\ in_order lt r
  /\ forall x, List.filter (tied lt x) r = List.filter (tied lt x) l.

(** The comparison one [order_by(field, descending)] call asks for. *)
Definition by_field (call : string * bool) : JsonDict -> JsonDict -> bool :=
  sort_lt (NoSQLKV.sort_key (fst call)) (snd call).

(** The comparison of a multi-key sort whose keys are listed from the
    most to the least significant. *)
Definition multi_key (keys : list (string * bool)) : JsonDict -> JsonDict -> bool :=
  lex_list (map by_field keys).

(** The builder after a sequence of [order_by] calls. *)
Definition order_by_calls (calls : list (string * bool)) (b : Query.QueryBuilder)
  : Query.QueryBuilder :=
  fold_left (fun b call => Query.order_by (fst call) (snd call) b) calls b.

(** A key column can be sorted: fewer than two records, or keys that are
    all numbers or all strings. *)
Definition sortable (l : list JsonDict) (call : string * bool) : bool :=
  (length l <? 2)%nat || comparable (map (NoSQLKV.sort_key (fst call)) l).

(** The reading of a sequence of [order_by] calls under which the last
    call gives the most significant key and the first call the least. *)
Definition last_call_primary (calls : list (string * bool))
  : JsonDict -> JsonDict -> bool :=
  multi_key (rev calls).

(** *** Overflow *)

Section Overflow.

Context {json : NoSQLKV.Json} {hashlib : NoSQLKV.Hashlib}.

(** What reading a stored record yields, given the content of the object
    store: the record itself, or, for an overflow stub, the decoded content
    of its blob provided the digest of the blob equals the checksum of the
    stub; every failure is a [StorageError]. *)
Definition hydrate (store : gmap string (list Byte.byte)) (r : JsonDict)
  : result JsonDict :=
  if negb (truthy (get r "_overflow")) then Ok r
  else
    match r !! "_blob_key" with
    | Some (VStr key) =>
        match store !! key with
        | Some blob =>
            match NoSQLKV.json_loads (NoSQLKV.decode blob) with
            | Some full =>
                if py_eq (VStr (NoSQLKV.md5_hexdigest blob)) (get r "_checksum")
                then Ok full
                else raise StorageError
                  "Overflow retrieval failed: Checksum mismatch on overflow retrieval"
            | None => raise StorageError "Overflow retrieval failed: Expecting value"
            end
        | None =>
            raise StorageError
              ("Overflow retrieval failed: The specified blob does not exist: "
               ++ key)
        end
    | Some _ => raise StorageError "Overflow retrieval failed: blob key must be a string"
    | None => raise StorageError "Overflow retrieval failed: '_blob_key'"
    end.

(** Deduplication by canonical serialisation, first occurrence kept:
    [earlier] holds the serialisations already met. *)
Fixpoint first_seen (earlier : list string) (l : list JsonDict) : list JsonDict :=
  match l with
  | [] => []
  | r :: rest =>
      if bool_decide (NoSQLKV.json_dumps_sorted r ∈ earlier)
      then first_seen earlier rest
      else r :: first_seen (NoSQLKV.json_dumps_sorted r :: earlier) rest
  end.

(** The stages of a LINQ query over hydrated records, in their order:
    filter, then the count short-circuit, then order, paginate, project
    and distinct. *)
Definition linq_stages (b : Query.QueryBuilder) (full : list JsonDict)
  : result NoSQLKV.LinqResult :=
  Py.bind (NoSQLKV._apply_filters full b) (fun filtered =>
  if Query.count_only b then Ok (NoSQLKV.Count (length filtered))
  else
    Py.bind (NoSQLKV._apply_ordering filtered b) (fun ordered =>
    let page := NoSQLKV._apply_pagination ordered b in
    let projected := NoSQLKV._apply_projection page b in
    Ok (NoSQLKV.Rows (if Query.distinct b then first_seen [] projected
                      else projected)))).

End Overflow.

(** *** Audit chain *)




(** *** Identifiers *)

Fixpoint all_chars (cls : ascii -> bool) (s : string) : bool :=
  match s with
  | EmptyString => true
  | String c s' => cls c && all_chars cls s'
  end.

(** A non-empty string of characters of the class. *)
Definition identifier (cls : ascii -> bool) (s : string) : bool :=
  negb (String.eqb s "") && all_chars cls s.

(** The last character of the string is a line feed. *)
Fixpoint ends_with_newline (s : string) : bool :=
  match s with
  | EmptyString => false
  | String c EmptyString => Ascii.eqb c "010"
  | String _ s' => ends_with_newline s'
  end.

(** *** Paging *)

(** The database answers the page statements of [table] under the filter
    [q] from one ordered dataset: the statement can be built (the table
    and the filter columns are valid names) and [LIMIT l OFFSET o] yields
    the [l] rows after the first [o]. *)
Definition pages_from_dataset {driver : Postgres.Driver} (table : string)
  (q : Lookup) (dataset : list JsonDict) : Prop :=
  forall limit offset, 0 < limit -> 0 <= offset ->
    exists sql params cursor,
      Postgres.select_statement table (Some q) (Some limit) (Some offset)
      = Ok (sql, params)
      /\ Postgres.execute sql params = Ok cursor
      /\ Postgres.rows_of cursor
         = take (Z.to_nat limit) (drop (Z.to_nat offset) dataset).

End Spec.

(** ** Sample data *)

Module Examples.

(** Two records that the keys [a] and [b] order in opposite ways. *)
Definition rec_a1_b2 : JsonDict := <["a" := VInt 1]> (<["b" := VInt 2]> ∅).
Definition rec_a2_b1 : JsonDict := <["a" := VInt 2]> (<["b" := VInt 1]> ∅).

(** [QueryBuilder().order_by("a").order_by("b")]. *)
Definition by_a_then_b : Query.QueryBuilder :=
  Query.order_by "b" false (Query.order_by "a" false Query.new).

(** *** Stand-ins for the library functions

    A line-oriented serialisation ([key=<tag><text>;] per field, in key
    order), a small rolling checksum, a [format] that knows no
    placeholders and a backend that keeps its rows in a list and answers
    every query with a scan.  They only serve to run the model on sample
    inputs. *)

Definition render_value (v : value) : string :=
  match v with
  | VNone => "n"
  | VBool true => "t"
  | VBool false => "f"
  | VInt z => "i" ++ py_str (VInt z)
  | VStr s => "s" ++ s
  end.

Definition parse_value (s : string) : option value :=
  match s with
  | String "n" "" => Some VNone
  | String "t" "" => Some (VBool true)
  | String "f" "" => Some (VBool false)
  | String "i" digits =>
      match py_int digits with
      | Ok z => Some (VInt z)
      | Raise _ => None
      end
  | String "s" text => Some (VStr text)
  | _ => None
  end.

Fixpoint split_on (sep : ascii) (s : string) : list string :=
  match s with
  | EmptyString => [EmptyString]
  | String c s' =>
      if Ascii.eqb c sep then EmptyString :: split_on sep s'
      else match split_on sep s' with
           | [] => [String c EmptyString]
           | h :: t => String c h :: t
           end
  end.

Fixpoint cut_at (sep : ascii) (s : string) : option (string * string) :=
  match s with
  | EmptyString => None
  | String c s' =>
      if Ascii.eqb c sep then Some (EmptyString, s')
      else match cut_at sep s' with
           | Some (a, b) => Some (String c a, b)
           | None => None
           end
  end.

Definition line_dumps (d : JsonDict) : string :=
  String.concat "" (map (fun kv => fst kv ++ "=" ++ render_value (snd kv) ++ ";")
                        (map_to_list d)).

Definition line_loads (s : string) : option JsonDict :=
  foldr (fun entry acc =>
           match acc with
           | None => None
           | Some m =>
               if String.eqb entry "" then Some m
               else match cut_at "=" entry with
                    | Some (k, v) =>
                        match parse_value v with
                        | Some pv => Some (<[k := pv]> m)
                        | None => None
                        end
                    | None => None
                    end
           end) (Some ∅) (split_on ";" s).

Definition line_json : NoSQLKV.Json :=
  {| NoSQLKV.json_dumps := line_dumps;
     NoSQLKV.json_dumps_sorted := line_dumps;
     NoSQLKV.json_loads := line_loads |}.

Definition rolling_md5 (b : list Byte.byte) : string :=
  py_str (VInt (fold_left (fun acc x => (acc * 31 + Z.of_N (Byte.to_N x)) mod 65521)
                          b 7)).

Definition rolling_hashlib : NoSQLKV.Hashlib := {| NoSQLKV.md5_hexdigest := rolling_md5 |}.

Definition plain_format : NoSQLKV.Format :=
  {| NoSQLKV.str_format := fun template _ => Some template |}.

Definition Rows := list (string * string * JsonDict).

Definition scan_backend : NoSQLKV.Backend Rows :=
  {| NoSQLKV._put_raw := fun _ pk rk data k =>
       (Ok (<["PK" := VStr pk]> (<["SK" := VStr rk]> ∅)), (k ++ [(pk, rk, data)])%list);
     NoSQLKV._query_raw := fun _ _ limit k =>
       (Ok (match limit with
            | Some n => take (Z.to_nat n) (map snd k)
            | None => map snd k
            end), k) |}.

(** An adapter whose threshold is eight bytes, a model and a record whose
    serialisation is longer than that. *)
Definition tiny_adapter : NoSQLKV.Adapter := NoSQLKV.mkAdapter None 8.

Definition user_model : NoSQLKV.Model := NoSQLKV.mkModel "User" None None.

Definition user_record : JsonDict :=
  <["id" := VStr "u1"]> (<["bio" := VStr "a long biography"]> ∅).

Definition empty_world : NoSQLKV.World Rows := NoSQLKV.mkWorld [] ∅ [] [].

(** The blob key and the stub of [user_record], and a world whose object
    store holds other bytes under that key. *)
Definition user_bytes : list Byte.byte :=
  NoSQLKV.encode (NoSQLKV.json_dumps (Json := line_json) user_record).

Definition user_blob_key : string :=
  "overflow/" ++ NoSQLKV.md5_hexdigest (Hashlib := rolling_hashlib) user_bytes ++ ".json".

Definition user_stub : JsonDict :=
  NoSQLKV.overflow_stub user_blob_key (Z.of_nat (length user_bytes))
    (NoSQLKV.md5_hexdigest (Hashlib := rolling_hashlib) user_bytes).

Definition corrupted_bytes : list Byte.byte :=
  NoSQLKV.encode "id=su1;bio=sa wrong biography;".

Definition corrupted_world : NoSQLKV.World Rows :=
  NoSQLKV.mkWorld [] (<[user_blob_key := corrupted_bytes]> ∅) [] [].

(** Three ledger rows of one tenant, properly linked, and the same rows
    with a foreign row in the middle. *)
Definition audit_row (h : string) (prev : value) : JsonDict :=
  <["hash" := VStr h]> (<["previous_hash" := prev]> (<["tenant_id" := VStr "t1"]> ∅)).


Definition broken_ledger : list JsonDict :=
  [audit_row "h1" VNone; audit_row "hx" (VStr "h0"); audit_row "h2" (VStr "h1")].

(** An SQL adapter that answers every LINQ query with the given rows. *)
Definition ledger_adapter (rows : list JsonDict)
  : string -> Query.QueryBuilder -> result Postgres.LinqResult :=
  fun _ _ => Ok (Postgres.Rows rows).

(** A [cryptography] stand-in that rejects every ciphertext, as after a
    key rotation: [b64decode] wants a length that is a multiple of four
    and the cipher finds no valid tag. *)
Definition rotated_key_crypto : Security.Crypto :=
  {| Security.cryptography_installed := true;
     Security.b64decode := fun s =>
       if (String.length s mod 4 =? 0)%nat then Ok (NoSQLKV.encode s)
       else raise ValueError "Incorrect padding";
     Security.aesgcm_decrypt := fun _ _ _ => raise Exception_ "InvalidTag";
     Security.utf8_decode := fun b => Ok (NoSQLKV.decode b);
     Security.json_loads_value := fun _ => None |}.

Definition some_key : Security.FieldEncryption := Security.mkFieldEncryption [].

(** A filter whose field is not a column name. *)
Definition injected_builder : Query.QueryBuilder :=
  Query.where_ "1=1; DROP TABLE users; --" Query.EQ (OVal (VInt 1)) Query.new.

(** A well-formed query: two columns, a group, an order. *)
Definition report_builder : Query.QueryBuilder :=
  Query.order_by "created_at" true
    (Query.group_by ["status"] (Query.select ["status"; "user_id"] Query.new)).

(** *** An orchestrator over storage that echoes what it is given *)

Definition echo_sql : Factory.SQLAdapter :=
  {| Factory.sql_insert := fun _ d => Ok d;
     Factory.sql_select := fun _ _ _ _ => Ok [];
     Factory.sql_select_page := fun _ _ _ _ => Ok ([], None);
     Factory.sql_update := fun _ _ d => Ok d;
     Factory.sql_upsert := fun _ d => Ok d;
     Factory.sql_delete := fun _ _ => Ok ∅ |}.

Definition echo_nosql : Factory.NoSQLAdapter :=
  {| Factory.nosql_put := fun _ d => Ok d;
     Factory.nosql_query := fun _ _ _ _ _ => Ok [];
     Factory.nosql_query_page := fun _ _ _ _ => Ok ([], None);
     Factory.nosql_patch := fun _ _ d _ _ => Ok d;
     Factory.nosql_upsert := fun _ d _ => Ok d;
     Factory.nosql_delete := fun _ _ _ => Ok ∅ |}.

(** Retries on, no cache, no encryption, no masking, no row-level
    security, no tenant enforcer; with and without soft delete. *)
Definition plain_factory : Factory.DatabaseFactory :=
  Factory.mkFactory true true false None None (fun r _ _ _ => r) None false
    echo_sql echo_nosql.

Definition soft_factory : Factory.DatabaseFactory :=
  Factory.mkFactory true true true None None (fun r _ _ _ => r) None false
    echo_sql echo_nosql.

Definition users_ref : Factory.ModelRef :=
  Factory.mkModelRef "User"
    (Factory.mkModelMeta "sql" (Some "users") false None []) user_model.

(** A request without any tenant, and one of tenant [t1] by [alice]. *)
Definition no_tenant_env : Tenancy.Env :=
  Tenancy.mkEnv None None None "2024-01-01T00:00:00".

Definition tenant_env : Tenancy.Env :=
  Tenancy.mkEnv None (Some "t1") (Some "alice") "2024-01-01T00:00:00".

Definition new_name : JsonDict := {["name" := VStr "Bob"]}.

(** *** A table of five people behind a driver

    The driver knows the two page statements of the table [people] and
    answers them from its rows. *)

Definition people_rows : list (list value) :=
  [[VInt 1]; [VInt 2]; [VInt 3]; [VInt 4]; [VInt 5]].

Definition people_driver : Postgres.Driver :=
  {| Postgres.execute := fun sql params =>
       if String.eqb sql "SELECT * FROM people LIMIT %s" then
         match params with
         | [OVal (VInt l)] =>
             Ok (Postgres.mkCursor ["id"] (take (Z.to_nat l) people_rows))
         | _ => raise Exception_ "wrong parameters"
         end
       else if String.eqb sql "SELECT * FROM people LIMIT %s OFFSET %s" then
         match params with
         | [OVal (VInt l); OVal (VInt o)] =>
             Ok (Postgres.mkCursor ["id"]
                   (take (Z.to_nat l) (drop (Z.to_nat o) people_rows)))
         | _ => raise Exception_ "wrong parameters"
         end
       else raise Exception_ "syntax error" |}.

Definition people : list JsonDict :=
  Postgres.rows_of (Postgres.mkCursor ["id"] people_rows).

Definition people_sql : Factory.SQLAdapter :=
  {| Factory.sql_insert := fun _ d => Ok d;
     Factory.sql_select := Postgres.select (driver := people_driver);
     Factory.sql_select_page := Postgres.select_page (driver := people_driver);
     Factory.sql_update := fun _ _ d => Ok d;
     Factory.sql_upsert := fun _ d => Ok d;
     Factory.sql_delete := fun _ _ => Ok ∅ |}.

Definition people_factory : Factory.DatabaseFactory :=
  Factory.mkFactory true true false None None (fun r _ _ _ => r) None false
    people_sql echo_nosql.

Definition people_ref : Factory.ModelRef :=
  Factory.mkModelRef "Person"
    (Factory.mkModelMeta "sql" (Some "people") false None []) user_model.

(** The world after [put] of [user_record] through [tiny_adapter]: the
    backend holds the stub, the object store the blob. *)
Definition world_after_put : NoSQLKV.World Rows :=
  snd (NoSQLKV.put (json := line_json) (hashlib := rolling_hashlib)
         (format := plain_format) (backend_impl := scan_backend)
         tiny_adapter user_model user_record empty_world).

(** Filters on a field of the full record, and on a key of the stub. *)
Definition bio_filter : Query.QueryBuilder :=
  Query.where_ "bio" Query.CONTAINS (OVal (VStr "long")) Query.new.

Definition stub_key_filter : Query.QueryBuilder :=
  Query.where_ "_overflow" Query.EQ (OVal (VBool true)) Query.new.

(** Three records with a tie on [age]. *)
Definition person (name : string) (age : Z) : JsonDict :=
  <["name" := VStr name]> (<["age" := VInt age]> ∅).

End Examples.

(** ** Observing the retry wrapper

    What a run of [retry] does as seen from outside: calls of the
    decorated function and pauses.  [flaky k e r] is a function that raises
    [e] on its first [k] calls and returns [r] from then on. *)

Module RetryTrace.

Inductive event :=
| Call
| Sleep (d : Q).

Definition is_call (ev : event) : bool :=
  match ev with Call => true | Sleep _ => false end.

Definition calls (w : list event) : nat := length (List.filter is_call w).

Definition pauses (w : list event) : list Q :=
  omap (fun ev => match ev with Sleep d => Some d | Call => None end) w.

Definition flaky {A} (k : nat) (e : exn) (r : A) (w : list event)
  : result A * list event :=
  (if (calls w <? k)%nat then Raise e else Ok r, (w ++ [Call])%list).

Definition sleep (d : Q) (w : list event) : list event := (w ++ [Sleep d])%list.

(** The events of [m] failed attempts, each followed by its pause. *)
Fixpoint failed_attempts (m : nat) (d backoff : Q) : list event :=
  match m with
  | O => []
  | S m' => Call :: Sleep d :: failed_attempts m' (d * backoff)%Q backoff
  end.

End RetryTrace.

(** ** [NoSQLKVAdapter._retrieve_overflow] with its object store
       ([polydb/base/NoSQLKVAdapter.py])

    [NoSQLKV] takes an adapter whose object store is there.  An adapter
    built without one creates it on the first overflow read, in front of
    the [try]: what [CloudDatabaseFactory().get_object_storage()] raises
    there is not wrapped.  [get_object_storage] is the outcome of that
    step during one call: [Ok tt] for a store that is there or can be
    created, the exception otherwise. *)

Module NoSQLKVAdapter.

Section LazyStore.

Context {json : NoSQLKV.Json} {hashlib : NoSQLKV.Hashlib} {K : Type}.

Variable get_object_storage : result unit.

(** The body of [_retrieve_overflow]: the test of [_overflow], the
    creation of the store, then the [try] block, which is the rest of
    [NoSQLKV._retrieve_overflow_body]. *)
Definition _retrieve_overflow_body (self : NoSQLKV.Adapter) (data : JsonDict)
  : NoSQLKV.M (K := K) JsonDict :=
  if negb (truthy (get data "_overflow")) then NoSQLKV.ret data
  else
    NoSQLKV.st_bind (NoSQLKV.lift get_object_storage) (fun _ =>
    NoSQLKV._retrieve_overflow_body self data).

(** [@retry(max_attempts=3, delay=1.0, exceptions=(StorageError,))]. *)
Definition _retrieve_overflow (self : NoSQLKV.Adapter) (data : JsonDict)
  : NoSQLKV.M (K := K) JsonDict :=
  Retry.retry3 NoSQLKV.sleep 1 [StorageError] (_retrieve_overflow_body self data).

End LazyStore.

End NoSQLKVAdapter.

(** ** [QueryBuilder.to_nosql_filter] ([polydb/query.py]) *)

Module QueryBuilder.

(** The entry one filter contributes to the dict: the operators [EQ],
    [IN], [GT], [GTE], [LT], [LTE] and [CONTAINS] have a branch, the other
    four have none. *)
Definition nosql_entry (f : Query.QueryFilter) : option (string * operand) :=
  match Query.operator f with
  | Query.EQ => Some (Query.field f, Query.value f)
  | Query.IN => Some (Query.field f ++ "__in", Query.value f)
  | Query.GT => Some (Query.field f ++ "__gt", Query.value f)
  | Query.GTE => Some (Query.field f ++ "__gte", Query.value f)
  | Query.LT => Some (Query.field f ++ "__lt", Query.value f)
  | Query.LTE => Some (Query.field f ++ "__lte", Query.value f)
  | Query.CONTAINS => Some (Query.field f ++ "__contains", Query.value f)
  | Query.NE | Query.NOT_IN | Query.STARTS_WITH | Query.ENDS_WITH => None
  end.

(** [to_nosql_filter]: [result[key] = f.value] for every filter in turn. *)
Definition to_nosql_filter (self : Query.QueryBuilder) : Lookup :=
  fold_left (fun result f =>
               match nosql_entry f with
               | Some (k, v) => <[k := v]> result
               | None => result
               end) (Query.filters self) ∅.

(** [len(v)] for a filter value that has a length. *)
Definition in_arity (v : operand) : option nat :=
  match Query.in_params v with
  | Ok ps => Some (length ps)
  | Raise _ => None
  end.

End QueryBuilder.

(** ** More of [PostgreSQLAdapter]
       ([polydb/adapters/PostgreSQLAdapter.py])

    [insert], [update] and [delete], with the statements they build, and
    [select] and [insert] with the connection they take in front of their
    [try].  The columns of a dict follow the iteration order of the map
    (in the code: the insertion order of the dict), the same for the
    column list and for the parameters. *)

Module PostgreSQLAdapter.

(** The number of [%] characters of a statement: each one starts a
    placeholder that [cursor.execute] fills from the parameters. *)
Fixpoint percent_count (s : string) : nat :=
  match s with
  | EmptyString => O
  | String c s' => ((if Ascii.eqb c "%" then 1 else 0) + percent_count s')%nat
  end.

(** [data.keys()] and [list(data.values())]. *)
Definition columns (data : JsonDict) : list string := map fst (map_to_list data).

Definition values (data : JsonDict) : list operand :=
  map (fun kv => OVal (snd kv)) (map_to_list data).

(** [cursor.fetchone()]: the first row, or [None]. *)
Definition fetchone (c : Postgres.Cursor) : option (list value) :=
  head (Postgres.fetchall c).

(** The statement of [insert]. *)
Definition insert_sql (table : string) (data : JsonDict) : string * list operand :=
  let columns := String.concat ", " (columns data) in
  let placeholders := String.concat ", " (repeat "%s" (length (map_to_list data))) in
  ("INSERT INTO " ++ table ++ " (" ++ columns ++ ") VALUES (" ++ placeholders
   ++ ") RETURNING *", values data).

(** What reaches [cursor.execute] in [insert]: the table name and the
    columns are validated first, outside the [try]. *)
Definition insert_statement (table : string) (data : JsonDict)
  : result (string * list operand) :=
  Py.bind (Utils.validate_table_name table) (fun table =>
  Py.bind (mapM Utils.validate_column_name (columns data)) (fun _ =>
  Ok (insert_sql table data))).

(** The WHERE clause of [update] and [delete]: one equality per key of a
    lookup dict, or [id = %s]. *)
Definition where_clause (entity_id : Factory.EntityId)
  : result (string * list operand) :=
  match entity_id with
  | Factory.ELookup q =>
      Py.bind (mapM (fun kv : string * operand =>
                       Py.bind (Utils.validate_column_name (fst kv)) (fun _ =>
                       Ok (fst kv ++ " = %s", snd kv)))
                    (map_to_list q)) (fun parts =>
      Ok (String.concat " AND " (map fst parts), map snd parts))
  | Factory.EId v => Ok ("id = %s", [OVal v])
  end.

(** The statement of [update], built inside the [try]. *)
Definition update_sql (table : string) (entity_id : Factory.EntityId)
  (data : JsonDict) : result (string * list operand) :=
  let set_clause :=
    String.concat ", " (map (fun k => k ++ " = %s") (columns data)) in
  Py.bind (where_clause entity_id) (fun '(where_clause, where_params) =>
  Ok ("UPDATE " ++ table ++ " SET " ++ set_clause ++ " WHERE " ++ where_clause
      ++ " RETURNING *", (values data ++ where_params)%list)).

(** The statement of [delete]. *)
Definition delete_sql (table : string) (entity_id : Factory.EntityId)
  : result (string * list operand) :=
  Py.bind (where_clause entity_id) (fun '(where_clause, where_params) =>
  Ok ("DELETE FROM " ++ table ++ " WHERE " ++ where_clause ++ " RETURNING *",
      where_params)).

Section Adapter.

Context {driver : Postgres.Driver}.

(** [conn = tx], or [self._get_connection()] when the caller passes no
    transaction, during one call: [Ok tt] for a connection at hand, the
    exception of [_initialize_pool] or of the pool's [getconn] otherwise.
    [select] and [insert] take the connection in front of their [try], so
    its exception is not wrapped; [update] and [delete] below are the
    methods from their [try] on, for a connection at hand. *)
Variable _get_connection : result unit.

(** [select]: [Postgres.select] behind the connection checkout. *)
Definition select (table : string) (query : option Lookup)
  (limit offset : option Z) : result (list JsonDict) :=
  Postgres.retried
    (Py.bind (Utils.validate_table_name table) (fun table =>
     Py.bind _get_connection (fun _ =>
     Postgres.database_error "Select failed: "
       (Py.bind (Postgres.select_sql table query limit offset)
          (fun '(sql, params) =>
        Py.bind (Postgres.execute sql params) (fun cursor =>
        Ok (Postgres.rows_of cursor))))))).


(** [update].  [not result_row] holds for [None] and for an empty row. *)
Definition update (table : string) (entity_id : Factory.EntityId)
  (data : JsonDict) : result JsonDict :=
  Postgres.retried
    (Py.bind (Utils.validate_table_name table) (fun table =>
     Py.bind (mapM Utils.validate_column_name (columns data)) (fun _ =>
     Postgres.database_error "Update failed: "
       (Py.bind (update_sql table entity_id data) (fun '(sql, params) =>
        Py.bind (Postgres.execute sql params) (fun cursor =>
        match fetchone cursor with
        | None | Some [] => raise DatabaseError "No rows updated"
        | Some row => Ok (Postgres.row_dict (Postgres.description cursor) row)
        end)))))).

(** [delete]. *)
Definition delete (table : string) (entity_id : Factory.EntityId)
  : result JsonDict :=
  Postgres.retried
    (Py.bind (Utils.validate_table_name table) (fun table =>
     Postgres.database_error "Delete failed: "
       (Py.bind (delete_sql table entity_id) (fun '(sql, params) =>
        Py.bind (Postgres.execute sql params) (fun cursor =>
        match fetchone cursor with
        | None | Some [] => raise DatabaseError "No rows deleted"
        | Some row => Ok (Postgres.row_dict (Postgres.description cursor) row)
        end))))).

End Adapter.

End PostgreSQLAdapter.

(** ** [FieldEncryption._encrypt_value] and [encrypt_fields]
       ([polydb/security.py]) *)

Module FieldEncryption.

(** What encryption takes from [json], [cryptography] and [base64]:
    [json.dumps(value)], [data.encode("utf-8")],
    [AESGCM(key).encrypt(nonce, data, None)] (which raises for a key of a
    wrong length) and [base64.b64encode(b).decode("utf-8")]. *)
Class Encryptor := {
  json_dumps_value : value -> string;
  utf8_encode : string -> list Byte.byte;
  aesgcm_encrypt : list Byte.byte -> list Byte.byte -> list Byte.byte
                   -> result (list Byte.byte);
  b64encode : list Byte.byte -> string
}.

Section Encrypt.

Context {crypto : Security.Crypto} {enc : Encryptor}.

(** [_encrypt_value]; [nonce] is what [os.urandom(12)] returns. *)
Definition _encrypt_value (self : Security.FieldEncryption)
  (nonce : list Byte.byte) (value : value) : result string :=
  match value with
  | VNone => Ok ""
  | _ =>
      let data :=
        match value with
        | VStr s => s
        | _ => json_dumps_value value
        end in
      if negb Security.cryptography_installed
      then raise ImportError
             "cryptography not installed. Install with: pip install cryptography"
      else
        Py.bind (aesgcm_encrypt (Security.encryption_key self) nonce
                   (utf8_encode data)) (fun ciphertext =>
        Ok ("encrypted:" ++ b64encode (nonce ++ ciphertext)%list))
  end.

(** [encrypt_fields]: the listed fields that are present and not [None],
    each with a nonce of its own; [urandom i] is the [i]-th nonce drawn. *)
Fixpoint encrypt_fields (self : Security.FieldEncryption)
  (urandom : nat -> list Byte.byte) (drawn : nat) (data : JsonDict)
  (fields : list string) : result JsonDict :=
  match fields with
  | [] => Ok data
  | field :: rest =>
      match data !! field with
      | Some VNone | None => encrypt_fields self urandom drawn data rest
      | Some v =>
          Py.bind (_encrypt_value self (urandom drawn) v) (fun c =>
          encrypt_fields self urandom (S drawn) (<[field := VStr c]> data) rest)
      end
  end.

End Encrypt.

End FieldEncryption.

(** ** [DataMasking] ([polydb/security.py])

    A string is a sequence of characters; [isdigit] is [str.isdigit] on
    one character. *)

Module DataMasking.

(** The masking functions, as [_global_rules] and [_get_masker] hand them
    out. *)
Inductive Masker := Email | Phone | Ssn | CreditCard | Redact.

(** ["*" * n]. *)
Fixpoint stars (n : nat) : string :=
  match n with
  | O => EmptyString
  | S k => String "*" (stars k)
  end.

(** [email.split("@", 1)] when the separator occurs: the text before its
    first occurrence and the text after it. *)
Fixpoint split_once (sep : ascii) (s : string) : option (string * string) :=
  match s with
  | EmptyString => None
  | String c s' =>
      if Ascii.eqb c sep then Some (EmptyString, s')
      else match split_once sep s' with
           | Some (a, b) => Some (String c a, b)
           | None => None
           end
  end.

(** [s[-4:]]. *)
Definition last_four (s : string) : string :=
  String.substring (String.length s - 4) 4 s.

(** [s.replace(c, "")] for a one-character [c]. *)
Fixpoint remove_char (c : ascii) (s : string) : string :=
  match s with
  | EmptyString => EmptyString
  | String x s' =>
      if Ascii.eqb x c then remove_char c s' else String x (remove_char c s')
  end.

Definition _mask_email (email : string) : string :=
  match split_once "@" email with
  | None => email
  | Some (local, domain) =>
      let n := String.length local in
      let masked_local :=
        if (n <=? 2)%nat then stars n
        else String.substring 0 1 local ++ stars (n - 2)
             ++ String.substring (n - 1) 1 local in
      masked_local ++ "@" ++ domain
  end.

Section Digits.

Variable isdigit : ascii -> bool.

(** ["".join(filter(str.isdigit, s))]. *)
Fixpoint digits_of (s : string) : string :=
  match s with
  | EmptyString => EmptyString
  | String c s' => if isdigit c then String c (digits_of s') else digits_of s'
  end.

Definition _mask_phone (phone : string) : string :=
  let phone := digits_of phone in
  let n := String.length phone in
  if (n <=? 4)%nat then stars n else stars (n - 4) ++ last_four phone.

Definition _mask_ssn (ssn : string) : string :=
  let ssn := digits_of ssn in
  if (4 <=? String.length ssn)%nat then "***-**-" ++ last_four ssn
  else stars (String.length ssn).

Definition _mask_credit_card (cc : string) : string :=
  let cc := digits_of (remove_char " " (remove_char "-" cc)) in
  if (String.length cc <=? 4)%nat then stars (String.length cc)
  else "**** **** **** " ++ last_four cc.

Definition run (m : Masker) (x : string) : string :=
  match m with
  | Email => _mask_email x
  | Phone => _mask_phone x
  | Ssn => _mask_ssn x
  | CreditCard => _mask_credit_card x
  | Redact => "[REDACTED]"
  end.

(** [_get_masker]: the masker of a mask type. *)
Definition _get_masker (mask_type : string) : option Masker :=
  if String.eqb mask_type "email" then Some Email
  else if String.eqb mask_type "phone" then Some Phone
  else if String.eqb mask_type "ssn" then Some Ssn
  else if String.eqb mask_type "credit_card" then Some CreditCard
  else if String.eqb mask_type "redact" then Some Redact
  else None.

(** [_global_rules], in the order of the dict. *)
Definition _global_rules : list (string * Masker) :=
  [("email", Email); ("phone", Phone); ("ssn", Ssn);
   ("credit_card", CreditCard); ("password", Redact);
   ("ssn_*", Ssn); ("card_*", CreditCard)].

(** [pattern[:-2]]. *)
Definition drop_last_two (s : string) : string :=
  String.substring 0 (String.length s - 2) s.

(** [_infer_mask_type]: the masker of the first rule whose pattern ends
    in [_*] and, without these two characters, is a prefix of the field,
    or whose pattern is the field. *)
Definition _infer_mask_type (field : string) : option Masker :=
  option_map snd
    (List.find (fun rule : string * Masker =>
                  (endswith (fst rule) "_*"
                   && startswith field (drop_last_two (fst rule)))
                  || String.eqb (fst rule) field) _global_rules).

(** The object: [_configs], the mask types of the fields of a model. *)
Record DataMasking := mkDataMasking {
  _configs : gmap string (gmap string string)
}.

(** One pass of the loop of [mask]: what a field holds afterwards. *)
Definition mask_field (config : gmap string string) (field : string)
  (value : Py.value) : Py.value :=
  match value with
  | VNone => VNone
  | _ =>
      let configured :=
        match config !! field with
        | Some mask_type =>
            if negb (String.eqb mask_type "") then _get_masker mask_type else None
        | None => None
        end in
      match configured with
      | Some m => VStr (run m (py_str value))
      | None =>
          match _infer_mask_type field with
          | Some m => VStr (run m (py_str value))
          | None => value
          end
      end
  end.

(** [data[sensitive] = "[RESTRICTED]"] if the key is there. *)
Definition restrict (sensitive : string) (data : JsonDict) : JsonDict :=
  match data !! sensitive with
  | Some _ => <[sensitive := VStr "[RESTRICTED]"]> data
  | None => data
  end.

Definition _apply_context_masking (data : JsonDict) (actor_id tenant_id : string)
  (model : string) : JsonDict :=
  match data !! "owner_id" with
  | Some owner =>
      if negb (py_eq owner (VStr actor_id))
      then restrict "health_info" (restrict "salary" data)
      else data
  | None => data
  end.

(** [mask]. *)
Definition mask (self : DataMasking) (data : JsonDict) (model : string)
  (actor_id tenant_id : option string) : JsonDict :=
  let config := default ∅ (_configs self !! model) in
  let result := map_imap (fun field value => Some (mask_field config field value))
                  data in
  match Tenancy.nonempty actor_id, Tenancy.nonempty tenant_id with
  | Some a, Some t => _apply_context_masking result a t model
  | _, _ => result
  end.

End Digits.

End DataMasking.

(** ** [RowLevelSecurity]: policies ([polydb/security.py]) *)

Module RLS.

(** [add_policy]: the names of the policies of a model are unique. *)
Definition add_policy (self : Security.RowLevelSecurity) (model name : string)
  (policy_func : JsonDict -> Security.SecurityContext -> bool) (apply_to : string)
  : result Security.RowLevelSecurity :=
  let existing := default [] (Security.policies self !! model) in
  if existsb (String.eqb name) (map Security.name existing)
  then raise ValueError
         ("Policy '" ++ name ++ "' already exists for model '" ++ model ++ "'")
  else Ok (Security.mkRLS
             (<[model := (existing ++ [Security.mkPolicy name policy_func apply_to])%list]>
                (Security.policies self))
             (Security._read_filters self) (Security._write_filters self)
             (Security.request_timestamp self)).

(** Two of the example policies. *)
Definition tenant_isolation_policy (item : JsonDict)
  (context : Security.SecurityContext) : bool :=
  match Tenancy.nonempty (Security.ctx_tenant_id context) with
  | None => false
  | Some tenant_id => py_eq (get item "tenant_id") (VStr tenant_id)
  end.

Definition ownership_policy (item : JsonDict)
  (context : Security.SecurityContext) : bool :=
  match Tenancy.nonempty (Security.ctx_actor_id context) with
  | None => false
  | Some actor_id =>
      py_eq (get item "owner_id") (VStr actor_id)
      || py_eq (get item "created_by") (VStr actor_id)
  end.

End RLS.

(** ** [TenantRegistry] and [TenantContext] ([polydb/multitenancy.py]) *)

Module TenantRegistry.

Definition register (self : gmap string Tenancy.TenantConfig)
  (config : Tenancy.TenantConfig) : gmap string Tenancy.TenantConfig :=
  <[Tenancy.tenant_id config := config]> self.

Definition get (self : gmap string Tenancy.TenantConfig) (tenant_id : string)
  : option Tenancy.TenantConfig :=
  self !! tenant_id.

End TenantRegistry.

Module TenantContext.

(** [set_tenant] and [get_tenant] on the context variable. *)
Definition set_tenant (tenant_id : string)
  (registry : gmap string Tenancy.TenantConfig) (env : Tenancy.Env)
  : result Tenancy.Env :=
  match TenantRegistry.get registry tenant_id with
  | None => raise ValueError ("Tenant not found: " ++ tenant_id)
  | Some config =>
      Ok (Tenancy.mkEnv (Some config) (Tenancy.audit_tenant_id env)
            (Tenancy.audit_actor_id env) (Tenancy.utcnow env))
  end.

Definition get_tenant (env : Tenancy.Env) : option Tenancy.TenantConfig :=
  Tenancy.current_tenant env.

End TenantContext.

(** ** [ModelRegistry.get] ([polydb/registry.py]) *)

Module ModelRegistry.

(** The [__polydb__] dict of a registered model, its entries typed as
    [ModelMeta] declares them ([None]: the key is missing).  A model may
    add entries of its own, such as [encrypted_fields]. *)
Record PolydbDict := mkPolydbDict {
  storage : option string;
  table : option string;
  collection : option string;
  pk_field : option string;
  rk_field : option string;
  provider : option string;
  cache : option bool;
  cache_ttl : option Z;
  encrypted_fields : option (list string)
}.

(** The [ModelMeta] that [get] builds from the dict.  The dataclass has no
    attribute [encrypted_fields], so the orchestrator's
    [getattr(meta, "encrypted_fields", [])] is the empty list. *)
Definition get (raw_meta : PolydbDict) : Factory.ModelMeta :=
  Factory.mkModelMeta (default "sql" (storage raw_meta)) (table raw_meta)
    (default false (cache raw_meta)) (cache_ttl raw_meta) [].

End ModelRegistry.

(** ** More of [DatabaseFactory] ([polydb/databaseFactory.py]) *)

Module DatabaseFactory.

(** The orchestrator with another [encryption] or [rls] object. *)
Definition with_encryption (self : Factory.DatabaseFactory)
  (e : option Factory.Encryption) : Factory.DatabaseFactory :=
  Factory.mkFactory (Factory._enable_retries self) (Factory._enable_cache self)
    (Factory._soft_delete self) (Factory._cache self) e (Factory.mask self)
    (Factory.rls self) (Factory.tenant_enforcer self) (Factory._sql self)
    (Factory._nosql self).

Definition with_rls (self : Factory.DatabaseFactory)
  (r : option Security.RowLevelSecurity) : Factory.DatabaseFactory :=
  Factory.mkFactory (Factory._enable_retries self) (Factory._enable_cache self)
    (Factory._soft_delete self) (Factory._cache self) (Factory.encryption self)
    (Factory.mask self) r (Factory.tenant_enforcer self) (Factory._sql self)
    (Factory._nosql self).

(** [_compute_field_changes]: the keys of either dict whose values differ
    ([get] gives [None] for a missing key), in the iteration order of the
    set of keys; [None] when a dict is missing or empty and when no key
    differs. *)
Definition _compute_field_changes (before after : option JsonDict)
  : option (list string) :=
  match before, after with
  | Some b, Some a =>
      if bool_decide (b = ∅) || bool_decide (a = ∅) then None
      else
        match List.filter (fun key => negb (py_eq (get b key) (get a key)))
                (elements (dom b ∪ dom a)) with
        | [] => None
        | changed => Some changed
        end
  | _, _ => None
  end.

Section QueryLinq.

(** [query_linq] of the two adapters. *)
Variable sql_query_linq : string -> Query.QueryBuilder -> result Postgres.LinqResult.
Variable nosql_query_linq
  : NoSQLKV.Model -> Query.QueryBuilder -> result NoSQLKV.LinqResult.

Variable self : Factory.DatabaseFactory.
Variable env : Tenancy.Env.

(** [extra_filter]: what the tenant enforcer and row-level security make
    of the empty filter. *)
Definition extra_filter (model_name : string) : result Lookup :=
  Py.bind (if Factory.tenant_enforcer self
           then Tenancy.enforce_read env model_name ∅ else Ok ∅) (fun extra =>
  Ok match Factory.rls self with
     | Some r => Security.enforce_read r model_name extra
     | None => extra
     end).

(** [builder.where(field, Operator.EQ, value)] for every entry. *)
Definition add_filters (extra : Lookup) (builder : Query.QueryBuilder)
  : Query.QueryBuilder :=
  fold_left (fun b kv => Query.where_ (fst kv) Query.EQ (snd kv) b)
    (map_to_list extra) builder.

(** [query_linq].  [where] changes the caller's builder in place: it is
    returned beside the outcome, as it is after the call. *)
Definition query_linq (model : Factory.ModelRef) (builder : Query.QueryBuilder)
  : Query.QueryBuilder * result (Postgres.LinqResult + NoSQLKV.LinqResult) :=
  match extra_filter (Factory.model_name model) with
  | Raise e => (builder, Raise e)
  | Ok extra =>
      let builder := add_filters extra builder in
      (builder,
       Factory._run self
         (match Factory.sql_table (Factory.meta model) with
          | Some t => Py.bind (sql_query_linq t builder) (fun r => Ok (inl r))
          | None => Py.bind (nosql_query_linq (Factory.model_type model) builder)
                      (fun r => Ok (inr r))
          end))
  end.

End QueryLinq.

End DatabaseFactory.

(** ** More sample data *)

Module Samples.

(** A driver in front of a table without rows: every statement succeeds
    and returns nothing. *)
Definition empty_table_driver : Postgres.Driver :=
  {| Postgres.execute := fun _ _ => Ok (Postgres.mkCursor ["id"] []) |}.



(** A cipher that leaves the bytes as they are, with [base64] and UTF-8
    read as the identity on byte strings and the tagged rendering of
    [Examples.render_value] for JSON: enough to run the code. *)
Definition plain_crypto : Security.Crypto :=
  {| Security.cryptography_installed := true;
     Security.b64decode := fun s => Ok (NoSQLKV.encode s);
     Security.aesgcm_decrypt := fun _ _ ct => Ok ct;
     Security.utf8_decode := fun b => Ok (NoSQLKV.decode b);
     Security.json_loads_value := Examples.parse_value |}.

Definition plain_encryptor : FieldEncryption.Encryptor :=
  {| FieldEncryption.json_dumps_value := Examples.render_value;
     FieldEncryption.utf8_encode := NoSQLKV.encode;
     FieldEncryption.aesgcm_encrypt := fun _ _ pt => Ok pt;
     FieldEncryption.b64encode := NoSQLKV.decode |}.

Definition twelve_bytes : list Byte.byte := NoSQLKV.encode "abcdefghijkl".

(** [str.isdigit] on the ASCII characters. *)
Definition ascii_isdigit (c : ascii) : bool :=
  let n := nat_of_ascii c in ((48 <=? n) && (n <=? 57))%nat.

(** A masking object without model configuration, and a staff record. *)
Definition no_masking_config : DataMasking.DataMasking :=
  DataMasking.mkDataMasking ∅.

Definition staff_record : JsonDict :=
  <["password" := VStr "hunter2"]>
    (<["ssnumber" := VStr "123-45-6789"]>
       (<["nickname" := VNone]> (<["city" := VStr "Oslo"]> ∅))).

(** Row-level security with the tenant isolation policy on writes of
    [User], and an orchestrator that uses it. *)
Definition isolating_rls : Security.RowLevelSecurity :=
  Security.mkRLS
    {["User" := [Security.mkPolicy "tenant_isolation"
                   RLS.tenant_isolation_policy "both"]]} ∅ ∅ "".

Definition isolating_factory : Factory.DatabaseFactory :=
  DatabaseFactory.with_rls Examples.plain_factory (Some isolating_rls).

Definition no_rls : Security.RowLevelSecurity := Security.mkRLS ∅ ∅ ∅ "".

(** Two tenants, and a request inside the first. *)
Definition acme : Tenancy.TenantConfig :=
  Tenancy.mkTenantConfig "acme" Tenancy.SHARED_SCHEMA None None.

Definition globex : Tenancy.TenantConfig :=
  Tenancy.mkTenantConfig "globex" Tenancy.SEPARATE_SCHEMA (Some "globex") None.

Definition acme_env : Tenancy.Env :=
  Tenancy.mkEnv (Some acme) None None "2024-01-01T00:00:00".

Definition enforcing_factory : Factory.DatabaseFactory :=
  Factory.mkFactory true true false None None (fun r _ _ _ => r) None true
    Examples.echo_sql Examples.echo_nosql.

End Samples.

(* ===================================================================== *)
(** * Part II: properties                                                 *)
(* ===================================================================== *)

#[local] Open Scope list_scope.
Set Warnings "-clear-no-such-hyp".

(** ** Sorting *)

Section StableSort.

Context {A : Type}.

Lemma stable_sort_cons (lt : A -> A -> bool) x l :
  stable_sort lt (x :: l) = insert_by lt x (stable_sort lt l).
Proof. reflexivity. Qed.

Lemma insert_by_perm (lt : A -> A -> bool) x l :
  Permutation (x :: l) (insert_by lt x l).
Proof.
  induction l as [|y l IH]; simpl; [reflexivity|].
  destruct (lt y x); [|reflexivity].
  rewrite perm_swap. now apply perm_skip.
Qed.

Lemma stable_sort_perm (lt : A -> A -> bool) l :
  Permutation l (stable_sort lt l).
Proof.
  induction l as [|x l IH]; simpl; [reflexivity|].
  etransitivity; [apply perm_skip, IH|]. apply insert_by_perm.
Qed.

Lemma stable_sort_length (lt : A -> A -> bool) l :
  length (stable_sort lt l) = length l.
Proof. symmetry. apply Permutation_length, stable_sort_perm. Qed.

Lemma Forall_insert_by (P : A -> Prop) lt x l :
  P x -> Forall P l -> Forall P (insert_by lt x l).
Proof.
  intros Hx Hl. eapply Permutation_Forall; [apply insert_by_perm|].
  now constructor.
Qed.

Lemma Forall_stable_sort (P : A -> Prop) lt l :
  Forall P l -> Forall P (stable_sort lt l).
Proof. intros Hl. eapply Permutation_Forall; [apply stable_sort_perm|]. exact Hl. Qed.

Section OneOrder.

Variable lt : A -> A -> bool.
Hypothesis SW : Spec.StrictWeak lt.

Lemma sw_asym x y : lt x y = true -> lt y x = false.
Proof.
  intros Hxy. destruct (lt y x) eqn:Hyx; [|reflexivity].
  pose proof (Spec.sw_trans lt SW x y x Hxy Hyx) as Hxx.
  rewrite (Spec.sw_irrefl lt SW) in Hxx. discriminate.
Qed.

Lemma insert_by_in_order x l :
  Spec.in_order lt l -> Spec.in_order lt (insert_by lt x l).
Proof.
  unfold Spec.in_order. induction 1 as [|y l Hl IH Hy]; simpl.
  - repeat constructor.
  - destruct (lt y x) eqn:Hyx.
    + constructor; [exact IH|].
      apply Forall_insert_by; [now apply sw_asym | exact Hy].
    + constructor; [now constructor|].
      constructor; [exact Hyx|].
      eapply Forall_impl; [exact Hy|]. simpl. intros z Hz.
      now apply (Spec.sw_negtrans lt SW z y x).
Qed.

Lemma stable_sort_in_order l : Spec.in_order lt (stable_sort lt l).
Proof.
  induction l as [|x l IH]; simpl; [constructor|].
  now apply insert_by_in_order.
Qed.

(** Being tied is an equivalence that [lt] respects. *)
Lemma tied_lt_l x y z :
  Spec.tied lt x y = true -> lt z y = true -> lt z x = true.
Proof.
  unfold Spec.tied. intros Ht Hzy.
  apply andb_true_iff in Ht as [Hxy Hyx].
  apply negb_true_iff in Hxy, Hyx.
  destruct (lt z x) eqn:Hzx; [reflexivity|].
  rewrite (Spec.sw_negtrans lt SW z x y Hzx Hxy) in Hzy. discriminate.
Qed.

Lemma filter_tied_insert_by x a l :
  List.filter (Spec.tied lt x) (insert_by lt a l)
  = List.filter (Spec.tied lt x) (a :: l).
Proof.
  induction l as [|y l IH]; [reflexivity|].
  cbn [insert_by]. destruct (lt y a) eqn:Hya; [|reflexivity].
  cbn [List.filter] in *. rewrite IH.
  destruct (Spec.tied lt x a) eqn:Hxa; [|reflexivity].
  destruct (Spec.tied lt x y) eqn:Hxy; [|reflexivity].
  exfalso.
  pose proof (tied_lt_l x a y Hxa Hya) as Hyx.
  unfold Spec.tied in Hxy. rewrite Hyx in Hxy.
  rewrite andb_false_r in Hxy. discriminate.
Qed.

Lemma stable_sort_stable l x :
  List.filter (Spec.tied lt x) (stable_sort lt l) = List.filter (Spec.tied lt x) l.
Proof.
  induction l as [|a l IH]; [reflexivity|].
  rewrite stable_sort_cons, filter_tied_insert_by.
  cbn [List.filter]. now rewrite IH.
Qed.

(** [stable_sort] computes the stable sort. *)
Lemma stable_sort_spec l : Spec.stable_sort_of lt l (stable_sort lt l).
Proof.
  split; [apply stable_sort_perm|].
  split; [apply stable_sort_in_order|]. apply stable_sort_stable.
Qed.

(** Two insertions of records, one smaller than the other, commute. *)
Lemma insert_by_comm x y l :
  lt y x = true ->
  insert_by lt y (insert_by lt x l) = insert_by lt x (insert_by lt y l).
Proof.
  intros Hyx. pose proof (sw_asym _ _ Hyx) as Hxy.
  induction l as [|z l IH]; simpl.
  - now rewrite Hxy, Hyx.
  - destruct (lt z x) eqn:Hzx, (lt z y) eqn:Hzy; simpl;
      rewrite ?Hzx, ?Hzy, ?Hxy, ?Hyx; simpl; rewrite ?Hzx, ?Hzy; try reflexivity.
    + now rewrite IH.
    + rewrite (Spec.sw_trans lt SW z y x Hzy Hyx) in Hzx. discriminate.
Qed.

End OneOrder.

End StableSort.

Section TwoOrders.

Context {A : Type}.
Variables lt1 lt2 : A -> A -> bool.
Hypothesis SW1 : Spec.StrictWeak lt1.
Hypothesis SW2 : Spec.StrictWeak lt2.

Lemma lex_true x y :
  Spec.lex lt1 lt2 x y = true <->
  lt1 x y = true \/ (lt1 x y = false /\ lt1 y x = false /\ lt2 x y = true).
Proof.
  unfold Spec.lex. destruct (lt1 x y), (lt1 y x), (lt2 x y); simpl; intuition congruence.
Qed.

Lemma lex_false x y :
  Spec.lex lt1 lt2 x y = false <->
  lt1 x y = false /\ (lt1 y x = true \/ lt2 x y = false).
Proof.
  unfold Spec.lex. destruct (lt1 x y), (lt1 y x), (lt2 x y); simpl; intuition congruence.
Qed.

Lemma lex_strict_weak : Spec.StrictWeak (Spec.lex lt1 lt2).
Proof.
  constructor.
  - intros x. unfold Spec.lex.
    now rewrite (Spec.sw_irrefl lt1 SW1), (Spec.sw_irrefl lt2 SW2).
  - intros x y z Hxy Hyz. apply lex_true in Hxy, Hyz. apply lex_true.
    destruct Hxy as [Hxy | (Hxy & Hyx & Hxy2)];
      destruct Hyz as [Hyz | (Hyz & Hzy & Hyz2)].
    + left. now apply (Spec.sw_trans lt1 SW1 x y z).
    + left. destruct (lt1 x z) eqn:Hxz; [reflexivity|].
      rewrite (Spec.sw_negtrans lt1 SW1 x z y Hxz Hzy) in Hxy. discriminate.
    + left. destruct (lt1 x z) eqn:Hxz; [reflexivity|].
      rewrite (Spec.sw_negtrans lt1 SW1 y x z Hyx Hxz) in Hyz. discriminate.
    + right. split; [now apply (Spec.sw_negtrans lt1 SW1 x y z)|].
      split; [now apply (Spec.sw_negtrans lt1 SW1 z y x)|].
      now apply (Spec.sw_trans lt2 SW2 x y z).
  - intros x y z Hxy Hyz. apply lex_false in Hxy, Hyz. apply lex_false.
    destruct Hxy as [Hxy Hxy'], Hyz as [Hyz Hyz'].
    split; [now apply (Spec.sw_negtrans lt1 SW1 x y z)|].
    destruct (lt1 z x) eqn:Hzx; [now left|]. right.
    destruct Hxy' as [Hyx | Hxy2].
    + rewrite (Spec.sw_negtrans lt1 SW1 y z x Hyz Hzx) in Hyx. discriminate.
    + destruct Hyz' as [Hzy | Hyz2].
      * rewrite (Spec.sw_negtrans lt1 SW1 z x y Hzx Hxy) in Hzy. discriminate.
      * now apply (Spec.sw_negtrans lt2 SW2 x y z).
Qed.

(** Where nothing is smaller than [x] for [lt2], inserting [x] by [lt1]
    and by the lexicographic order is the same. *)
Lemma insert_by_lex_agree x s :
  Forall (fun z => lt2 z x = false) s ->
  insert_by lt1 x s = insert_by (Spec.lex lt1 lt2) x s.
Proof.
  induction 1 as [|z s Hz Hs IH]; simpl; [reflexivity|].
  unfold Spec.lex at 1. rewrite Hz, andb_false_r, orb_false_r.
  destruct (lt1 z x); [now rewrite IH | reflexivity].
Qed.

(** Sorting by [lt1] a list in [lt2]-order into which [x] was inserted by
    [lt2] inserts [x] lexicographically into the sorted list. *)
Lemma stable_sort_insert_by x m :
  Spec.in_order lt2 m ->
  stable_sort lt1 (insert_by lt2 x m)
  = insert_by (Spec.lex lt1 lt2) x (stable_sort lt1 m).
Proof.
  unfold Spec.in_order. induction 1 as [|y m Hm IH Hy]; [reflexivity|].
  cbn [insert_by]. destruct (lt2 y x) eqn:Hyx.
  - rewrite !stable_sort_cons, IH.
    assert (Hym : Forall (fun z => lt2 z y = false) (stable_sort lt1 m))
      by now apply Forall_stable_sort.
    rewrite (insert_by_lex_agree y (stable_sort lt1 m) Hym).
    rewrite (insert_by_lex_agree y).
    2:{ apply Forall_insert_by; [|exact Hym].
        now apply (sw_asym lt2 SW2). }
    destruct (Spec.lex lt1 lt2 y x) eqn:Hlex.
    + now apply insert_by_comm; [apply lex_strict_weak|].
    + symmetry. apply insert_by_comm; [apply lex_strict_weak|].
      apply lex_false in Hlex as [Hyx1 [Hxy1 | Hyx2]]; [|congruence].
      apply lex_true. now left.
  - rewrite !stable_sort_cons.
    apply insert_by_lex_agree.
    apply Forall_insert_by; [exact Hyx|]. apply Forall_stable_sort.
    eapply Forall_impl; [exact Hy|]. simpl. intros z Hz.
    now apply (Spec.sw_negtrans lt2 SW2 z y x).
Qed.

(** A stable sort by [lt2] followed by a stable sort by [lt1] is the
    stable sort by [lt1], ties by [lt2]. *)
Lemma stable_sort_twice l :
  stable_sort lt1 (stable_sort lt2 l) = stable_sort (Spec.lex lt1 lt2) l.
Proof.
  induction l as [|x l IH]; [reflexivity|].
  rewrite !stable_sort_cons.
  rewrite stable_sort_insert_by by now apply stable_sort_in_order.
  now rewrite IH.
Qed.

End TwoOrders.

(** ** The order on sort keys *)

Lemma str_ltb_lt s t : String.ltb s t = true <-> String_as_OT.lt s t.
Proof.
  rewrite <- String_as_OT.cmp_lt. unfold String.ltb, String_as_OT.cmp.
  destruct (String.compare s t); intuition congruence.
Qed.

Lemma str_ltb_irrefl s : String.ltb s s = false.
Proof.
  unfold String.ltb.
  assert (H : String_as_OT.cmp s s = Eq) by now apply String_as_OT.cmp_eq.
  unfold String_as_OT.cmp in H. now rewrite H.
Qed.

Lemma str_ltb_trans s t u :
  String.ltb s t = true -> String.ltb t u = true -> String.ltb s u = true.
Proof.
  rewrite !str_ltb_lt. apply String_as_OT.lt_trans.
Qed.

Lemma str_ltb_negtrans s t u :
  String.ltb s t = false -> String.ltb t u = false -> String.ltb s u = false.
Proof.
  intros Hst Htu. destruct (String.ltb s u) eqn:Hsu; [|reflexivity].
  exfalso. destruct (String.compare s t) eqn:Hc.
  - apply String.compare_eq_iff in Hc. subst t. congruence.
  - unfold String.ltb in Hst. rewrite Hc in Hst. discriminate.
  - assert (Hts : String.ltb t s = true).
    { unfold String.ltb. rewrite String.compare_antisym, Hc. reflexivity. }
    rewrite (str_ltb_trans t s u Hts Hsu) in Htu. discriminate.
Qed.

Lemma key_ltb_strict_weak : Spec.StrictWeak key_ltb.
Proof.
  constructor.
  - intros [| [] | z | s]; unfold key_ltb; simpl;
      try reflexivity; try apply Z.ltb_irrefl. apply str_ltb_irrefl.
  - intros [| [] | x | s] [| [] | y | t] [| [] | z | u]; unfold key_ltb; simpl;
      try congruence; rewrite ?Z.ltb_lt; try lia. apply str_ltb_trans.
  - intros [| [] | x | s] [| [] | y | t] [| [] | z | u]; unfold key_ltb; simpl;
      try congruence; rewrite ?Z.ltb_ge; try lia. apply str_ltb_negtrans.
Qed.

(** [key_ltb] is [<] wherever [<] does not raise. *)
Lemma key_ltb_py_lt a b r : py_lt a b = Ok r -> key_ltb a b = r.
Proof.
  unfold py_lt, key_ltb.
  destruct (as_num a), (as_num b), a, b; simpl; unfold raise; congruence.
Qed.

Lemma sort_lt_strict_weak {A} (key : A -> value) (reverse : bool) :
  Spec.StrictWeak (sort_lt key reverse).
Proof.
  pose proof key_ltb_strict_weak as [Hi Ht Hn].
  unfold sort_lt. destruct reverse; constructor; intros; eauto.
Qed.

Lemma lex_list_strict_weak {A} (lts : list (A -> A -> bool)) :
  Forall Spec.StrictWeak lts -> Spec.StrictWeak (Spec.lex_list lts).
Proof.
  induction 1 as [|lt lts Hlt Hlts IH]; simpl.
  - now constructor.
  - now apply lex_strict_weak.
Qed.

Lemma multi_key_strict_weak keys : Spec.StrictWeak (Spec.multi_key keys).
Proof.
  apply lex_list_strict_weak, List.Forall_forall. intros lt Hin.
  apply in_map_iff in Hin as (c & <- & _). apply sort_lt_strict_weak.
Qed.

Lemma stable_sort_no_order {A} (l : list A) :
  stable_sort (fun _ _ => false) l = l.
Proof.
  induction l as [|x l IH]; [reflexivity|].
  rewrite stable_sort_cons, IH. now destruct l.
Qed.

(** ** [_apply_ordering] *)

Lemma forallb_perm {A} (p : A -> bool) l l' :
  Permutation l l' -> forallb p l = forallb p l'.
Proof.
  induction 1; simpl; try congruence.
  - now rewrite !andb_assoc, (andb_comm (p y)).
Qed.

Lemma sortable_perm l l' call :
  Permutation l l' -> Spec.sortable l call = Spec.sortable l' call.
Proof.
  intros Hp. unfold Spec.sortable, comparable.
  rewrite (Permutation_length Hp).
  now rewrite !(forallb_perm _ _ _ (Permutation_map _ Hp)).
Qed.

Lemma sorted_sortable (call : string * bool) l :
  sorted (NoSQLKV.sort_key (fst call)) (snd call) l
  = if Spec.sortable l call then Ok (stable_sort (Spec.by_field call) l)
    else raise TypeError "'<' not supported between instances".
Proof. reflexivity. Qed.

Lemma ordering_loop_app keys call l :
  NoSQLKV.ordering_loop (keys ++ [call]) l
  = Py.bind (NoSQLKV.ordering_loop keys l)
      (sorted (NoSQLKV.sort_key (fst call)) (snd call)).
Proof.
  revert l. induction keys as [|[f d] keys IH]; intros l; simpl.
  - destruct call as [f d]; simpl. now destruct (sorted _ _ _).
  - destruct (sorted (NoSQLKV.sort_key f) d l); simpl; [apply IH | reflexivity].
Qed.

(** The loop over the reversed key list computes the stable sort whose
    most significant key is the first of the list, or raises when some
    key column cannot be compared. *)
Lemma ordering_loop_rev keys l :
  NoSQLKV.ordering_loop (rev keys) l
  = if forallb (Spec.sortable l) keys
    then Ok (stable_sort (Spec.multi_key keys) l)
    else raise TypeError "'<' not supported between instances".
Proof.
  induction keys as [|call keys IH].
  - simpl. unfold Spec.multi_key. simpl. now rewrite stable_sort_no_order.
  - cbn [rev forallb]. rewrite ordering_loop_app, IH.
    destruct (forallb (Spec.sortable l) keys).
    + cbn [Py.bind]. rewrite sorted_sortable.
      rewrite <- (sortable_perm l _ call (stable_sort_perm _ l)).
      destruct (Spec.sortable l call); [|reflexivity].
      cbn [andb]. f_equal. unfold Spec.multi_key. cbn [map Spec.lex_list].
      apply stable_sort_twice.
      * apply sort_lt_strict_weak.
      * apply multi_key_strict_weak.
    + now rewrite andb_false_r.
Qed.

Lemma order_by_calls_fields calls b :
  Query.order_by_fields (Spec.order_by_calls calls b)
  = Query.order_by_fields b ++ calls.
Proof.
  revert b. induction calls as [|[f d] calls IH]; intros b; simpl.
  - now rewrite app_nil_r.
  - unfold Spec.order_by_calls in IH. rewrite IH. simpl.
    now rewrite <- app_assoc.
Qed.

(** C4 (as amended): for every list of records and every sequence of
    [order_by] calls made on a builder, [_apply_ordering] returns the stable
    multi-key sort in which the FIRST [order_by] call supplies the most
    significant key and the last call (the one whose sort is applied first)
    the least significant one: the result holds the same records, in
    lexicographic order of the keys in call order, with fully tied records
    in their input order.  It raises [TypeError] exactly when some key
    column mixes values that [<] cannot compare. *)
Theorem C4_apply_ordering_first_call_primary :
  forall (b : Query.QueryBuilder) (calls : list (string * bool)) (l : list JsonDict),
    let keys := Query.order_by_fields b ++ calls in
    NoSQLKV._apply_ordering l (Spec.order_by_calls calls b)
    = (if forallb (Spec.sortable l) keys
       then Ok (stable_sort (Spec.multi_key keys) l)
       else raise TypeError "'<' not supported between instances")
    /\ Spec.stable_sort_of (Spec.multi_key keys) l
         (stable_sort (Spec.multi_key keys) l).
Proof.
  intros b calls l keys. split.
  - unfold NoSQLKV._apply_ordering. rewrite order_by_calls_fields.
    apply ordering_loop_rev.
  - apply stable_sort_spec, multi_key_strict_weak.
Qed.

(** C4 (as stated) fails: after [order_by("a")] then [order_by("b")] the
    records come out ordered by [a], not by [b]; the sort whose primary key
    is the last call would put them the other way round. *)
Lemma C4_counterexample_last_call_not_primary :
  let l := [Examples.rec_a1_b2; Examples.rec_a2_b1] in
  let calls := [("a", false); ("b", false)] in
  NoSQLKV._apply_ordering l (Spec.order_by_calls calls Query.new)
  = Ok [Examples.rec_a1_b2; Examples.rec_a2_b1]
  /\ stable_sort (Spec.last_call_primary calls) l
     = [Examples.rec_a2_b1; Examples.rec_a1_b2]
  /\ NoSQLKV._apply_ordering l (Spec.order_by_calls calls Query.new)
     <> Ok (stable_sort (Spec.last_call_primary calls) l).
Proof.
  assert (Hne : Examples.rec_a1_b2 <> Examples.rec_a2_b1).
  { intros Heq. apply (f_equal (fun d => d !! "a")) in Heq.
    vm_compute in Heq. discriminate. }
  assert (H1 : NoSQLKV._apply_ordering [Examples.rec_a1_b2; Examples.rec_a2_b1]
                 (Spec.order_by_calls [("a", false); ("b", false)] Query.new)
               = Ok [Examples.rec_a1_b2; Examples.rec_a2_b1]) by reflexivity.
  assert (H2 : stable_sort (Spec.last_call_primary [("a", false); ("b", false)])
                 [Examples.rec_a1_b2; Examples.rec_a2_b1]
               = [Examples.rec_a2_b1; Examples.rec_a1_b2]) by reflexivity.
  cbv zeta. rewrite H1, H2. split; [reflexivity|]. split; [reflexivity|].
  intros Heq. apply Hne.
  exact (f_equal (fun r => match r with Ok (x :: _) => x | _ => ∅ end) Heq).
Qed.

(** ** The retry wrapper *)

Section RetryFacts.

Context {W A : Type}.
Variable sleep : Q -> W -> W.
Variable exceptions : list exn_class.
Variable func : W -> result A * W.

Lemma retry3_ok d w r w' :
  func w = (Ok r, w') -> Retry.retry3 sleep d exceptions func w = (Ok r, w').
Proof.
  intros Hf. unfold Retry.retry3, Retry.retry. simpl. now rewrite Hf.
Qed.

Lemma retry3_not_caught d w e w' :
  func w = (Raise e, w') -> isinstance e exceptions = false ->
  Retry.retry3 sleep d exceptions func w = (Raise e, w').
Proof.
  intros Hf He. unfold Retry.retry3, Retry.retry. simpl. now rewrite Hf, He.
Qed.

(** Three failures in a row with a caught exception: two pauses, then the
    third exception surfaces. *)
Lemma retry3_exhausted d w e1 w1 e2 w2 e3 w3 :
  func w = (Raise e1, w1) -> isinstance e1 exceptions = true ->
  func (sleep d w1) = (Raise e2, w2) -> isinstance e2 exceptions = true ->
  func (sleep (d * 2)%Q w2) = (Raise e3, w3) ->
  Retry.retry3 sleep d exceptions func w = (Raise e3, w3).
Proof.
  intros H1 E1 H2 E2 H3. unfold Retry.retry3, Retry.retry. simpl.
  rewrite H1, E1, H2, E2, H3. now destruct (isinstance e3 exceptions).
Qed.

End RetryFacts.

(** A method whose outcome is fixed by its arguments is not changed by the
    wrapper. *)
Lemma retry3_pure {A} (d : Q) (exceptions : list exn_class) (body : result A) :
  fst (Retry.retry3 (fun _ (w : unit) => w) d exceptions (fun w => (body, w)) tt)
  = body.
Proof.
  unfold Retry.retry3, Retry.retry. simpl.
  destruct body as [a|e]; [reflexivity|].
  now destruct (isinstance e exceptions).
Qed.

Lemma retried_pure {A} (body : result A) : Postgres.retried body = body.
Proof. apply retry3_pure. Qed.

(** ** Overflow storage *)

Section OverflowFacts.

Context {json : NoSQLKV.Json} {hashlib : NoSQLKV.Hashlib}
        {format : NoSQLKV.Format} {K : Type} {backend_impl : NoSQLKV.Backend K}.

Lemma hydrate_raises store r e :
  Spec.hydrate store r = Raise e -> exn_cls e = StorageError.
Proof.
  unfold Spec.hydrate, raise.
  repeat (match goal with
          | |- context [match ?x with _ => _ end] => destruct x
          end; try discriminate);
    intros [= <-]; reflexivity.
Qed.

(** One run of the body of [_retrieve_overflow]: its outcome is
    [Spec.hydrate] of the record on the current store; the store, the
    backend and the pauses are untouched. *)
Lemma retrieve_overflow_body_run self r (w : NoSQLKV.World K) :
  exists fetched',
    NoSQLKV._retrieve_overflow_body self r w
    = (Spec.hydrate (NoSQLKV.object_storage w) r,
       NoSQLKV.mkWorld (NoSQLKV.backend w) (NoSQLKV.object_storage w)
         fetched' (NoSQLKV.slept w)).
Proof.
  unfold NoSQLKV._retrieve_overflow_body, Spec.hydrate.
  destruct w as [k store f s]; simpl.
  destruct (truthy (get r "_overflow")); simpl; [|eexists; reflexivity].
  unfold NoSQLKV.reraise_as, NoSQLKV.st_bind, NoSQLKV.throw, NoSQLKV.os_get,
    NoSQLKV.ret, raise; simpl.
  destruct (r !! "_blob_key") as [[| | |key]|]; simpl; try (eexists; reflexivity).
  destruct (store !! key) as [blob|]; simpl; [|eexists; reflexivity].
  destruct (NoSQLKV.json_loads (NoSQLKV.decode blob)); simpl;
    [|eexists; reflexivity].
  destruct (py_eq _ _); simpl; eexists; reflexivity.
Qed.

(** The decorated [_retrieve_overflow] has the same outcome, after one
    attempt or after three. *)
Lemma retrieve_overflow_run self r (w : NoSQLKV.World K) :
  exists fetched' slept',
    NoSQLKV._retrieve_overflow self r w
    = (Spec.hydrate (NoSQLKV.object_storage w) r,
       NoSQLKV.mkWorld (NoSQLKV.backend w) (NoSQLKV.object_storage w)
         fetched' slept').
Proof.
  unfold NoSQLKV._retrieve_overflow.
  destruct (retrieve_overflow_body_run self r w) as [f1 Hrun1].
  destruct (Spec.hydrate (NoSQLKV.object_storage w) r) as [d|e] eqn:Hh.
  - exists f1, (NoSQLKV.slept w). now apply retry3_ok.
  - pose proof (hydrate_raises _ _ _ Hh) as Hcls.
    assert (Hinst : isinstance e [StorageError] = true).
    { unfold isinstance. simpl. now rewrite Hcls. }
    set (w1 := NoSQLKV.sleep 1 (NoSQLKV.mkWorld (NoSQLKV.backend w)
                 (NoSQLKV.object_storage w) f1 (NoSQLKV.slept w))).
    destruct (retrieve_overflow_body_run self r w1) as [f2 Hrun2].
    simpl in Hrun2. rewrite Hh in Hrun2.
    set (w2 := NoSQLKV.sleep (1 * 2)%Q (NoSQLKV.mkWorld (NoSQLKV.backend w)
                 (NoSQLKV.object_storage w) f2 (NoSQLKV.slept w1))).
    destruct (retrieve_overflow_body_run self r w2) as [f3 Hrun3].
    simpl in Hrun3. rewrite Hh in Hrun3.
    eexists _, _.
    eapply retry3_exhausted; eauto.
Qed.

Lemma retrieve_overflow_fst self r (w : NoSQLKV.World K) :
  fst (NoSQLKV._retrieve_overflow self r w)
  = Spec.hydrate (NoSQLKV.object_storage w) r.
Proof.
  destruct (retrieve_overflow_run self r w) as (f & s & ->). reflexivity.
Qed.

(** Hydrating a list of rows: the first failure wins; store and backend
    are as before. *)
Lemma hydrate_rows_run self rows (w : NoSQLKV.World K) :
  exists fetched' slept',
    NoSQLKV.mapM_st (NoSQLKV._retrieve_overflow self) rows w
    = (mapM (Spec.hydrate (NoSQLKV.object_storage w)) rows,
       NoSQLKV.mkWorld (NoSQLKV.backend w) (NoSQLKV.object_storage w)
         fetched' slept').
Proof.
  revert w. induction rows as [|r rows IH]; intros w.
  - exists (NoSQLKV.fetched w), (NoSQLKV.slept w). now destruct w.
  - cbn [NoSQLKV.mapM_st mapM]. unfold NoSQLKV.st_bind at 1.
    destruct (retrieve_overflow_run self r w) as (f1 & s1 & ->).
    destruct (Spec.hydrate (NoSQLKV.object_storage w) r) as [d|e];
      [|eexists _, _; reflexivity].
    unfold NoSQLKV.st_bind at 1.
    destruct (IH (NoSQLKV.mkWorld (NoSQLKV.backend w)
                    (NoSQLKV.object_storage w) f1 s1)) as (f2 & s2 & ->).
    simpl. destruct (mapM _ rows); eexists _, _; reflexivity.
Qed.

End OverflowFacts.

(** ** The in-memory query pipeline *)

Section Pipeline.

Context {json : NoSQLKV.Json} {hashlib : NoSQLKV.Hashlib}
        {format : NoSQLKV.Format} {K : Type} {backend_impl : NoSQLKV.Backend K}.

(** The [seen]/[unique] loop keeps the first record of every canonical
    serialisation, in order. *)
Lemma distinct_loop_first_seen (seen : gset string) (earlier : list string)
  (unique l : list JsonDict) :
  (forall k, k ∈ seen <-> k ∈ earlier) ->
  NoSQLKV.distinct_loop seen unique l = unique ++ Spec.first_seen earlier l.
Proof.
  revert seen earlier unique.
  induction l as [|r l IH]; intros seen earlier unique Hseen; simpl.
  - now rewrite app_nil_r.
  - destruct (decide (NoSQLKV.json_dumps_sorted r ∈ seen)) as [Hin|Hnin].
    + rewrite (bool_decide_eq_true_2 _ Hin).
      rewrite (bool_decide_eq_true_2 _ (proj1 (Hseen _) Hin)).
      now apply IH.
    + rewrite (bool_decide_eq_false_2 _ Hnin).
      rewrite bool_decide_eq_false_2 by (intros Hin; apply Hnin, Hseen, Hin).
      rewrite (IH _ (NoSQLKV.json_dumps_sorted r :: earlier)).
      * now rewrite <- app_assoc.
      * intros k. rewrite elem_of_union, elem_of_singleton, elem_of_cons, Hseen.
        tauto.
Qed.

Lemma distinct_loop_spec (l : list JsonDict) :
  NoSQLKV.distinct_loop ∅ [] l = Spec.first_seen [] l.
Proof.
  apply (distinct_loop_first_seen ∅ [] []).
  intros k. rewrite elem_of_nil. set_solver.
Qed.

Lemma query_linq_fst self model b (w : NoSQLKV.World K) :
  fst (NoSQLKV.query_linq self model b w)
  = Py.bind (fst (NoSQLKV._query_raw model ∅ None (NoSQLKV.backend w)))
      (fun raw =>
       Py.bind (mapM (Spec.hydrate (NoSQLKV.object_storage w)) raw)
         (Spec.linq_stages b)).
Proof.
  unfold NoSQLKV.query_linq, NoSQLKV.st_bind at 1, NoSQLKV.on_backend.
  destruct (NoSQLKV._query_raw model ∅ None (NoSQLKV.backend w)) as [[raw|e] k'];
    [|reflexivity].
  cbn [fst Py.bind]. unfold NoSQLKV.st_bind at 1.
  destruct (hydrate_rows_run self raw
              (NoSQLKV.mkWorld k' (NoSQLKV.object_storage w)
                 (NoSQLKV.fetched w) (NoSQLKV.slept w))) as (f & s & ->).
  cbn [NoSQLKV.object_storage].
  destruct (mapM _ raw) as [full|e]; [|reflexivity].
  cbn [Py.bind]. unfold Spec.linq_stages, NoSQLKV.st_bind, NoSQLKV.lift, NoSQLKV.ret.
  destruct (NoSQLKV._apply_filters full b) as [filtered|e]; [|reflexivity].
  cbn [Py.bind]. destruct (Query.count_only b); [reflexivity|].
  destruct (NoSQLKV._apply_ordering filtered b) as [ordered|e]; [|reflexivity].
  cbn [Py.bind fst]. now rewrite distinct_loop_spec.
Qed.

(** C3: for every builder and every raw result set the backend returns,
    [query_linq] first resolves every row through the overflow check (a
    stub becomes the content of its blob, a failed check aborts the query)
    and only then runs the stages, on the hydrated records, in the order
    filter, count short-circuit, order, paginate, project, distinct; with
    [count_only] set the answer is the number of hydrated records that pass
    the filters, and no later stage runs. *)
Theorem C3_query_linq_hydrates_then_stages :
  forall (self : NoSQLKV.Adapter) (model : NoSQLKV.Model)
         (b : Query.QueryBuilder) (w : NoSQLKV.World K),
    fst (NoSQLKV.query_linq self model b w)
    = Py.bind (fst (NoSQLKV._query_raw model ∅ None (NoSQLKV.backend w)))
        (fun raw =>
         Py.bind (mapM (Spec.hydrate (NoSQLKV.object_storage w)) raw)
           (fun full =>
            Py.bind (NoSQLKV._apply_filters full b) (fun filtered =>
            if Query.count_only b then Ok (NoSQLKV.Count (length filtered))
            else
              Py.bind (NoSQLKV._apply_ordering filtered b) (fun ordered =>
              let page := NoSQLKV._apply_pagination ordered b in
              let projected := NoSQLKV._apply_projection page b in
              Ok (NoSQLKV.Rows (if Query.distinct b
                                then Spec.first_seen [] projected
                                else projected))))))
    /\ fst (NoSQLKV.query_linq self model (Query.count b) w)
       = Py.bind (fst (NoSQLKV._query_raw model ∅ None (NoSQLKV.backend w)))
           (fun raw =>
            Py.bind (mapM (Spec.hydrate (NoSQLKV.object_storage w)) raw)
              (fun full =>
               Py.bind (NoSQLKV._apply_filters full b) (fun filtered =>
               Ok (NoSQLKV.Count (length filtered))))).
Proof.
  intros self model b w. split.
  - apply query_linq_fst.
  - rewrite query_linq_fst. reflexivity.
Qed.

End Pipeline.

Example line_json_round_trip :
  NoSQLKV.json_loads (Json := Examples.line_json)
    (NoSQLKV.json_dumps (Json := Examples.line_json) Examples.user_record)
  = Some Examples.user_record.
Proof. vm_compute. reflexivity. Qed.

(** ** Overflow round trip *)

Section OverflowRoundTrip.

Context {json : NoSQLKV.Json} {hashlib : NoSQLKV.Hashlib}
        {format : NoSQLKV.Format} {K : Type} {backend_impl : NoSQLKV.Backend K}.

Lemma check_overflow_small self data (w : NoSQLKV.World K) :
  Z.of_nat (length (NoSQLKV.encode (NoSQLKV.json_dumps data)))
    <= NoSQLKV.max_size self ->
  NoSQLKV._check_overflow self data w = (Ok (data, None), w).
Proof.
  intros Hsize. unfold NoSQLKV._check_overflow. apply retry3_ok.
  unfold NoSQLKV._check_overflow_body.
  now rewrite (proj2 (Z.ltb_ge _ _) Hsize).
Qed.

Lemma check_overflow_large self data (w : NoSQLKV.World K) :
  let data_bytes := NoSQLKV.encode (NoSQLKV.json_dumps data) in
  let digest := NoSQLKV.md5_hexdigest data_bytes in
  let blob_key := ("overflow/" ++ digest ++ ".json")%string in
  NoSQLKV.max_size self < Z.of_nat (length data_bytes) ->
  NoSQLKV._check_overflow self data w
  = (Ok (NoSQLKV.overflow_stub blob_key (Z.of_nat (length data_bytes)) digest,
         Some blob_key),
     NoSQLKV.mkWorld (NoSQLKV.backend w)
       (<[blob_key := data_bytes]> (NoSQLKV.object_storage w))
       (NoSQLKV.fetched w) (NoSQLKV.slept w)).
Proof.
  intros data_bytes digest blob_key Hsize.
  unfold NoSQLKV._check_overflow. apply retry3_ok.
  unfold NoSQLKV._check_overflow_body.
  fold data_bytes. rewrite (proj2 (Z.ltb_lt _ _) Hsize). reflexivity.
Qed.

Lemma stub_fields blob_key size digest :
  truthy (get (NoSQLKV.overflow_stub blob_key size digest) "_overflow") = true
  /\ NoSQLKV.overflow_stub blob_key size digest !! "_blob_key" = Some (VStr blob_key)
  /\ get (NoSQLKV.overflow_stub blob_key size digest) "_checksum" = VStr digest
  /\ get (NoSQLKV.overflow_stub blob_key size digest) "_size" = VInt size
  /\ dom (NoSQLKV.overflow_stub blob_key size digest)
     = ({["_overflow"; "_blob_key"; "_size"; "_checksum"]} : gset string).
Proof.
  unfold NoSQLKV.overflow_stub, get.
  split; [now rewrite lookup_insert_eq|].
  split; [now rewrite lookup_insert_ne, lookup_insert_eq by done|].
  split; [now rewrite !lookup_insert_ne, lookup_insert_eq by done|].
  split; [now rewrite !lookup_insert_ne, lookup_insert_eq by done|].
  rewrite !dom_insert_L, dom_empty_L. set_solver.
Qed.

Lemma hydrate_stub store blob_key size digest blob :
  store !! blob_key = Some blob ->
  Spec.hydrate store (NoSQLKV.overflow_stub blob_key size digest)
  = match NoSQLKV.json_loads (NoSQLKV.decode blob) with
    | Some full =>
        if String.eqb (NoSQLKV.md5_hexdigest blob) digest then Ok full
        else raise StorageError
          "Overflow retrieval failed: Checksum mismatch on overflow retrieval"
    | None => raise StorageError "Overflow retrieval failed: Expecting value"
    end.
Proof.
  intros Hblob. unfold Spec.hydrate.
  destruct (stub_fields blob_key size digest) as (-> & -> & -> & _).
  cbn [negb]. now rewrite Hblob.
Qed.

(** C1: a record whose serialisation is longer than [max_size] (1 MiB for
    the base adapter, see [NoSQLKV.init]) is written by [put] as follows:
    the serialised bytes go to the object store under
    [overflow/{digest}.json] and the backend receives the stub
    [{_overflow, _blob_key, _size, _checksum}] in place of the record.
    Reading the stub back through [_retrieve_overflow], also as a row that
    [query] gets from the backend, returns the original record (for a
    record that [json.loads(json.dumps(.))] gives back unchanged); and when
    the bytes found under the blob key have a digest other than the
    checksum of the stub, the read raises [StorageError] and returns no
    data. *)
Theorem C1_overflow_round_trip :
  forall (self : NoSQLKV.Adapter) (model : NoSQLKV.Model) (data : JsonDict)
         (w : NoSQLKV.World K),
    let data_bytes := NoSQLKV.encode (NoSQLKV.json_dumps data) in
    let digest := NoSQLKV.md5_hexdigest data_bytes in
    let blob_key := ("overflow/" ++ digest ++ ".json")%string in
    let stub := NoSQLKV.overflow_stub blob_key (Z.of_nat (length data_bytes)) digest in
    let keys := NoSQLKV._get_pk_rk self model data in
    NoSQLKV.max_size self < Z.of_nat (length data_bytes) ->
    NoSQLKV.put self model data w
    = NoSQLKV.on_backend (NoSQLKV._put_raw model (fst keys) (snd keys) stub)
        (NoSQLKV.mkWorld (NoSQLKV.backend w)
           (<[blob_key := data_bytes]> (NoSQLKV.object_storage w))
           (NoSQLKV.fetched w) (NoSQLKV.slept w))
    /\ NoSQLKV.object_storage (snd (NoSQLKV.put self model data w)) !! blob_key
       = Some data_bytes
    /\ (NoSQLKV.json_loads (NoSQLKV.json_dumps data) = Some data ->
        forall w' : NoSQLKV.World K,
          NoSQLKV.object_storage w' !! blob_key = Some data_bytes ->
          fst (NoSQLKV._retrieve_overflow self stub w') = Ok data
          /\ forall q limit k',
               NoSQLKV._query_raw model q limit (NoSQLKV.backend w')
               = (Ok [stub], k') ->
               fst (NoSQLKV.query self model (Some q) limit w') = Ok [data])
    /\ (forall (w' : NoSQLKV.World K) (blob : list Byte.byte),
          NoSQLKV.object_storage w' !! blob_key = Some blob ->
          NoSQLKV.md5_hexdigest blob <> digest ->
          exists msg,
            fst (NoSQLKV._retrieve_overflow self stub w')
            = Raise (mk_exn StorageError msg)).
Proof.
  intros self model data w data_bytes digest blob_key stub keys Hsize.
  assert (Hput : NoSQLKV.put self model data w
                 = NoSQLKV.on_backend
                     (NoSQLKV._put_raw model (fst keys) (snd keys) stub)
                     (NoSQLKV.mkWorld (NoSQLKV.backend w)
                        (<[blob_key := data_bytes]> (NoSQLKV.object_storage w))
                        (NoSQLKV.fetched w) (NoSQLKV.slept w))).
  { unfold NoSQLKV.put. fold keys. destruct keys as [pk rk].
    unfold NoSQLKV.st_bind.
    now rewrite (check_overflow_large self data w Hsize). }
  split; [exact Hput|]. split.
  { rewrite Hput. unfold NoSQLKV.on_backend. cbn [NoSQLKV.backend].
    destruct (NoSQLKV._put_raw _ _ _ _ _). cbn. apply lookup_insert_eq. }
  split.
  - intros Hjson w' Hblob.
    assert (Hhyd : Spec.hydrate (NoSQLKV.object_storage w') stub = Ok data).
    { unfold stub. rewrite (hydrate_stub _ _ _ _ _ Hblob).
      unfold data_bytes at 1, NoSQLKV.decode, NoSQLKV.encode.
      rewrite string_of_list_byte_of_string, Hjson.
      fold data_bytes. fold digest. now rewrite String.eqb_refl. }
    split; [now rewrite retrieve_overflow_fst|].
    intros q limit k' Hq. unfold NoSQLKV.query, NoSQLKV.st_bind at 1,
      NoSQLKV.on_backend.
    cbn [default from_option id]. rewrite Hq.
    destruct (hydrate_rows_run self [stub]
                (NoSQLKV.mkWorld k' (NoSQLKV.object_storage w')
                   (NoSQLKV.fetched w') (NoSQLKV.slept w'))) as (f & s & ->).
    cbn [fst NoSQLKV.object_storage mapM]. now rewrite Hhyd.
  - intros w' blob Hblob Hdigest. rewrite retrieve_overflow_fst.
    unfold stub. rewrite (hydrate_stub _ _ _ _ _ Hblob).
    destruct (NoSQLKV.json_loads (NoSQLKV.decode blob)); [|eexists; reflexivity].
    rewrite (proj2 (String.eqb_neq _ _) Hdigest). eexists; reflexivity.
Qed.

(** C5 (as amended): a checksum mismatch is raised as a [StorageError],
    which is the class the retry decorator of [_retrieve_overflow] catches:
    the blob is fetched on each of the [max_attempts = 3] attempts, with
    pauses of 1 and 2 seconds between them, and the error reaches the
    caller after the third attempt; no data is returned. *)
Theorem C5_checksum_mismatch_surfaces_after_three_attempts :
  forall (self : NoSQLKV.Adapter) (stub : JsonDict) (w : NoSQLKV.World K)
         (key : string) (blob : list Byte.byte),
    truthy (get stub "_overflow") = true ->
    stub !! "_blob_key" = Some (VStr key) ->
    NoSQLKV.object_storage w !! key = Some blob ->
    py_eq (VStr (NoSQLKV.md5_hexdigest blob)) (get stub "_checksum") = false ->
    exists msg,
      NoSQLKV._retrieve_overflow self stub w
      = (Raise (mk_exn StorageError msg),
         NoSQLKV.mkWorld (NoSQLKV.backend w) (NoSQLKV.object_storage w)
           (NoSQLKV.fetched w ++ [key; key; key])
           (NoSQLKV.slept w ++ [1; 2]%Q)).
Proof.
  intros self stub w key blob Hstub Hkey Hblob Hsum.
  assert (Hbody : forall f s,
            exists msg,
              NoSQLKV._retrieve_overflow_body self stub
                (NoSQLKV.mkWorld (NoSQLKV.backend w) (NoSQLKV.object_storage w) f s)
              = (Raise (mk_exn StorageError msg),
                 NoSQLKV.mkWorld (NoSQLKV.backend w) (NoSQLKV.object_storage w)
                   (f ++ [key]) s)
              /\ msg = match NoSQLKV.json_loads (NoSQLKV.decode blob) with
                       | Some _ => "Overflow retrieval failed: Checksum mismatch on overflow retrieval"
                       | None => "Overflow retrieval failed: Expecting value"
                       end).
  { intros f s. unfold NoSQLKV._retrieve_overflow_body.
    rewrite Hstub. cbn [negb].
    unfold NoSQLKV.reraise_as, NoSQLKV.st_bind, NoSQLKV.os_get, NoSQLKV.throw,
      NoSQLKV.ret. rewrite Hkey. cbn [NoSQLKV.object_storage NoSQLKV.backend
      NoSQLKV.fetched NoSQLKV.slept]. rewrite Hblob.
    destruct (NoSQLKV.json_loads (NoSQLKV.decode blob)).
    - rewrite Hsum. eexists; split; reflexivity.
    - eexists; split; reflexivity. }
  destruct (Hbody (NoSQLKV.fetched w) (NoSQLKV.slept w)) as (m1 & H1' & Hm1).
  destruct (Hbody (NoSQLKV.fetched w ++ [key]) (NoSQLKV.slept w ++ [1%Q]))
    as (m2 & H2' & Hm2).
  destruct (Hbody ((NoSQLKV.fetched w ++ [key]) ++ [key])
              ((NoSQLKV.slept w ++ [1%Q]) ++ [(1 * 2)%Q])) as (m3 & H3' & Hm3).
  exists m3. unfold NoSQLKV._retrieve_overflow.
  replace (NoSQLKV.fetched w ++ [key; key; key])
    with (((NoSQLKV.fetched w ++ [key]) ++ [key]) ++ [key])
    by now rewrite <- !app_assoc.
  replace (NoSQLKV.slept w ++ [1%Q; 2%Q])
    with ((NoSQLKV.slept w ++ [1%Q]) ++ [(1 * 2)%Q])
    by now rewrite <- !app_assoc.
  eapply retry3_exhausted.
  - destruct w; exact H1'.
  - reflexivity.
  - exact H2'.
  - reflexivity.
  - exact H3'.
Qed.

End OverflowRoundTrip.

(** *** C1 and C5 on sample data *)

Lemma C1_overflow_round_trip_witness :
  NoSQLKV.max_size Examples.tiny_adapter
    < Z.of_nat (length Examples.user_bytes)
  /\ fst (NoSQLKV._retrieve_overflow
            (json := Examples.line_json) (hashlib := Examples.rolling_hashlib)
            Examples.tiny_adapter Examples.user_stub
            (snd (NoSQLKV.put
                    (json := Examples.line_json) (hashlib := Examples.rolling_hashlib)
                    (format := Examples.plain_format)
                    (backend_impl := Examples.scan_backend)
                    Examples.tiny_adapter Examples.user_model
                    Examples.user_record Examples.empty_world)))
     = Ok Examples.user_record
  /\ exists msg,
       fst (NoSQLKV._retrieve_overflow
              (json := Examples.line_json) (hashlib := Examples.rolling_hashlib)
              Examples.tiny_adapter Examples.user_stub Examples.corrupted_world)
       = Raise (mk_exn StorageError msg).
Proof.
  assert (Hsize : NoSQLKV.max_size Examples.tiny_adapter
                  < Z.of_nat (length Examples.user_bytes))
    by (vm_compute; reflexivity).
  destruct (@C1_overflow_round_trip Examples.line_json Examples.rolling_hashlib
              Examples.plain_format Examples.Rows Examples.scan_backend
              Examples.tiny_adapter Examples.user_model Examples.user_record
              Examples.empty_world Hsize) as (_ & Hstored & Hread & Hbad).
  split; [exact Hsize|]. split.
  - apply Hread; [vm_compute; reflexivity | exact Hstored].
  - apply (Hbad Examples.corrupted_world Examples.corrupted_bytes).
    + vm_compute; reflexivity.
    + vm_compute. discriminate.
Defined.

Lemma C5_checksum_mismatch_witness :
  exists msg,
    NoSQLKV._retrieve_overflow
      (json := Examples.line_json) (hashlib := Examples.rolling_hashlib)
      Examples.tiny_adapter Examples.user_stub Examples.corrupted_world
    = (Raise (mk_exn StorageError msg),
       NoSQLKV.mkWorld [] (<[Examples.user_blob_key := Examples.corrupted_bytes]> ∅)
         [Examples.user_blob_key; Examples.user_blob_key; Examples.user_blob_key]
         [1; 2]%Q).
Proof.
  apply (@C5_checksum_mismatch_surfaces_after_three_attempts
           Examples.line_json Examples.rolling_hashlib Examples.Rows
           Examples.tiny_adapter Examples.user_stub Examples.corrupted_world
           Examples.user_blob_key Examples.corrupted_bytes).
  - vm_compute; reflexivity.
  - vm_compute; reflexivity.
  - vm_compute; reflexivity.
  - vm_compute; reflexivity.
Defined.

(** C5 (as stated) fails: on a blob whose digest is not the checksum of
    the stub, one call of [_retrieve_overflow] fetches the blob three times
    and sleeps twice before the error reaches the caller. *)
Lemma C5_counterexample_mismatch_is_retried :
  let r := NoSQLKV._retrieve_overflow
             (json := Examples.line_json) (hashlib := Examples.rolling_hashlib)
             Examples.tiny_adapter Examples.user_stub Examples.corrupted_world in
  fst r = Raise (mk_exn StorageError
            "Overflow retrieval failed: Checksum mismatch on overflow retrieval")
  /\ NoSQLKV.fetched (snd r)
     = [Examples.user_blob_key; Examples.user_blob_key; Examples.user_blob_key]
  /\ NoSQLKV.slept (snd r) = [1; 2]%Q
  /\ length (NoSQLKV.fetched (snd r)) <> 1%nat.
Proof.
  vm_compute. repeat split; discriminate.
Qed.

(** ** The audit chain *)


(** On hashes, that is on strings and [None], [==] is equality. *)
Lemma py_eq_hash (a b : value) :
  as_num a = None -> (py_eq a b = true <-> a = b).
Proof.
  intros Ha. unfold py_eq. rewrite Ha.
  destruct a as [|[]|z|s]; try discriminate Ha;
    destruct b as [|[]|y|t]; simpl;
    try (split; [reflexivity | reflexivity]);
    try (split; [discriminate | discriminate]).
  rewrite String.eqb_eq. split; [now intros -> | now intros [= ->]].
Qed.



Example verify_chain_detects_foreign_record :
  Audit.verify_chain (Examples.ledger_adapter Examples.broken_ledger) (Some "t1")
  = Ok false.
Proof. vm_compute. reflexivity. Qed.

(** ** Field decryption *)

Lemma substring_all (s : string) : String.substring 0 (String.length s) s = s.
Proof. induction s as [|c s IH]; simpl; [reflexivity | now rewrite IH]. Qed.

Lemma str_from_prefix (p s : string) :
  str_from (String.length p) (p ++ s)%string = s.
Proof.
  unfold str_from. induction p as [|c p IH]; simpl.
  - rewrite Nat.sub_0_r. apply substring_all.
  - exact IH.
Qed.

Lemma startswith_prefix (p s : string) : startswith (p ++ s)%string p = true.
Proof.
  unfold startswith. induction p as [|c p IH]; simpl.
  - now destruct s.
  - destruct (ascii_dec c c); [exact IH | contradiction].
Qed.

Lemma str_length_append (p s : string) :
  String.length (p ++ s)%string = (String.length p + String.length s)%nat.
Proof. induction p as [|c p IH]; simpl; [reflexivity | now rewrite IH]. Qed.

Lemma append_not_fixed (c : ascii) (p s : string) : (String c p ++ s)%string <> s.
Proof.
  intros Heq. apply (f_equal String.length) in Heq.
  rewrite str_length_append in Heq. simpl in Heq. lia.
Qed.

(** C9, at the code: when the payload of a value marked [encrypted:]
    cannot be decrypted, [_decrypt_value] does not raise, but what it
    returns is the text after the marker, not the stored value. *)
Theorem C9_decrypt_failure_returns_payload_without_marker :
  forall (crypto : Security.Crypto) (self : Security.FieldEncryption)
         (payload : string) (e : exn),
    Security.cryptography_installed = true ->
    Security.decrypt_payload self payload = Raise e ->
    Security._decrypt_value self (VStr ("encrypted:" ++ payload))
    = Ok (VStr payload)
    /\ VStr payload <> VStr ("encrypted:" ++ payload).
Proof.
  intros crypto self payload e Hinst Hfail. split.
  - unfold Security._decrypt_value.
    rewrite (startswith_prefix "encrypted:" payload), Hinst. cbn [negb].
    change 10%nat with (String.length "encrypted:").
    now rewrite str_from_prefix, Hfail.
  - intros [= Heq]. symmetry in Heq. revert Heq. apply append_not_fixed.
Qed.

Lemma C9_decrypt_failure_witness :
  Security._decrypt_value (crypto := Examples.rotated_key_crypto)
    Examples.some_key (VStr "encrypted:abc")
  = Ok (VStr "abc")
  /\ VStr "abc" <> VStr "encrypted:abc".
Proof.
  apply (C9_decrypt_failure_returns_payload_without_marker
           Examples.rotated_key_crypto Examples.some_key "abc"
           (mk_exn ValueError "Incorrect padding")); reflexivity.
Defined.

(** ** Identifier validation *)

Lemma bind_ok {A B} (c : result A) (k : A -> result B) (b : B) :
  Py.bind c k = Ok b -> exists a, c = Ok a /\ k a = Ok b.
Proof. destruct c as [a|e]; simpl; [eauto | discriminate]. Qed.

Lemma mapM_ok {A B} (f : A -> result B) (l : list A) (ys : list B) :
  mapM f l = Ok ys -> forall x, In x l -> exists y, f x = Ok y.
Proof.
  revert ys. induction l as [|a l IH]; intros ys Hm x Hin; [destruct Hin|].
  simpl in Hm. destruct (f a) as [b|] eqn:Hfa; [|discriminate].
  destruct (mapM f l) as [bs|] eqn:Hl; [|discriminate].
  destruct Hin as [<-|Hin]; [eauto|]. now apply (IH bs).
Qed.

Lemma str_append_nil (p : string) : (p ++ "")%string = p.
Proof.
  induction p as [|c p IH]; [reflexivity|].
  change (String c (p ++ "")%string = String c p). now rewrite IH.
Qed.

Section Validators.

Variable cls : ascii -> bool.
Hypothesis newline_outside : cls "010"%char = false.

Lemma span_spec (s : string) :
  let (p, r) := Utils.span cls s in
  s = (p ++ r)%string /\ Spec.all_chars cls p = true
  /\ match r with
     | EmptyString => True
     | String c _ => cls c = false
     end.
Proof.
  induction s as [|c s IH]; simpl; [auto|].
  destruct (cls c) eqn:Hc; [|auto].
  destruct (Utils.span cls s) as [p r]. simpl. rewrite Hc.
  destruct IH as (-> & Hp & Hr). auto.
Qed.

Lemma span_identifier (s : string) :
  Spec.all_chars cls s = true -> Utils.span cls s = (s, EmptyString).
Proof.
  induction s as [|c s IH]; simpl; [reflexivity|].
  intros Hall. apply andb_true_iff in Hall as [-> Hs]. now rewrite (IH Hs).
Qed.

Lemma ends_with_newline_app (p : string) :
  Spec.ends_with_newline (p ++ String "010" "")%string = true.
Proof.
  induction p as [|c p IH]; [reflexivity|].
  simpl. destruct (p ++ String "010" "")%string eqn:Hp; [|exact IH].
  destruct p; discriminate.
Qed.

(** The accepted strings: the identifiers over the class, and those
    followed by one line feed. *)
Lemma re_match_class_plus_spec (s : string) :
  Utils.re_match_class_plus cls s = true <->
  Spec.identifier cls s = true
  \/ exists p, s = (p ++ String "010" "")%string /\ Spec.identifier cls p = true.
Proof.
  unfold Utils.re_match_class_plus, Spec.identifier.
  pose proof (span_spec s) as Hspan.
  destruct (Utils.span cls s) as [p r] eqn:Hsp.
  destruct Hspan as (Hs & Hp & Hr). split.
  - intros Hm. apply andb_true_iff in Hm as [Hne Hrest].
    apply orb_true_iff in Hrest as [Hr0 | Hr1].
    + apply String.eqb_eq in Hr0. subst r.
      left. assert (s = p) as -> by (rewrite Hs; apply str_append_nil).
      now rewrite Hne, Hp.
    + apply String.eqb_eq in Hr1. subst r.
      right. exists p. now rewrite Hne, Hp.
  - intros [Hid | (q & -> & Hid)].
    + apply andb_true_iff in Hid as [Hne Hall].
      rewrite (span_identifier s Hall) in Hsp. injection Hsp as <- <-.
      now rewrite Hne.
    + apply andb_true_iff in Hid as [Hne Hall].
      assert (Hq : Utils.span cls (q ++ String "010" "")%string
                   = (q, String "010" "")).
      { clear -Hall newline_outside. induction q as [|c q IH]; simpl.
        - now rewrite newline_outside.
        - simpl in Hall. apply andb_true_iff in Hall as [-> Hq].
          now rewrite (IH Hq). }
      rewrite Hq in Hsp. injection Hsp as <- <-. now rewrite Hne.
Qed.

Lemma re_match_no_newline (s : string) :
  Spec.ends_with_newline s = false ->
  Utils.re_match_class_plus cls s = Spec.identifier cls s.
Proof.
  intros Hnl. destruct (Spec.identifier cls s) eqn:Hid.
  - apply re_match_class_plus_spec. now left.
  - destruct (Utils.re_match_class_plus cls s) eqn:Hm; [|reflexivity].
    apply re_match_class_plus_spec in Hm as [Hid' | (p & -> & _)]; [congruence|].
    now rewrite ends_with_newline_app in Hnl.
Qed.

End Validators.

Lemma column_char_newline : Utils.column_char "010"%char = false.
Proof. reflexivity. Qed.

Lemma table_char_newline : Utils.table_char "010"%char = false.
Proof. reflexivity. Qed.

Lemma validate_column_name_ok (s t : string) :
  Utils.validate_column_name s = Ok t -> Utils.validate_column_name s = Ok s.
Proof.
  unfold Utils.validate_column_name.
  now destruct (Utils.re_match_class_plus Utils.column_char s).
Qed.

Lemma validate_table_name_ok (s t : string) :
  Utils.validate_table_name s = Ok t ->
  t = s /\ Utils.validate_table_name s = Ok s.
Proof.
  unfold Utils.validate_table_name.
  destruct (Utils.re_match_class_plus Utils.table_char s); [|discriminate].
  now intros [= <-].
Qed.

Lemma validated_all (fs ys : list string) :
  mapM Utils.validate_column_name fs = Ok ys ->
  forall f, In f fs -> Utils.validate_column_name f = Ok f.
Proof.
  intros Hm f Hin. destruct (mapM_ok _ _ _ Hm f Hin) as [y Hy].
  now apply validate_column_name_ok in Hy.
Qed.

Lemma select_statement_validated table (q : option Lookup) l o sql params :
  Postgres.select_statement table q l o = Ok (sql, params) ->
  Utils.validate_table_name table = Ok table
  /\ forall k, k ∈ dom (default ∅ q) -> Utils.validate_column_name k = Ok k.
Proof.
  unfold Postgres.select_statement. intros Hs.
  apply bind_ok in Hs as (t & Ht & Hsql).
  apply validate_table_name_ok in Ht as [-> Ht]. split; [exact Ht|].
  intros k Hk. apply elem_of_dom in Hk as [v Hv].
  unfold Postgres.select_sql in Hsql. apply bind_ok in Hsql as (parts & Hparts & _).
  assert (Hin : In (k, v) (map_to_list (default ∅ q))).
  { apply list_elem_of_In, elem_of_map_to_list, Hv. }
  destruct (mapM_ok _ _ _ Hparts (k, v) Hin) as [y Hy].
  unfold Postgres.where_part in Hy. apply bind_ok in Hy as (k' & Hk' & _).
  now apply validate_column_name_ok in Hk'.
Qed.

Lemma linq_statement_validated table b sql params :
  Postgres.linq_statement table b = Ok (sql, params) ->
  Utils.validate_table_name table = Ok table
  /\ (Query.count_only b = false ->
      forall fs f, Query.select_fields b = Some fs -> In f fs ->
                   Utils.validate_column_name f = Ok f)
  /\ (forall gs g, Query.group_by_fields b = Some gs -> In g gs ->
                   Utils.validate_column_name g = Ok g)
  /\ (forall f d, In (f, d) (Query.order_by_fields b) ->
                  Utils.validate_column_name f = Ok f).
Proof.
  unfold Postgres.linq_statement. intros Hs.
  apply bind_ok in Hs as (t & Ht & Hsql).
  apply validate_table_name_ok in Ht as [-> Ht]. split; [exact Ht|].
  unfold Postgres.linq_sql in Hsql.
  apply bind_ok in Hsql as (sql1 & Hsel & Hsql).
  apply bind_ok in Hsql as ([wc wp] & _ & Hsql).
  destruct (if String.eqb wc "" then _ else _) as [sql2 params2].
  apply bind_ok in Hsql as (sql3 & Hgrp & Hsql).
  apply bind_ok in Hsql as (sql4 & Hord & _).
  split; [|split].
  - intros Hcount fs f Hfs Hin. rewrite Hcount, Hfs in Hsel.
    destruct fs as [|f0 fs]; [destruct Hin|].
    apply bind_ok in Hsel as (ys & Hys & _).
    now apply (validated_all _ _ Hys).
  - intros gs g Hgs Hin. rewrite Hgs in Hgrp.
    destruct gs as [|g0 gs]; [destruct Hin|].
    apply bind_ok in Hgrp as (ys & Hys & _).
    now apply (validated_all _ _ Hys).
  - intros f d Hin.
    destruct (Query.order_by_fields b) as [|o0 os] eqn:Hos; [destruct Hin|].
    apply bind_ok in Hord as (parts & Hparts & _).
    destruct (mapM_ok _ _ _ Hparts (f, d) Hin) as [y Hy].
    apply bind_ok in Hy as (f' & Hf' & _).
    now apply validate_column_name_ok in Hf'.
Qed.

(** C6 (as amended): every table name interpolated into SQL text is first
    accepted by [validate_table_name], which admits the non-empty strings
    of alphanumeric characters, underscores and hyphens; every column name
    of the WHERE clause of [select] and of the SELECT, GROUP BY and ORDER BY
    clauses of [query_linq] is first accepted by [validate_column_name],
    which admits the non-empty strings of alphanumeric characters and
    underscores.  Both validators reject every other string that does not
    end in a line feed with a [ValidationError]. *)
Theorem C6_identifiers_validated_before_interpolation :
  (forall s, Spec.ends_with_newline s = false ->
     (Utils.validate_column_name s = Ok s
      <-> Spec.identifier Utils.column_char s = true)
     /\ (Spec.identifier Utils.column_char s = false ->
         exists msg, Utils.validate_column_name s
                     = Raise (mk_exn ValidationError msg))
     /\ (Utils.validate_table_name s = Ok s
         <-> Spec.identifier Utils.table_char s = true)
     /\ (Spec.identifier Utils.table_char s = false ->
         exists msg, Utils.validate_table_name s
                     = Raise (mk_exn ValidationError msg)))
  /\ (forall table (q : option Lookup) l o sql params,
        Postgres.select_statement table q l o = Ok (sql, params) ->
        Utils.validate_table_name table = Ok table
        /\ forall k, k ∈ dom (default ∅ q) -> Utils.validate_column_name k = Ok k)
  /\ (forall table b sql params,
        Postgres.linq_statement table b = Ok (sql, params) ->
        Utils.validate_table_name table = Ok table
        /\ (Query.count_only b = false ->
            forall fs f, Query.select_fields b = Some fs -> In f fs ->
                         Utils.validate_column_name f = Ok f)
        /\ (forall gs g, Query.group_by_fields b = Some gs -> In g gs ->
                         Utils.validate_column_name g = Ok g)
        /\ (forall f d, In (f, d) (Query.order_by_fields b) ->
                        Utils.validate_column_name f = Ok f)).
Proof.
  split; [|split].
  - intros s Hnl.
    pose proof (re_match_no_newline _ column_char_newline s Hnl) as Hc.
    pose proof (re_match_no_newline _ table_char_newline s Hnl) as Ht.
    unfold Utils.validate_column_name, Utils.validate_table_name.
    rewrite Hc, Ht.
    destruct (Spec.identifier Utils.column_char s),
             (Spec.identifier Utils.table_char s);
      repeat split; try discriminate; try reflexivity; intros _; eexists; reflexivity.
  - apply select_statement_validated.
  - apply linq_statement_validated.
Qed.

Lemma C6_identifiers_validated_witness :
  (Utils.validate_column_name "user_id" = Ok "user_id"
   <-> Spec.identifier Utils.column_char "user_id" = true)
  /\ (exists msg, Utils.validate_column_name "user id; --"
                  = Raise (mk_exn ValidationError msg))
  /\ Utils.validate_column_name "tenant_id" = Ok "tenant_id"
  /\ Utils.validate_column_name "created_at" = Ok "created_at".
Proof.
  destruct C6_identifiers_validated_before_interpolation as (Hval & Hsel & Hlinq).
  split; [|split; [|split]].
  - apply (Hval "user_id" eq_refl).
  - apply (Hval "user id; --" eq_refl). reflexivity.
  - assert (Hs : Postgres.select_statement "users"
                   (Some {["tenant_id" := OVal (VStr "t1")]}) (Some 10) None
                 = Ok ("SELECT * FROM users WHERE tenant_id = %s LIMIT %s",
                       [OVal (VStr "t1"); OVal (VInt 10)]))
      by (vm_compute; reflexivity).
    destruct (Hsel _ _ _ _ _ _ Hs) as (_ & Hk).
    apply Hk. simpl. set_solver.
  - assert (Hs : Postgres.linq_statement "orders" Examples.report_builder
                 = Ok ("SELECT status, user_id FROM orders GROUP BY status ORDER BY created_at DESC",
                       []))
      by (vm_compute; reflexivity).
    destruct (Hlinq _ _ _ _ Hs) as (_ & _ & _ & Hord).
    apply (Hord "created_at" true). simpl. now left.
Defined.

(** C6 (as stated) fails: a table name with a hyphen is not a string of
    alphanumeric characters and underscores, and yet it is accepted and
    interpolated. *)
Lemma C6_counterexample_hyphen_in_table_name :
  Spec.identifier Utils.column_char "audit-log" = false
  /\ Utils.validate_table_name "audit-log" = Ok "audit-log"
  /\ Postgres.linq_statement "audit-log" Query.new
     = Ok ("SELECT * FROM audit-log", []).
Proof. vm_compute. repeat split. Qed.

(** Two further observations on the code, outside the amended statement:
    [query_linq] interpolates the fields of its filters as
    [to_sql_where] renders them, without validating them, and the
    validators accept an identifier followed by a line feed. *)
Example linq_where_field_not_validated :
  (exists msg, Utils.validate_column_name "1=1; DROP TABLE users; --"
               = Raise (mk_exn ValidationError msg))
  /\ Postgres.linq_statement "users" Examples.injected_builder
     = Ok ("SELECT * FROM users WHERE 1=1; DROP TABLE users; -- = %s",
           [OVal (VInt 1)]).
Proof. split; [eexists|]; vm_compute; reflexivity. Qed.

Example validator_accepts_trailing_newline :
  Utils.validate_column_name (String "i" (String "d" (String "010" "")))
  = Ok (String "i" (String "d" (String "010" ""))).
Proof. reflexivity. Qed.

(** ** The orchestrator *)

Lemma setdefault_lookup {V} (k : string) (v : V) (d : gmap string V) :
  setdefault k v d !! k = Some (default v (d !! k)).
Proof.
  unfold setdefault. destruct (d !! k) as [x|] eqn:Hk; simpl.
  - exact Hk.
  - apply lookup_insert_eq.
Qed.

Lemma setdefault_lookup_ne {V} (k k' : string) (v : V) (d : gmap string V) :
  k <> k' -> setdefault k v d !! k' = d !! k'.
Proof.
  intros Hne. unfold setdefault. destruct (d !! k); [reflexivity|].
  now apply lookup_insert_ne.
Qed.

Lemma setdefault_dom {V} (k : string) (v : V) (d : gmap string V) :
  dom (setdefault k v d) = {[k]} ∪ dom d.
Proof.
  unfold setdefault. destruct (d !! k) as [x|] eqn:Hk.
  - assert (Hin : k ∈ dom d) by (apply elem_of_dom; eauto). set_solver.
  - apply dom_insert_L.
Qed.

Section OrchestratorFacts.

Variable self : Factory.DatabaseFactory.
Variable env : Tenancy.Env.

Lemma run_pure {A} (fn : result A) : Factory._run self fn = fn.
Proof.
  unfold Factory._run. destruct (Factory._enable_retries self); simpl;
    [apply retry3_pure | reflexivity].
Qed.

(** The audit stamps leave [tenant_id] alone. *)
Lemma inject_audit_fields_tenant (data : JsonDict) (is_create : bool) :
  Factory._inject_audit_fields env data is_create !! "tenant_id"
  = data !! "tenant_id".
Proof.
  unfold Factory._inject_audit_fields.
  destruct (Tenancy.nonempty (Factory._current_actor_id env)), is_create;
    now rewrite ?setdefault_lookup_ne by done.
Qed.

(** With [include_deleted] the caller's query plays no part in the query
    that is dispatched. *)
Lemma dispatch_query_include_deleted model_name (q : option Lookup) :
  Factory.dispatch_query self env model_name q true
  = Factory.dispatch_query self env model_name None true.
Proof. reflexivity. Qed.

Lemma dispatch_query_keys model_name (q : option Lookup) (q' : Lookup) k :
  Factory.dispatch_query self env model_name q true = Ok q' ->
  k ∈ dom q' ->
  k = "tenant_id"
  \/ (k = "deleted_at" /\ Factory._soft_delete self = true)
  \/ exists r (fs : Lookup),
       Factory.rls self = Some r
       /\ Security._read_filters r !! model_name = Some fs /\ k ∈ dom fs.
Proof.
  unfold Factory.dispatch_query, Factory._apply_soft_delete_filter.
  intros Hq Hk. apply bind_ok in Hq as (q1 & Hq1 & Hq).
  set (q0 := if negb (Factory._soft_delete self) then default ∅ None
             else setdefault "deleted_at" (OVal VNone) (default ∅ None)) in *.
  assert (Hsoft : forall k, k ∈ dom q0 ->
                 k = "deleted_at" /\ Factory._soft_delete self = true).
  { intros k0. unfold q0. destruct (Factory._soft_delete self); simpl.
    - rewrite setdefault_dom. set_solver.
    - set_solver. }
  assert (Hten : forall k, k ∈ dom q1 -> k = "tenant_id" \/ k ∈ dom q0).
  { intros k1 Hk1. destruct (Factory.tenant_enforcer self).
    - unfold Tenancy.enforce_read, Tenancy.enforce in Hq1.
      destruct (Tenancy.current_tenant env) as [t|]; [|discriminate].
      destruct (Tenancy.isolation_level t); injection Hq1 as <-;
        rewrite ?dom_insert_L in Hk1; set_solver.
    - injection Hq1 as <-. now right. }
  set (q2 := match Factory.rls self with
             | Some r => Security.enforce_read r model_name q1
             | None => q1
             end) in *.
  assert (Hrls : forall k, k ∈ dom q2 ->
                 k ∈ dom q1
                 \/ exists r (fs : Lookup),
                      Factory.rls self = Some r
                      /\ Security._read_filters r !! model_name = Some fs
                      /\ k ∈ dom fs).
  { intros k2 Hk2. unfold q2 in Hk2. destruct (Factory.rls self) as [r|];
      [|now left].
    unfold Security.enforce_read, Security.add_missing in Hk2. simpl in Hk2.
    destruct (Security._read_filters r !! model_name) as [fs|] eqn:Hfs;
      [|now left].
    rewrite dom_union_L in Hk2. apply elem_of_union in Hk2 as [?|?];
      [now left | right; eauto]. }
  assert (Hlast : k = "tenant_id" \/ k ∈ dom q2).
  { destruct (Tenancy.nonempty (Factory._current_tenant_id env));
      injection Hq as <-; [|now right].
    rewrite setdefault_dom in Hk. set_solver. }
  destruct Hlast as [?|Hlast]; [now left|].
  destruct (Hrls _ Hlast) as [Hk2'|?]; [|now right; right].
  destruct (Hten _ Hk2') as [?|Hk1']; [now left|].
  right; left. now apply Hsoft.
Qed.

End OrchestratorFacts.

(** C10, at the code: when [read] or [read_one] is called with
    [include_deleted=True], the caller's query is discarded before
    dispatch: the query handed to storage is rebuilt from [None] and holds
    the injected tenant and row-level-security filters and, when soft
    delete is enabled, still the soft-delete filter [deleted_at = None]
    that the flag is there to lift.  Consequently the lookup of
    [_fetch_before], which uses [include_deleted=True], does not constrain
    the row fetched for the before-snapshot: every entity identifier gives
    the same fetch. *)
Theorem C10_include_deleted_discards_query :
  forall (self : Factory.DatabaseFactory) (env : Tenancy.Env)
         (model : Factory.ModelRef) (q1 q2 : Lookup) (e1 e2 : Factory.EntityId)
         (limit offset : option Z) (no_cache : bool) (cache_ttl : option Z),
    Factory.read self env model (Some q1) limit offset no_cache cache_ttl true
    = Factory.read self env model None limit offset no_cache cache_ttl true
    /\ Factory.read_one self env model q1 no_cache true
       = Factory.read_one self env model q2 no_cache true
    /\ Factory._fetch_before self env model e1
       = Factory._fetch_before self env model e2
    /\ Factory.dispatch_query self env (Factory.model_name model) (Some q1) true
       = Factory.dispatch_query self env (Factory.model_name model) None true
    /\ forall (q' : Lookup) (k : string),
         Factory.dispatch_query self env (Factory.model_name model) (Some q1) true
         = Ok q' ->
         k ∈ dom q' ->
         k = "tenant_id"
         \/ (k = "deleted_at" /\ Factory._soft_delete self = true)
         \/ exists r (fs : Lookup),
              Factory.rls self = Some r
              /\ Security._read_filters r !! Factory.model_name model = Some fs
              /\ k ∈ dom fs.
Proof.
  intros. repeat split; try reflexivity.
  intros q' k. apply dispatch_query_keys.
Qed.

Lemma C10_include_deleted_witness :
  Factory.dispatch_query Examples.soft_factory Examples.tenant_env "User"
    (Some {["id" := OVal (VInt 7)]}) true
  = Ok (<["tenant_id" := OVal (VStr "t1")]> {["deleted_at" := OVal VNone]})
  /\ ("deleted_at" = "tenant_id"
      \/ ("deleted_at" = "deleted_at"
          /\ Factory._soft_delete Examples.soft_factory = true)
      \/ exists r (fs : Lookup),
           Factory.rls Examples.soft_factory = Some r
           /\ Security._read_filters r !! "User" = Some fs
           /\ "deleted_at" ∈ dom fs).
Proof.
  assert (Hq : Factory.dispatch_query Examples.soft_factory Examples.tenant_env
                 "User" (Some {["id" := OVal (VInt 7)]}) true
               = Ok (<["tenant_id" := OVal (VStr "t1")]>
                       {["deleted_at" := OVal VNone]}))
    by (vm_compute; reflexivity).
  split; [exact Hq|].
  destruct (C10_include_deleted_discards_query Examples.soft_factory
              Examples.tenant_env Examples.users_ref
              {["id" := OVal (VInt 7)]} ∅ (Factory.EId (VInt 7))
              (Factory.EId (VInt 8)) None None true None)
    as (_ & _ & _ & _ & Hkeys).
  apply (Hkeys _ "deleted_at" Hq).
  rewrite dom_insert_L, dom_singleton_L. set_solver.
Defined.

(** C10, the failing input: with soft delete enabled, a read with
    [include_deleted=True] still dispatches [deleted_at = None], which is
    neither a tenant nor a row-level-security filter (here there is no
    tenant and no RLS at all), so the deleted rows stay excluded. *)
Lemma C10_counterexample_soft_delete_filter_remains :
  Factory.dispatch_query Examples.soft_factory Examples.no_tenant_env "User"
    (Some {["id" := OVal (VInt 7)]}) true
  = Ok {["deleted_at" := OVal VNone]}
  /\ Factory.rls Examples.soft_factory = None
  /\ Factory.tenant_enforcer Examples.soft_factory = false
  /\ Factory._current_tenant_id Examples.no_tenant_env = None.
Proof. vm_compute. repeat split. Qed.

Section Writes.

Variable self : Factory.DatabaseFactory.
Variable env : Tenancy.Env.

Lemma inject_tenant_none (data : JsonDict) :
  Tenancy.nonempty (Factory._current_tenant_id env) = None ->
  Factory._inject_tenant env data
  = raise ValueError
      "Tenant ID is required but not set in AuditContext or TenantContext".
Proof. unfold Factory._inject_tenant. now intros ->. Qed.

Lemma inject_tenant_some (data : JsonDict) (t : string) :
  Tenancy.nonempty (Factory._current_tenant_id env) = Some t ->
  Factory._inject_tenant env data = Ok (setdefault "tenant_id" (VStr t) data).
Proof. unfold Factory._inject_tenant. now intros ->. Qed.

(** C8 (as amended): [create] and [upsert] require an active tenant and
    fail when none is set; with tenant [t] set, the record they hand on to
    encryption and storage carries a [tenant_id]: [t], unless the record
    came with a [tenant_id] of its own, which is kept.  [update] and
    [delete] make no such check of their own: without a tenant enforcer and
    row-level security [update] goes on whatever the tenant context is and
    leaves the [tenant_id] of the written record as the caller gave it, and
    a hard delete fetches the before-snapshot and deletes. *)
Theorem C8_create_upsert_require_tenant :
  forall (model : Factory.ModelRef) (data : JsonDict) (entity_id : Factory.EntityId)
         (etag : option string) (replace : bool),
    (Tenancy.nonempty (Factory._current_tenant_id env) = None ->
     (exists e, Factory.create self env model data = Raise e)
     /\ (exists e, Factory.upsert self env model data replace = Raise e))
    /\ (forall (t : string) (d1 : JsonDict),
          Tenancy.nonempty (Factory._current_tenant_id env) = Some t ->
          Factory.write_policies self env (Factory.model_name model) data = Ok d1 ->
          let d := Factory._inject_audit_fields env
                     (setdefault "tenant_id" (VStr t) d1) true in
          d !! "tenant_id" = Some (default (VStr t) (d1 !! "tenant_id"))
          /\ Factory.create self env model data
             = Py.bind (Factory.encrypt_record self (Factory.meta model) d) (fun d' =>
               Factory._run self (Factory.create_op self model d'))
          /\ Factory.upsert self env model data replace
             = Py.bind (Factory.encrypt_record self (Factory.meta model) d) (fun d' =>
               Factory._run self (Factory.upsert_op self model d' replace)))
    /\ (Factory.tenant_enforcer self = false -> Factory.rls self = None ->
        Factory.encrypting self (Factory.meta model) = None ->
        let d := Factory._inject_audit_fields env data false in
        d !! "tenant_id" = data !! "tenant_id"
        /\ Factory.update self env model entity_id data etag replace
           = Py.bind (Factory._fetch_before self env model entity_id) (fun _ =>
             Factory._run self (Factory.update_op self env model entity_id d
                                  etag replace)))
    /\ Factory.delete self env model entity_id etag true
       = Py.bind (Factory._fetch_before self env model entity_id) (fun _ =>
         Factory._run self (Factory.delete_op self model entity_id etag)).
Proof.
  intros model data entity_id etag replace. split; [|split; [|split]].
  - intros Hnone. unfold Factory.create, Factory.upsert.
    destruct (Factory.write_policies self env (Factory.model_name model) data)
      as [d1|e]; simpl; [|eauto].
    rewrite (inject_tenant_none d1 Hnone). simpl. eauto.
  - intros t d1 Ht Hpol d. split; [|split].
    + unfold d. now rewrite inject_audit_fields_tenant, setdefault_lookup.
    + unfold Factory.create. rewrite Hpol. simpl.
      now rewrite (inject_tenant_some d1 t Ht).
    + unfold Factory.upsert. rewrite Hpol. simpl.
      now rewrite (inject_tenant_some d1 t Ht).
  - intros Henf Hrls Henc d. split.
    + apply inject_audit_fields_tenant.
    + unfold Factory.update, Factory.write_policies.
      now rewrite Henf, Hrls, Henc.
  - unfold Factory.delete. now rewrite andb_false_r.
Qed.

End Writes.

Lemma C8_create_upsert_witness :
  (exists e, Factory.create Examples.plain_factory Examples.no_tenant_env
               Examples.users_ref Examples.new_name = Raise e)
  /\ Factory.create Examples.plain_factory Examples.tenant_env
       Examples.users_ref Examples.new_name
     = Ok (Factory._inject_audit_fields Examples.tenant_env
             (<["tenant_id" := VStr "t1"]> Examples.new_name) true)
  /\ Factory._inject_audit_fields Examples.tenant_env
       (<["tenant_id" := VStr "t1"]> Examples.new_name) true !! "tenant_id"
     = Some (VStr "t1").
Proof.
  split; [|split].
  - destruct (C8_create_upsert_require_tenant Examples.plain_factory
                Examples.no_tenant_env Examples.users_ref Examples.new_name
                (Factory.EId (VInt 1)) None false) as (Hnone & _).
    apply Hnone. reflexivity.
  - destruct (C8_create_upsert_require_tenant Examples.plain_factory
                Examples.tenant_env Examples.users_ref Examples.new_name
                (Factory.EId (VInt 1)) None false) as (_ & Hsome & _).
    destruct (Hsome "t1" Examples.new_name eq_refl eq_refl) as (_ & Hcreate & _).
    rewrite Hcreate. vm_compute. reflexivity.
  - destruct (C8_create_upsert_require_tenant Examples.plain_factory
                Examples.tenant_env Examples.users_ref Examples.new_name
                (Factory.EId (VInt 1)) None false) as (_ & Hsome & _).
    destruct (Hsome "t1" Examples.new_name eq_refl eq_refl) as (Hd & _).
    exact Hd.
Defined.

(** C8 (as stated) fails for [update] and [delete]: with no tenant set
    anywhere, [update] succeeds and the record it writes has no
    [tenant_id], and a hard [delete] succeeds too. *)
Lemma C8_counterexample_update_without_tenant :
  Factory._current_tenant_id Examples.no_tenant_env = None
  /\ (exists written,
        Factory.update Examples.plain_factory Examples.no_tenant_env
          Examples.users_ref (Factory.EId (VInt 1)) Examples.new_name None false
        = Ok written
        /\ written !! "tenant_id" = None)
  /\ Factory.delete Examples.plain_factory Examples.no_tenant_env
       Examples.users_ref (Factory.EId (VInt 1)) None true
     = Ok ∅.
Proof.
  split; [reflexivity|]. split.
  - eexists. split; [vm_compute; reflexivity|]. vm_compute. reflexivity.
  - vm_compute. reflexivity.
Qed.

(** ** Paged reads *)

Lemma py_int_py_str (z : Z) : py_int (py_str (VInt z)) = Ok z.
Proof.
  unfold py_int, py_str. rewrite NilZero.isi.
  - now rewrite DecimalZ.of_to.
  - destruct z; simpl; intros [= Hd]; now apply Unsigned.to_uint_nonnil in Hd.
  - destruct z; simpl; intros [= Hd]; now apply Unsigned.to_uint_nonnil in Hd.
Qed.

Lemma py_str_int_nonempty (z : Z) : String.eqb (py_str (VInt z)) "" = false.
Proof.
  destruct (String.eqb_spec (py_str (VInt z)) "") as [Heq|]; [|reflexivity].
  pose proof (py_int_py_str z) as Hint. rewrite Heq in Hint. discriminate.
Qed.

(** The offset a continuation token stands for. *)
Lemma token_offset (z : Z) :
  (if String.eqb (py_str (VInt z)) "" then Ok 0 else py_int (py_str (VInt z)))
  = Ok z.
Proof. now rewrite py_str_int_nonempty, py_int_py_str. Qed.

Section Paging.

Context {driver : Postgres.Driver}.

Lemma select_run table (q : option Lookup) l o sql params cursor :
  Postgres.select_statement table q l o = Ok (sql, params) ->
  Postgres.execute sql params = Ok cursor ->
  Postgres.select table q l o = Ok (Postgres.rows_of cursor).
Proof.
  unfold Postgres.select_statement, Postgres.select. intros Hs Hx.
  rewrite retried_pure.
  destruct (Utils.validate_table_name table) as [t|]; [|discriminate].
  simpl in *. rewrite Hs. simpl. now rewrite Hx.
Qed.

Variables (table : string) (q : Lookup) (dataset : list JsonDict).

Hypothesis Hpages : Spec.pages_from_dataset table q dataset.

Lemma select_page_first (page_size : Z) :
  0 <= page_size -> page_size < Z.of_nat (length dataset) ->
  Postgres.select_page table q page_size None
  = Ok (take (Z.to_nat page_size) dataset, Some (py_str (VInt page_size))).
Proof.
  intros Hp Hn. unfold Postgres.select_page. rewrite retried_pure. cbn [Py.bind].
  destruct (Hpages (page_size + 1) 0) as (sql & params & c & Hs & Hx & Hrows);
    [lia | lia |].
  rewrite (select_run _ _ _ _ _ _ _ Hs Hx), Hrows. cbn [Py.bind].
  change (Z.to_nat 0) with 0%nat. rewrite drop_0, length_take.
  assert (Hlt : (page_size <? Z.of_nat (Z.to_nat (page_size + 1)
                                          `min` length dataset)) = true).
  { apply Z.ltb_lt. lia. }
  rewrite Hlt. unfold slice_to. rewrite (proj2 (Z.leb_le 0 page_size) Hp).
  rewrite take_take. f_equal. f_equal. f_equal. lia.
Qed.

Lemma select_page_next (page_size : Z) :
  0 <= page_size -> page_size < Z.of_nat (length dataset) ->
  Postgres.select_page table q page_size (Some (py_str (VInt page_size)))
  = Ok (take (Z.to_nat page_size) (drop (Z.to_nat page_size) dataset),
        if Z.of_nat (length dataset) - page_size <=? page_size then None
        else Some (py_str (VInt (page_size + page_size)))).
Proof.
  intros Hp Hn. unfold Postgres.select_page. rewrite retried_pure.
  rewrite token_offset. cbn [Py.bind].
  destruct (Hpages (page_size + 1) page_size)
    as (sql & params & c & Hs & Hx & Hrows); [lia | lia |].
  rewrite (select_run _ _ _ _ _ _ _ Hs Hx), Hrows. cbn [Py.bind].
  rewrite length_take, length_drop.
  destruct (Z.leb_spec (Z.of_nat (length dataset) - page_size) page_size)
    as [Hlast | Hmore].
  - assert (Hlt : (page_size <? Z.of_nat (Z.to_nat (page_size + 1)
                     `min` (length dataset - Z.to_nat page_size))) = false).
    { apply Z.ltb_ge. lia. }
    rewrite Hlt. f_equal. f_equal.
    rewrite !take_ge; [reflexivity | |]; rewrite length_drop; lia.
  - assert (Hlt : (page_size <? Z.of_nat (Z.to_nat (page_size + 1)
                     `min` (length dataset - Z.to_nat page_size))) = true).
    { apply Z.ltb_lt. lia. }
    rewrite Hlt. unfold slice_to. rewrite (proj2 (Z.leb_le 0 page_size) Hp).
    rewrite take_take. f_equal. f_equal. f_equal. lia.
Qed.

End Paging.

(** Without field encryption the rows are only masked. *)
Lemma postprocess_plain self env model rows :
  Factory.encrypting self (Factory.meta model) = None ->
  Factory.postprocess self env model rows
  = Ok (map (fun r => Factory.mask self r (Factory.model_name model)
                        (Factory._current_actor_id env)
                        (Factory._current_tenant_id env)) rows).
Proof.
  intros Henc. unfold Factory.postprocess.
  assert (Hrows : mapM (Factory.decrypt_row self (Factory.meta model)) rows
                  = Ok rows).
  { induction rows as [|r rows IH]; [reflexivity|].
    cbn [mapM]. unfold Factory.decrypt_row at 1. now rewrite Henc, IH. }
  now rewrite Hrows.
Qed.

(** C7 (as amended): for a model kept in SQL, over a dataset of N records
    with N > P, [read_page] with page size P returns exactly the first P
    rows together with the continuation token [str(P)]; a second call that
    passes the token back returns the next P rows at most, which follow the
    first page in the dataset (no row position is returned twice), with a
    null token exactly when N - P <= P, in which case these are all the
    remaining N - P rows, and with the token [str(2P)] otherwise. *)
Theorem C7_read_page_sql_pages :
  forall (driver : Postgres.Driver) (self : Factory.DatabaseFactory)
         (env : Tenancy.Env) (model : Factory.ModelRef) (table : string)
         (query q' : Lookup) (dataset : list JsonDict)
         (post : JsonDict -> JsonDict) (page_size : Z),
    Factory.sql_table (Factory.meta model) = Some table ->
    Factory.sql_select_page (Factory._sql self) = Postgres.select_page ->
    Factory.dispatch_query self env (Factory.model_name model) (Some query) false
    = Ok q' ->
    (forall rows, Factory.postprocess self env model rows = Ok (map post rows)) ->
    Spec.pages_from_dataset table q' dataset ->
    0 <= page_size -> page_size < Z.of_nat (length dataset) ->
    let p := Z.to_nat page_size in
    let token := py_str (VInt page_size) in
    Factory.read_page self env model query page_size None false
    = Ok (map post (take p dataset), Some token)
    /\ length (take p dataset) = p
    /\ Factory.read_page self env model query page_size (Some token) false
       = Ok (map post (take p (drop p dataset)),
             if Z.of_nat (length dataset) - page_size <=? page_size then None
             else Some (py_str (VInt (page_size + page_size))))
    /\ take p dataset ++ take p (drop p dataset) = take (p + p) dataset
    /\ (Z.of_nat (length dataset) - page_size <= page_size ->
        take p (drop p dataset) = drop p dataset
        /\ length (drop p dataset) = (length dataset - p)%nat).
Proof.
  intros driver self env model table query q' dataset post page_size
    Htable Hsql Hq Hpost Hpages Hp Hn p token. subst p token.
  assert (Hread : forall tok,
            Factory.read_page self env model query page_size tok false
            = Py.bind (Postgres.select_page table q' page_size tok)
                (fun '(raw_rows, next_token) =>
                 Ok (map post raw_rows, next_token))).
  { intros tok. unfold Factory.read_page. rewrite Hq. cbn [Py.bind].
    rewrite run_pure. unfold Factory.read_page_op. rewrite Htable, Hsql.
    destruct (Postgres.select_page table q' page_size tok) as [[raw next]|];
      [|reflexivity].
    cbn [Py.bind]. now rewrite Hpost. }
  split; [|split; [|split; [|split]]].
  - rewrite Hread, (select_page_first table q' dataset Hpages page_size Hp Hn).
    reflexivity.
  - apply length_take_le. lia.
  - rewrite Hread, (select_page_next table q' dataset Hpages page_size Hp Hn).
    reflexivity.
  - apply take_take_drop.
  - intros Hlast. split; [|apply length_drop].
    apply take_ge. rewrite length_drop. lia.
Qed.

(** The driver of the sample table answers page statements from its rows. *)
Lemma people_pages :
  Spec.pages_from_dataset (driver := Examples.people_driver) "people" ∅
    Examples.people.
Proof.
  intros limit offset Hl Ho.
  unfold Postgres.select_statement, Postgres.select_sql.
  assert (Hv : Utils.validate_table_name "people" = Ok "people") by reflexivity.
  rewrite Hv. cbn [Py.bind default from_option id].
  rewrite map_to_list_empty. cbn [mapM Py.bind map concat Postgres.given].
  rewrite (proj2 (Z.eqb_neq limit 0)) by lia.
  destruct (Z.eqb_spec offset 0) as [->|Hne].
  - eexists _, _, _. split; [reflexivity|]. split; [reflexivity|].
    unfold Examples.people, Postgres.rows_of. cbn [Postgres.description
      Postgres.fetchall]. now rewrite skipn_map, firstn_map.
  - eexists _, _, _. split; [reflexivity|]. split; [reflexivity|].
    unfold Examples.people, Postgres.rows_of. cbn [Postgres.description
      Postgres.fetchall]. now rewrite skipn_map, firstn_map.
Qed.

Lemma C7_read_page_witness :
  Factory.read_page Examples.people_factory Examples.no_tenant_env
    Examples.people_ref ∅ 3 None false
  = Ok (map (fun r => r) (take 3 Examples.people), Some "3")
  /\ Factory.read_page Examples.people_factory Examples.no_tenant_env
       Examples.people_ref ∅ 3 (Some "3") false
     = Ok (map (fun r => r) (take 3 (drop 3 Examples.people)), None)
  /\ take 3 (drop 3 Examples.people) = drop 3 Examples.people.
Proof.
  destruct (C7_read_page_sql_pages Examples.people_driver
              Examples.people_factory Examples.no_tenant_env
              Examples.people_ref "people" ∅ ∅ Examples.people
              (fun r => r) 3)
    as (Hfirst & _ & Hnext & _ & Hlast).
  - reflexivity.
  - reflexivity.
  - reflexivity.
  - intros rows. now rewrite postprocess_plain.
  - exact people_pages.
  - lia.
  - vm_compute. reflexivity.
  - split; [exact Hfirst|]. split; [exact Hnext|].
    apply Hlast. vm_compute. discriminate.
Defined.

(** C7 (as stated) fails for N > 2P: over five records with page size two
    the resumed call returns two rows, not the remaining three, and a
    token that is not null. *)
Lemma C7_counterexample_second_page_not_the_rest :
  length Examples.people = 5%nat
  /\ Factory.read_page Examples.people_factory Examples.no_tenant_env
       Examples.people_ref ∅ 2 None false
     = Ok (take 2 Examples.people, Some "2")
  /\ Factory.read_page Examples.people_factory Examples.no_tenant_env
       Examples.people_ref ∅ 2 (Some "2") false
     = Ok (take 2 (drop 2 Examples.people), Some "4")
  /\ length (take 2 (drop 2 Examples.people)) = 2%nat
  /\ length (drop 2 Examples.people) = 3%nat.
Proof. vm_compute. repeat split. Qed.

(** On the schemaless side [query_page] computes the offset of the token
    and does not pass it on: whatever token comes back in, the rows are
    those of the first page. *)
Lemma nosql_query_page_ignores_token
  {json : NoSQLKV.Json} {hashlib : NoSQLKV.Hashlib} {format : NoSQLKV.Format}
  {K : Type} {backend_impl : NoSQLKV.Backend K}
  (self : NoSQLKV.Adapter) (model : NoSQLKV.Model) (q : Lookup)
  (page_size offset : Z) (w : NoSQLKV.World K) rows next :
  fst (NoSQLKV.query_page self model q page_size None w) = Ok (rows, next) ->
  exists next',
    fst (NoSQLKV.query_page self model q page_size
           (Some (py_str (VInt offset))) w) = Ok (rows, next')
    /\ (next = None <-> next' = None).
Proof.
  unfold NoSQLKV.query_page, NoSQLKV.st_bind, NoSQLKV.lift, NoSQLKV.ret.
  rewrite token_offset.
  destruct (NoSQLKV.query self model (Some q) (Some (page_size + 1)) w)
    as [[results|e] w']; [|discriminate].
  cbn [fst]. intros [= <- <-].
  eexists. split; [reflexivity|].
  destruct (page_size <? Z.of_nat (length results)); split; congruence.
Qed.

(** ** The model on sample inputs *)

(** The base adapter's threshold is 1 MiB. *)
Example init_max_size : NoSQLKV.max_size (NoSQLKV.init None) = 1048576.
Proof. reflexivity. Qed.

(** For a positive number of attempts the wrapper never falls out of its
    loop. *)
Lemma retry_positive_returns {W A : Type} (sleep : Q -> W -> W) (n : nat)
  (delay backoff : Q) (exceptions : list exn_class)
  (func : W -> result A * W) (w : W) :
  fst (Retry.retry sleep (S n) delay backoff exceptions func w) <> Ok None.
Proof.
  unfold Retry.retry. revert delay w.
  induction n as [|n IH]; intros delay w; cbn [Retry.retry_loop].
  - destruct (func w) as [[r|e] w']; [discriminate|].
    destruct (isinstance e exceptions); discriminate.
  - destruct (func w) as [[r|e] w']; [discriminate|].
    destruct (isinstance e exceptions); [|discriminate].
    apply IH.
Qed.

(** After [put] of an oversized record the backend holds the stub only;
    a filter on a field of the record finds it, a filter on a key of the
    stub does not. *)
Example query_linq_filters_hydrated_records :
  NoSQLKV.backend Examples.world_after_put
  = [("u1", "u1", Examples.user_stub)]
  /\ fst (NoSQLKV.query_linq
            (json := Examples.line_json) (hashlib := Examples.rolling_hashlib)
            (backend_impl := Examples.scan_backend)
            Examples.tiny_adapter Examples.user_model Examples.bio_filter
            Examples.world_after_put)
     = Ok (NoSQLKV.Rows [Examples.user_record])
  /\ fst (NoSQLKV.query_linq
            (json := Examples.line_json) (hashlib := Examples.rolling_hashlib)
            (backend_impl := Examples.scan_backend)
            Examples.tiny_adapter Examples.user_model Examples.stub_key_filter
            Examples.world_after_put)
     = Ok (NoSQLKV.Rows []).
Proof. vm_compute. repeat split. Qed.

(** [sorted] with [reverse=True] keeps tied records in their input order. *)
Example sorted_reverse_is_stable :
  sorted (NoSQLKV.sort_key "age") true
    [Examples.person "ann" 30; Examples.person "bob" 41; Examples.person "cy" 30]
  = Ok [Examples.person "bob" 41; Examples.person "ann" 30; Examples.person "cy" 30].
Proof. vm_compute. reflexivity. Qed.

(** A key column that mixes numbers and strings cannot be sorted. *)
Example sorted_mixed_keys_raise :
  NoSQLKV._apply_ordering
    [Examples.person "ann" 30; <["age" := VStr "old"]> ∅]
    (Query.order_by "age" false Query.new)
  = raise TypeError "'<' not supported between instances".
Proof. vm_compute. reflexivity. Qed.

(** A page size of zero returns no rows and the token ["0"]. *)
Example read_page_size_zero :
  Factory.read_page Examples.people_factory Examples.no_tenant_env
    Examples.people_ref ∅ 0 None false
  = Ok ([], Some "0").
Proof. vm_compute. reflexivity. Qed.

(** The statement [verify_chain] makes the PostgreSQL adapter send. *)
Example verify_chain_statement :
  Postgres.linq_statement "polydb_audit_log" (Audit.verify_builder (Some "t1"))
  = Ok ("SELECT * FROM polydb_audit_log WHERE tenant_id = %s ORDER BY timestamp ASC",
        [OVal (VStr "t1")]).
Proof. vm_compute. reflexivity. Qed.

(** ** Further properties of the in-memory pipeline *)

Lemma item_matches_forallb (fs : list Query.QueryFilter) (item : JsonDict) (m : bool) :
  NoSQLKV.item_matches fs item = Ok m ->
  m = forallb (fun f => match NoSQLKV.filter_matches f item with
                        | Ok true => true
                        | _ => false
                        end) fs.
Proof.
  revert m. induction fs as [|f fs IH]; intros m; simpl.
  - now intros [= <-].
  - destruct (NoSQLKV.filter_matches f item) as [[|]|e]; try discriminate.
    + intros H. now apply IH.
    + now intros [= <-].
Qed.

Lemma filter_loop_filter (fs : list Query.QueryFilter) (results filtered : list JsonDict) :
  NoSQLKV.filter_loop fs results = Ok filtered ->
  filtered
  = List.filter (fun item =>
                   forallb (fun f => match NoSQLKV.filter_matches f item with
                                     | Ok true => true
                                     | _ => false
                                     end) fs) results.
Proof.
  revert filtered. induction results as [|item rest IH]; intros filtered; simpl.
  - now intros [= <-].
  - destruct (NoSQLKV.item_matches fs item) as [m|e] eqn:Hm; [|discriminate].
    destruct (NoSQLKV.filter_loop fs rest) as [fl|e]; [|discriminate].
    intros [= <-]. rewrite <- (item_matches_forallb _ _ _ Hm), <- (IH fl eq_refl).
    reflexivity.
Qed.

Lemma list_filter_sublist {A} (p : A -> bool) (l : list A) :
  sublist (List.filter p l) l.
Proof.
  induction l as [|x l IH]; simpl; [constructor|].
  destruct (p x); now constructor.
Qed.

(** X1: when [_apply_filters] returns, it returns exactly the records
    that pass every filter of the builder (the filters are a conjunction),
    each as often as it occurs and in the order of the input. *)
Theorem apply_filters_keeps_records_passing_every_filter
  (results filtered : list JsonDict) (b : Query.QueryBuilder) :
  NoSQLKV._apply_filters results b = Ok filtered ->
  filtered
  = List.filter (fun item =>
                   forallb (fun f => match NoSQLKV.filter_matches f item with
                                     | Ok true => true
                                     | _ => false
                                     end) (Query.filters b)) results
  /\ sublist filtered results.
Proof.
  unfold NoSQLKV._apply_filters. intros H.
  assert (Heq : filtered
                = List.filter (fun item =>
                     forallb (fun f => match NoSQLKV.filter_matches f item with
                                       | Ok true => true
                                       | _ => false
                                       end) (Query.filters b)) results).
  { destruct (Query.filters b) as [|f fs] eqn:Hfs.
    - injection H as <-. simpl. induction results as [|x l IH]; simpl; congruence.
    - now apply filter_loop_filter. }
  split; [exact Heq|]. rewrite Heq. apply list_filter_sublist.
Qed.

Lemma apply_filters_witness :
  [Examples.person "bob" 41]
  = List.filter (fun item =>
                   forallb (fun f => match NoSQLKV.filter_matches f item with
                                     | Ok true => true
                                     | _ => false
                                     end)
                     (Query.filters
                        (Query.where_ "age" Query.GT (OVal (VInt 35)) Query.new)))
      [Examples.person "ann" 30; Examples.person "bob" 41]
  /\ sublist [Examples.person "bob" 41]
       [Examples.person "ann" 30; Examples.person "bob" 41].
Proof.
  apply (apply_filters_keeps_records_passing_every_filter
           [Examples.person "ann" 30; Examples.person "bob" 41]
           [Examples.person "bob" 41]
           (Query.where_ "age" Query.GT (OVal (VInt 35)) Query.new)).
  vm_compute. reflexivity.
Defined.

(** X2: a record whose field is missing, [None], [0], [False] or the
    empty string passes no [>], [>=], [<], [<=], [contains], [starts_with]
    or [ends_with] filter on that field, whatever the filter value: the
    comparison is not even made. *)
Theorem falsy_field_passes_no_range_or_substring_filter
  (f : Query.QueryFilter) (item : JsonDict) :
  truthy (get item (Query.field f)) = false ->
  In (Query.operator f)
     [Query.GT; Query.GTE; Query.LT; Query.LTE;
      Query.CONTAINS; Query.STARTS_WITH; Query.ENDS_WITH] ->
  NoSQLKV.filter_matches f item = Ok false.
Proof.
  intros Hfalsy Hop. unfold NoSQLKV.filter_matches. rewrite Hfalsy.
  simpl in Hop.
  destruct Hop as [<-|[<-|[<-|[<-|[<-|[<-|[<-|[]]]]]]]]; reflexivity.
Qed.

Lemma falsy_field_witness :
  NoSQLKV.filter_matches (Query.mkFilter "age" Query.LT (OVal (VInt 5)))
    (Examples.person "newborn" 0)
  = Ok false.
Proof.
  apply (falsy_field_passes_no_range_or_substring_filter
           (Query.mkFilter "age" Query.LT (OVal (VInt 5)))
           (Examples.person "newborn" 0)).
  - vm_compute. reflexivity.
  - simpl. tauto.
Defined.

(** X3: [skip(s).take(t)] with [s >= 0] and [t > 0] returns the [t]
    records after the first [s]; [take(0)] does not limit at all. *)
Theorem apply_pagination_window
  (results : list JsonDict) (b : Query.QueryBuilder) (s t : Z) :
  0 <= s -> 0 <= t ->
  NoSQLKV._apply_pagination results (Query.take t (Query.skip s b))
  = if t =? 0 then drop (Z.to_nat s) results
    else take (Z.to_nat t) (drop (Z.to_nat s) results).
Proof.
  intros Hs Ht. unfold NoSQLKV._apply_pagination. cbn [Query.take Query.skip
    Query.skip_count Query.take_count].
  assert (Hskip : (if s =? 0 then results else slice_from s results)
                  = drop (Z.to_nat s) results).
  { destruct (s =? 0) eqn:Hs0.
    - apply Z.eqb_eq in Hs0. now subst s.
    - unfold slice_from. now rewrite (proj2 (Z.leb_le _ _) Hs). }
  rewrite Hskip. destruct (t =? 0); [reflexivity|].
  unfold slice_to. now rewrite (proj2 (Z.leb_le _ _) Ht).
Qed.

Lemma apply_pagination_witness :
  NoSQLKV._apply_pagination Examples.people
    (Query.take 2 (Query.skip 1 Query.new))
  = if 2 =? 0 then drop (Z.to_nat 1) Examples.people
    else take (Z.to_nat 2) (drop (Z.to_nat 1) Examples.people).
Proof.
  apply (apply_pagination_window Examples.people Query.new 1 2); lia.
Defined.

(** X4: [select(fields)] with at least one field keeps, in every record,
    exactly the listed keys that the record has, with their values, and
    keeps the records themselves in number and order; [select()] without a
    field leaves the records whole. *)
Theorem apply_projection_keeps_selected_keys
  (results : list JsonDict) (b : Query.QueryBuilder) (fields : list string) :
  (fields <> [] ->
   Forall2 (fun item item' : JsonDict =>
              forall k, item' !! k
                        = if bool_decide (k ∈ fields) then item !! k else None)
     results (NoSQLKV._apply_projection results (Query.select fields b)))
  /\ NoSQLKV._apply_projection results (Query.select [] b) = results.
Proof.
  split; [|reflexivity].
  intros Hne. unfold NoSQLKV._apply_projection. cbn [Query.select Query.select_fields].
  destruct fields as [|f0 fs]; [contradiction|].
  induction results as [|item rest IH]; simpl; constructor; [|exact IH].
  intros k. unfold NoSQLKV.project.
  rewrite map_lookup_filter. destruct (item !! k) as [v|]; simpl.
  - destruct (decide (k ∈ f0 :: fs)) as [Hin|Hnin].
    + rewrite (bool_decide_eq_true_2 _ Hin). now rewrite option_guard_True.
    + rewrite (bool_decide_eq_false_2 _ Hnin). now rewrite option_guard_False.
  - now destruct (bool_decide _).
Qed.

Lemma apply_projection_witness :
  Forall2 (fun item item' : JsonDict =>
             forall k, item' !! k
                       = if bool_decide (k ∈ ["name"]) then item !! k else None)
    [Examples.person "ann" 30]
    (NoSQLKV._apply_projection [Examples.person "ann" 30]
       (Query.select ["name"] Query.new)).
Proof.
  apply (apply_projection_keeps_selected_keys
           [Examples.person "ann" 30] Query.new ["name"]).
  discriminate.
Defined.

Section DistinctFacts.

Context {json : NoSQLKV.Json}.

Lemma first_seen_facts (earlier : list string) (l : list JsonDict) :
  let r := Spec.first_seen earlier l in
  NoDup (map NoSQLKV.json_dumps_sorted r)
  /\ sublist r l
  /\ (forall y, In y r -> ~ In (NoSQLKV.json_dumps_sorted y) earlier)
  /\ (forall x, In x l ->
        In (NoSQLKV.json_dumps_sorted x) earlier
        \/ exists y, In y r
                     /\ NoSQLKV.json_dumps_sorted y = NoSQLKV.json_dumps_sorted x)
  /\ (forall y, In y r ->
        List.find (fun z => String.eqb (NoSQLKV.json_dumps_sorted z)
                              (NoSQLKV.json_dumps_sorted y)) l = Some y).
Proof.
  revert earlier. induction l as [|a l IH]; intros earlier; simpl.
  - split; [constructor|]. split; [constructor|].
    split; [intros ? []|]. split; intros ? [].
  - destruct (decide (NoSQLKV.json_dumps_sorted a ∈ earlier)) as [Hin|Hnin].
    + rewrite (bool_decide_eq_true_2 _ Hin).
      destruct (IH earlier) as (Hnd & Hsub & Hout & Hrep & Hfirst).
      split; [exact Hnd|]. split; [now constructor|]. split; [exact Hout|].
      split.
      * intros x [<-|Hx]; [left; now apply list_elem_of_In|now apply Hrep].
      * intros y Hy.
        destruct (String.eqb_spec (NoSQLKV.json_dumps_sorted a)
                    (NoSQLKV.json_dumps_sorted y)) as [Heq|_].
        -- exfalso. apply (Hout y Hy). rewrite <- Heq. now apply list_elem_of_In.
        -- now apply Hfirst.
    + rewrite (bool_decide_eq_false_2 _ Hnin).
      destruct (IH (NoSQLKV.json_dumps_sorted a :: earlier))
        as (Hnd & Hsub & Hout & Hrep & Hfirst).
      split.
      { simpl. constructor; [|exact Hnd].
        intros Hmem. apply list_elem_of_In, in_map_iff in Hmem as (y & Hy & Hyin).
        apply (Hout y Hyin). left. now symmetry. }
      split; [now constructor|]. split.
      { intros y [<-|Hy] Hmem.
        - apply Hnin. now apply list_elem_of_In.
        - apply (Hout y Hy). now right. }
      split.
      * intros x [<-|Hx]; [right; exists a; split; [now left|reflexivity]|].
        destruct (Hrep x Hx) as [[Heq|He]|(y & Hy & Hyx)].
        -- right. exists a. split; [now left|exact Heq].
        -- now left.
        -- right. exists y. split; [now right|exact Hyx].
      * intros y [<-|Hy].
        -- now rewrite String.eqb_refl.
        -- destruct (String.eqb_spec (NoSQLKV.json_dumps_sorted a)
                       (NoSQLKV.json_dumps_sorted y)) as [Heq|_].
           ++ exfalso. apply (Hout y Hy). now left.
           ++ now apply Hfirst.
Qed.

(** X5: the [distinct] stage keeps, for every canonical serialisation
    that occurs among the records, the first record with it and no other:
    the result is a sub-sequence of the input whose serialisations are
    pairwise different, and every input record has its serialisation in
    the result. *)
Theorem distinct_keeps_first_record_of_each_serialisation (l : list JsonDict) :
  let r := NoSQLKV.distinct_loop ∅ [] l in
  NoDup (map NoSQLKV.json_dumps_sorted r)
  /\ sublist r l
  /\ (forall x, In x l ->
        exists y, In y r
                  /\ NoSQLKV.json_dumps_sorted y = NoSQLKV.json_dumps_sorted x)
  /\ (forall y, In y r ->
        List.find (fun z => String.eqb (NoSQLKV.json_dumps_sorted z)
                              (NoSQLKV.json_dumps_sorted y)) l = Some y).
Proof.
  intros r. subst r. rewrite distinct_loop_spec.
  destruct (first_seen_facts [] l) as (Hnd & Hsub & _ & Hrep & Hfirst).
  split; [exact Hnd|]. split; [exact Hsub|]. split; [|exact Hfirst].
  intros x Hx. destruct (Hrep x Hx) as [[]|Hy]. exact Hy.
Qed.

End DistinctFacts.

Lemma retry_loop_ext {W A} (sleep : Q -> W -> W) (n : nat) (d backoff : Q)
  (exceptions : list exn_class) (f g : W -> result A * W) (w : W) :
  (forall w, f w = g w) ->
  Retry.retry_loop sleep n d backoff exceptions f w
  = Retry.retry_loop sleep n d backoff exceptions g w.
Proof.
  intros Hfg. revert d w. induction n as [|n IH]; intros d w; [reflexivity|].
  cbn [Retry.retry_loop]. rewrite Hfg.
  destruct (g w) as [[r|e] w']; [reflexivity|].
  destruct (isinstance e exceptions); [|reflexivity].
  destruct n; [reflexivity|]. apply IH.
Qed.

Lemma retry3_ext {W A} (sleep : Q -> W -> W) (d : Q) (exceptions : list exn_class)
  (f g : W -> result A * W) (w : W) :
  (forall w, f w = g w) ->
  Retry.retry3 sleep d exceptions f w = Retry.retry3 sleep d exceptions g w.
Proof.
  intros Hfg. unfold Retry.retry3, Retry.retry.
  now rewrite (retry_loop_ext sleep 3 d 2 exceptions f g w Hfg).
Qed.

Section OverflowEdges.

Context {json : NoSQLKV.Json} {hashlib : NoSQLKV.Hashlib}
        {format : NoSQLKV.Format} {K : Type} {backend_impl : NoSQLKV.Backend K}.

(** X6: [_retrieve_overflow] hands back a record without a truthy
    [_overflow] entry as it is, without creating the object store, without
    touching it and without pausing.  Whatever the record, it never writes
    to the object store or to the backend.  An exception it raises is a
    [StorageError] or the one the creation of the object store raised:
    that one is raised in front of the [try], so it leaves the method as
    it is and, unless it is a [StorageError], after one attempt.  With an
    object store at hand the method is [NoSQLKV._retrieve_overflow]. *)
Theorem retrieve_overflow_reads_only_and_its_exceptions
  (get_object_storage : result unit) (self : NoSQLKV.Adapter) (r : JsonDict)
  (w : NoSQLKV.World K) :
  let run := NoSQLKVAdapter._retrieve_overflow get_object_storage self r w in
  (truthy (get r "_overflow") = false -> run = (Ok r, w))
  /\ NoSQLKV.object_storage (snd run) = NoSQLKV.object_storage w
  /\ NoSQLKV.backend (snd run) = NoSQLKV.backend w
  /\ (forall e, fst run = Raise e ->
        exn_cls e = StorageError \/ get_object_storage = Raise e)
  /\ (forall e, truthy (get r "_overflow") = true ->
        get_object_storage = Raise e -> isinstance e [StorageError] = false ->
        run = (Raise e, w))
  /\ (get_object_storage = Ok tt -> run = NoSQLKV._retrieve_overflow self r w).
Proof.
  intros run.
  assert (Hplain : truthy (get r "_overflow") = false -> run = (Ok r, w)).
  { intros Hp. unfold run, NoSQLKVAdapter._retrieve_overflow. apply retry3_ok.
    unfold NoSQLKVAdapter._retrieve_overflow_body. now rewrite Hp. }
  assert (Hready : forall u, get_object_storage = Ok u ->
                     run = NoSQLKV._retrieve_overflow self r w).
  { intros u Hu. unfold run, NoSQLKVAdapter._retrieve_overflow,
      NoSQLKV._retrieve_overflow.
    apply retry3_ext. intros w0.
    unfold NoSQLKVAdapter._retrieve_overflow_body. rewrite Hu.
    unfold NoSQLKV._retrieve_overflow_body.
    now destruct (negb (truthy (get r "_overflow"))). }
  destruct get_object_storage as [u|e0] eqn:Hstore.
  - rewrite (Hready u eq_refl).
    destruct (retrieve_overflow_run self r w) as (f & s & Hrun).
    split; [exact (fun Hp => eq_trans (eq_sym (Hready u eq_refl)) (Hplain Hp))|].
    split; [now rewrite Hrun|]. split; [now rewrite Hrun|].
    split; [|split].
    + intros e. rewrite retrieve_overflow_fst. intros He. left.
      now apply (hydrate_raises _ _ _ He).
    + intros e _ [=].
    + destruct u. reflexivity.
  - split; [exact Hplain|].
    destruct (truthy (get r "_overflow")) eqn:Hov.
    2:{ rewrite (Hplain eq_refl). cbn [fst snd].
        repeat split; try discriminate. }
    assert (Hbody : forall w0 : NoSQLKV.World K, NoSQLKVAdapter._retrieve_overflow_body
                                 (Raise e0) self r w0 = (Raise e0, w0)).
    { intros w0. unfold NoSQLKVAdapter._retrieve_overflow_body.
      now rewrite Hov. }
    destruct (isinstance e0 [StorageError]) eqn:Hinst.
    + assert (Hrun : run = (Raise e0, NoSQLKV.sleep (1 * 2)%Q (NoSQLKV.sleep 1 w))).
      { unfold run, NoSQLKVAdapter._retrieve_overflow.
        eapply retry3_exhausted;
          [apply Hbody|exact Hinst|apply Hbody|exact Hinst|apply Hbody]. }
      rewrite Hrun. cbn [fst snd].
      split; [now destruct w|]. split; [now destruct w|].
      split; [intros e [= <-]; now right|].
      split; [|discriminate].
      intros e _ [= <-] Hno. congruence.
    + assert (Hrun : run = (Raise e0, w)).
      { unfold run, NoSQLKVAdapter._retrieve_overflow.
        now apply retry3_not_caught. }
      rewrite Hrun. cbn [fst snd].
      split; [reflexivity|]. split; [reflexivity|].
      split; [intros e [= <-]; now right|].
      split; [|discriminate].
      now intros e _ [= <-] _.
Qed.

(** X7: a record whose serialisation is not longer than [max_size] (a
    length equal to it included) goes to the backend itself, under the key
    [_get_pk_rk] derives; the object store is not written. *)
Theorem put_stores_small_record_inline
  (self : NoSQLKV.Adapter) (model : NoSQLKV.Model) (data : JsonDict)
  (w : NoSQLKV.World K) :
  Z.of_nat (length (NoSQLKV.encode (NoSQLKV.json_dumps data)))
    <= NoSQLKV.max_size self ->
  NoSQLKV.put self model data w
  = NoSQLKV.on_backend
      (NoSQLKV._put_raw model (fst (NoSQLKV._get_pk_rk self model data))
         (snd (NoSQLKV._get_pk_rk self model data)) data) w
  /\ NoSQLKV.object_storage (snd (NoSQLKV.put self model data w))
     = NoSQLKV.object_storage w.
Proof.
  intros Hsize. unfold NoSQLKV.put.
  destruct (NoSQLKV._get_pk_rk self model data) as [pk rk]. cbn [fst snd].
  unfold NoSQLKV.st_bind. rewrite (check_overflow_small self data w Hsize).
  split; [reflexivity|].
  unfold NoSQLKV.on_backend.
  now destruct (NoSQLKV._put_raw model pk rk data (NoSQLKV.backend w)).
Qed.

End OverflowEdges.

Lemma retrieve_overflow_witness :
  NoSQLKVAdapter._retrieve_overflow (json := Examples.line_json)
    (hashlib := Examples.rolling_hashlib) (K := Examples.Rows)
    (raise ConnectionError "Failed to initialize S3 client")
    Examples.tiny_adapter Examples.user_stub Examples.empty_world
  = (raise ConnectionError "Failed to initialize S3 client", Examples.empty_world).
Proof.
  apply (retrieve_overflow_reads_only_and_its_exceptions
           (json := Examples.line_json) (hashlib := Examples.rolling_hashlib)
           (raise ConnectionError "Failed to initialize S3 client")
           Examples.tiny_adapter Examples.user_stub Examples.empty_world);
    reflexivity.
Defined.

Lemma put_small_record_witness :
  NoSQLKV.put (json := Examples.line_json) (hashlib := Examples.rolling_hashlib)
    (format := Examples.plain_format) (backend_impl := Examples.scan_backend)
    (NoSQLKV.mkAdapter None 30) Examples.user_model Examples.user_record
    Examples.empty_world
  = NoSQLKV.on_backend
      (NoSQLKV._put_raw (Backend := Examples.scan_backend) Examples.user_model
         (fst (NoSQLKV._get_pk_rk (json := Examples.line_json)
                 (hashlib := Examples.rolling_hashlib)
                 (format := Examples.plain_format)
                 (NoSQLKV.mkAdapter None 30) Examples.user_model
                 Examples.user_record))
         (snd (NoSQLKV._get_pk_rk (json := Examples.line_json)
                 (hashlib := Examples.rolling_hashlib)
                 (format := Examples.plain_format)
                 (NoSQLKV.mkAdapter None 30) Examples.user_model
                 Examples.user_record)) Examples.user_record)
      Examples.empty_world
  /\ NoSQLKV.object_storage
       (snd (NoSQLKV.put (json := Examples.line_json)
               (hashlib := Examples.rolling_hashlib)
               (format := Examples.plain_format)
               (backend_impl := Examples.scan_backend)
               (NoSQLKV.mkAdapter None 30) Examples.user_model
               Examples.user_record Examples.empty_world))
     = NoSQLKV.object_storage Examples.empty_world.
Proof.
  apply (put_stores_small_record_inline
           (json := Examples.line_json) (hashlib := Examples.rolling_hashlib)
           (format := Examples.plain_format)
           (backend_impl := Examples.scan_backend)
           (NoSQLKV.mkAdapter None 30) Examples.user_model Examples.user_record
           Examples.empty_world).
  vm_compute. discriminate.
Defined.

Lemma distinct_witness :
  let r := NoSQLKV.distinct_loop (json := Examples.line_json) ∅ []
             [Examples.person "ann" 30; Examples.person "ann" 30] in
  NoDup (map (NoSQLKV.json_dumps_sorted (Json := Examples.line_json)) r)
  /\ sublist r [Examples.person "ann" 30; Examples.person "ann" 30]
  /\ (forall x, In x [Examples.person "ann" 30; Examples.person "ann" 30] ->
        exists y, In y r
                  /\ NoSQLKV.json_dumps_sorted (Json := Examples.line_json) y
                     = NoSQLKV.json_dumps_sorted (Json := Examples.line_json) x)
  /\ (forall y, In y r ->
        List.find (fun z => String.eqb
                              (NoSQLKV.json_dumps_sorted (Json := Examples.line_json) z)
                              (NoSQLKV.json_dumps_sorted (Json := Examples.line_json) y))
          [Examples.person "ann" 30; Examples.person "ann" 30] = Some y).
Proof.
  exact (distinct_keeps_first_record_of_each_serialisation
           (json := Examples.line_json)
           [Examples.person "ann" 30; Examples.person "ann" 30]).
Defined.

(** ** The retry wrapper *)

Lemma calls_app (w w' : list RetryTrace.event) :
  RetryTrace.calls (w ++ w') = (RetryTrace.calls w + RetryTrace.calls w')%nat.
Proof. unfold RetryTrace.calls. now rewrite List.filter_app, length_app. Qed.

Lemma retry_loop_more {W A} (sleep : Q -> W -> W) (n : nat) (d backoff : Q)
  (exceptions : list exn_class) (func : W -> result A * W) (w : W) :
  Retry.retry_loop sleep (S (S n)) d backoff exceptions func w
  = match func w with
    | (Ok r, w') => (Ok (Some r), w')
    | (Raise e, w') =>
        if isinstance e exceptions
        then Retry.retry_loop sleep (S n) (d * backoff)%Q backoff exceptions func
               (sleep d w')
        else (Raise e, w')
    end.
Proof. reflexivity. Qed.

Lemma retry_flaky_run {A} (n k : nat) (d backoff : Q) (exceptions : list exn_class)
  (e : exn) (r : A) (w : list RetryTrace.event) :
  isinstance e exceptions = true ->
  (RetryTrace.calls w <= k)%nat ->
  Retry.retry RetryTrace.sleep (S n) d backoff exceptions (RetryTrace.flaky k e r) w
  = if (k - RetryTrace.calls w <=? n)%nat
    then (Ok (Some r),
          w ++ RetryTrace.failed_attempts (k - RetryTrace.calls w) d backoff ++ [RetryTrace.Call])
    else (Raise e, w ++ RetryTrace.failed_attempts n d backoff ++ [RetryTrace.Call]).
Proof.
  intros Hcaught. unfold Retry.retry.
  revert d w. induction n as [|n IH]; intros d w Hle.
  - cbn [Retry.retry_loop]. unfold RetryTrace.flaky at 1.
    destruct (Nat.ltb_spec (RetryTrace.calls w) k) as [Hlt|Hge].
    + rewrite Hcaught.
      destruct (Nat.leb_spec (k - RetryTrace.calls w) 0) as [H0|_]; [lia|].
      reflexivity.
    + replace (k - RetryTrace.calls w)%nat with 0%nat by lia. reflexivity.
  - rewrite retry_loop_more. unfold RetryTrace.flaky at 1.
    destruct (Nat.ltb_spec (RetryTrace.calls w) k) as [Hlt|Hge].
    + rewrite Hcaught.
      assert (Hc : RetryTrace.calls (RetryTrace.sleep d (w ++ [RetryTrace.Call]))
                   = S (RetryTrace.calls w)).
      { unfold RetryTrace.sleep. rewrite !calls_app. unfold RetryTrace.calls. simpl. lia. }
      rewrite IH by (rewrite Hc; lia). rewrite Hc.
      replace (k - RetryTrace.calls w)%nat with (S (k - S (RetryTrace.calls w))) by lia.
      cbn [Nat.leb RetryTrace.failed_attempts].
      unfold RetryTrace.sleep.
      destruct (k - S (RetryTrace.calls w) <=? n)%nat;
        now rewrite <- !app_assoc.
    + replace (k - RetryTrace.calls w)%nat with 0%nat by lia. reflexivity.
Qed.

Lemma is_call_failed_attempts (m : nat) (d backoff : Q) :
  map RetryTrace.is_call (RetryTrace.failed_attempts m d backoff)
  = concat (repeat [true; false] m).
Proof.
  revert d. induction m as [|m IH]; intros d; [reflexivity|].
  cbn [RetryTrace.failed_attempts map repeat concat RetryTrace.is_call].
  now rewrite IH.
Qed.

Lemma calls_failed_attempts (m : nat) (d backoff : Q) :
  RetryTrace.calls (RetryTrace.failed_attempts m d backoff) = m.
Proof.
  revert d. induction m as [|m IH]; intros d; [reflexivity|].
  unfold RetryTrace.calls in *. simpl. now rewrite IH.
Qed.

Lemma pauses_failed_attempts (m : nat) (d backoff : Q) :
  length (RetryTrace.pauses (RetryTrace.failed_attempts m d backoff)) = m
  /\ head (RetryTrace.pauses (RetryTrace.failed_attempts m d backoff))
     = match m with O => None | S _ => Some d end.
Proof.
  split; [|now destruct m].
  revert d. induction m as [|m IH]; intros d; [reflexivity|].
  change (RetryTrace.pauses (RetryTrace.failed_attempts (S m) d backoff))
    with (d :: RetryTrace.pauses
                 (RetryTrace.failed_attempts m (d * backoff)%Q backoff)).
  cbn [length]. now rewrite IH.
Qed.

(** X8: the retry wrapper around a function that fails on its first [k]
    calls with a listed exception.  With [k < max_attempts] the function is
    called [k + 1] times and its result is returned; otherwise it is called
    [max_attempts] times and the last exception is raised.  The wrapper
    pauses once between two calls and not after the last one, and the
    first pause lasts [delay]. *)
Theorem retry_calls_and_pauses {A} (n k : nat) (d backoff : Q)
  (exceptions : list exn_class) (e : exn) (r : A) :
  isinstance e exceptions = true ->
  let run := Retry.retry RetryTrace.sleep (S n) d backoff exceptions
               (RetryTrace.flaky k e r) [] in
  fst run = (if (k <=? n)%nat then Ok (Some r) else Raise e)
  /\ RetryTrace.calls (snd run) = S (Nat.min k n)
  /\ map RetryTrace.is_call (snd run)
     = concat (repeat [true; false] (Nat.min k n)) ++ [true]
  /\ length (RetryTrace.pauses (snd run)) = Nat.min k n
  /\ head (RetryTrace.pauses (snd run))
     = match Nat.min k n with O => None | S _ => Some d end.
Proof.
  intros Hcaught run.
  assert (Hrun : run
                 = (if (k <=? n)%nat then Ok (Some r) else Raise e,
                    RetryTrace.failed_attempts (Nat.min k n) d backoff
                    ++ [RetryTrace.Call])).
  { unfold run.
    rewrite (retry_flaky_run n k d backoff exceptions e r [] Hcaught)
      by (unfold RetryTrace.calls; simpl; lia).
    unfold RetryTrace.calls. cbn [List.filter length]. rewrite Nat.sub_0_r.
    destruct (Nat.leb_spec k n) as [Hle|Hgt].
    - now rewrite Nat.min_l by lia.
    - now rewrite Nat.min_r by lia. }
  rewrite Hrun. cbn [fst snd].
  destruct (pauses_failed_attempts (Nat.min k n) d backoff) as [Hlen Hhead].
  split; [reflexivity|]. split; [|split; [|split]].
  - rewrite calls_app, calls_failed_attempts. unfold RetryTrace.calls. simpl. lia.
  - now rewrite map_app, is_call_failed_attempts.
  - unfold RetryTrace.pauses in *. rewrite omap_app. simpl.
    now rewrite app_nil_r.
  - unfold RetryTrace.pauses in *. rewrite omap_app. simpl.
    now rewrite app_nil_r.
Qed.

Lemma retry_calls_and_pauses_witness :
  let run := Retry.retry RetryTrace.sleep 3 (1 # 10) 3 [StorageError]
               (RetryTrace.flaky 5 (mk_exn StorageError "down") tt) [] in
  fst run = Raise (mk_exn StorageError "down")
  /\ RetryTrace.calls (snd run) = 3%nat
  /\ map RetryTrace.is_call (snd run) = [true; false; true; false; true]
  /\ length (RetryTrace.pauses (snd run)) = 2%nat
  /\ head (RetryTrace.pauses (snd run)) = Some (1 # 10).
Proof.
  apply (retry_calls_and_pauses 2 5 (1 # 10) 3 [StorageError]
           (mk_exn StorageError "down") tt).
  reflexivity.
Defined.

(** X9: an exception that is not an instance of the listed classes
    leaves the wrapper at once, after one call and without a pause; and with
    [max_attempts = 0] the function is not called at all and the wrapper
    returns [None]. *)
Theorem retry_unlisted_exception_is_not_retried {W A} (sleep : Q -> W -> W)
  (n : nat) (d backoff : Q) (exceptions : list exn_class)
  (func : W -> result A * W) (w : W) :
  (forall e w', func w = (Raise e, w') -> isinstance e exceptions = false ->
     Retry.retry sleep (S n) d backoff exceptions func w = (Raise e, w'))
  /\ Retry.retry sleep 0 d backoff exceptions func w = (Ok None, w).
Proof.
  split; [|reflexivity].
  intros e w' Hf He. unfold Retry.retry. cbn [Retry.retry_loop].
  now rewrite Hf, He.
Qed.

Lemma retry_unlisted_exception_witness :
  Retry.retry RetryTrace.sleep 3 1 2 [StorageError]
    (RetryTrace.flaky 5 (mk_exn ValueError "bad") tt) []
  = (Raise (mk_exn ValueError "bad"), [RetryTrace.Call]).
Proof.
  apply (retry_unlisted_exception_is_not_retried RetryTrace.sleep 2 1 2
           [StorageError] (RetryTrace.flaky 5 (mk_exn ValueError "bad") tt) []);
    reflexivity.
Defined.

(** ** The query builder *)

Lemma to_nosql_filter_where (b : Query.QueryBuilder) (f : string)
  (op : Query.Operator) (v : operand) :
  QueryBuilder.to_nosql_filter (Query.where_ f op v b)
  = match QueryBuilder.nosql_entry (Query.mkFilter f op v) with
    | Some (k, v) => <[k := v]> (QueryBuilder.to_nosql_filter b)
    | None => QueryBuilder.to_nosql_filter b
    end.
Proof.
  unfold QueryBuilder.to_nosql_filter. cbn [Query.where_ Query.filters].
  now rewrite fold_left_app.
Qed.

(** X10: [to_nosql_filter] has no entry for a [!=], [not_in],
    [starts_with] or [ends_with] filter: adding one leaves the dict as it
    was, and a builder with such filters only translates to the empty dict.
    Of two [==] filters on one field the later replaces the earlier. *)
Theorem to_nosql_filter_drops_and_overrides (b : Query.QueryBuilder) :
  (forall f op v,
     In op [Query.NE; Query.NOT_IN; Query.STARTS_WITH; Query.ENDS_WITH] ->
     QueryBuilder.to_nosql_filter (Query.where_ f op v b)
     = QueryBuilder.to_nosql_filter b)
  /\ (Forall (fun f => In (Query.operator f)
                         [Query.NE; Query.NOT_IN; Query.STARTS_WITH; Query.ENDS_WITH])
        (Query.filters b) ->
      QueryBuilder.to_nosql_filter b = ∅)
  /\ (forall f v1 v2,
        QueryBuilder.to_nosql_filter
          (Query.where_ f Query.EQ v2 (Query.where_ f Query.EQ v1 b))
        = QueryBuilder.to_nosql_filter (Query.where_ f Query.EQ v2 b)).
Proof.
  split; [|split].
  - intros f op v Hop. rewrite to_nosql_filter_where. simpl in Hop.
    destruct Hop as [<-|[<-|[<-|[<-|[]]]]]; reflexivity.
  - unfold QueryBuilder.to_nosql_filter.
    generalize (∅ : Lookup) as acc.
    induction (Query.filters b) as [|f fs IH]; intros acc Hall; [reflexivity|].
    inversion Hall as [|? ? Hf Hfs]; subst. cbn [fold_left].
    assert (Hnone : QueryBuilder.nosql_entry f = None).
    { unfold QueryBuilder.nosql_entry. simpl in Hf.
      destruct Hf as [<-|[<-|[<-|[<-|[]]]]]; reflexivity. }
    rewrite Hnone. now apply IH.
  - intros f v1 v2. rewrite !to_nosql_filter_where.
    cbn [QueryBuilder.nosql_entry Query.operator Query.field Query.value].
    apply insert_insert_eq.
Qed.

Lemma to_nosql_filter_witness :
  QueryBuilder.to_nosql_filter
    (Query.where_ "name" Query.NE (OVal (VStr "ann"))
       (Query.where_ "age" Query.EQ (OVal (VInt 30)) Query.new))
  = QueryBuilder.to_nosql_filter
      (Query.where_ "age" Query.EQ (OVal (VInt 30)) Query.new).
Proof.
  apply (to_nosql_filter_drops_and_overrides
           (Query.where_ "age" Query.EQ (OVal (VInt 30)) Query.new)).
  simpl. tauto.
Defined.

Lemma filter_clause_shape (f f' : Query.QueryFilter) :
  Query.field f = Query.field f' ->
  Query.operator f = Query.operator f' ->
  (Query.operator f = Query.IN \/ Query.operator f = Query.NOT_IN ->
   QueryBuilder.in_arity (Query.value f) = QueryBuilder.in_arity (Query.value f')) ->
  match Query.filter_clause f, Query.filter_clause f' with
  | Ok (text, params), Ok (text', params') =>
      text = text' /\ length params = length params'
  | Raise _, Raise _ => True
  | _, _ => False
  end.
Proof.
  intros Hfield Hop Harity. unfold Query.filter_clause.
  rewrite <- Hop, <- Hfield.
  destruct (Query.operator f) eqn:Ho; try (split; reflexivity).
  - specialize (Harity (or_introl eq_refl)). unfold QueryBuilder.in_arity in Harity.
    destruct (Query.in_params (Query.value f)) as [ps|e],
             (Query.in_params (Query.value f')) as [ps'|e']; try discriminate; [|exact I].
    injection Harity as Hlen. cbn [Py.bind]. rewrite !length_map, Hlen. now split.
  - specialize (Harity (or_intror eq_refl)). unfold QueryBuilder.in_arity in Harity.
    destruct (Query.in_params (Query.value f)) as [ps|e],
             (Query.in_params (Query.value f')) as [ps'|e']; try discriminate; [|exact I].
    injection Harity as Hlen. cbn [Py.bind]. rewrite !length_map, Hlen. now split.
Qed.

(** X11: the text of the WHERE clause that [to_sql_where] builds is
    fixed by the fields and operators of the filters and, for [in] and
    [not_in], by the number of values: two builders that differ in their
    filter values only give the same text and as many parameters (or both
    raise).  No filter value is ever part of the text. *)
Theorem to_sql_where_text_is_independent_of_values (b b' : Query.QueryBuilder) :
  Forall2 (fun f f' =>
             Query.field f = Query.field f'
             /\ Query.operator f = Query.operator f'
             /\ (Query.operator f = Query.IN \/ Query.operator f = Query.NOT_IN ->
                 QueryBuilder.in_arity (Query.value f)
                 = QueryBuilder.in_arity (Query.value f')))
    (Query.filters b) (Query.filters b') ->
  match Query.to_sql_where b, Query.to_sql_where b' with
  | Ok (text, params), Ok (text', params') =>
      text = text' /\ length params = length params'
  | Raise _, Raise _ => True
  | _, _ => False
  end.
Proof.
  intros Hrel. unfold Query.to_sql_where.
  assert (Hm : match mapM Query.filter_clause (Query.filters b),
                     mapM Query.filter_clause (Query.filters b') with
               | Ok cps, Ok cps' =>
                   map fst cps = map fst cps'
                   /\ length (concat (map snd cps)) = length (concat (map snd cps'))
               | Raise _, Raise _ => True
               | _, _ => False
               end).
  { induction Hrel as [|f f' fs fs' (Hfield & Hop & Harity) _ IH]; [now split|].
    cbn [mapM].
    pose proof (filter_clause_shape f f' Hfield Hop Harity) as Hc.
    destruct (Query.filter_clause f) as [[t p]|e],
             (Query.filter_clause f') as [[t' p']|e']; try contradiction; [|exact I].
    destruct Hc as [-> Hlen].
    destruct (mapM Query.filter_clause fs) as [cps|e],
             (mapM Query.filter_clause fs') as [cps'|e']; try contradiction; [|exact I].
    destruct IH as [Hfst Hsnd]. cbn [map fst snd concat].
    rewrite Hfst, !length_app, Hlen, Hsnd. now split. }
  destruct (mapM Query.filter_clause (Query.filters b)) as [cps|e],
           (mapM Query.filter_clause (Query.filters b')) as [cps'|e'];
    try contradiction; [|exact I].
  destruct Hm as [Hfst Hsnd]. cbn [Py.bind]. now rewrite Hfst.
Qed.

Lemma to_sql_where_text_witness :
  match Query.to_sql_where
          (Query.where_ "name" Query.EQ (OVal (VStr "ann")) Query.new),
        Query.to_sql_where
          (Query.where_ "name" Query.EQ (OVal (VStr "x' OR '1'='1")) Query.new)
  with
  | Ok (text, params), Ok (text', params') =>
      text = text' /\ length params = length params'
  | Raise _, Raise _ => True
  | _, _ => False
  end.
Proof.
  apply (to_sql_where_text_is_independent_of_values
           (Query.where_ "name" Query.EQ (OVal (VStr "ann")) Query.new)
           (Query.where_ "name" Query.EQ (OVal (VStr "x' OR '1'='1")) Query.new)).
  repeat constructor. intros [H|H]; discriminate H.
Defined.

(** ** Column validation *)

Lemma validate_column_name_cases (k : string) :
  Utils.validate_column_name k = Ok k
  \/ exists msg, Utils.validate_column_name k = Raise (mk_exn ValidationError msg).
Proof.
  unfold Utils.validate_column_name.
  destruct (Utils.re_match_class_plus Utils.column_char k);
    [now left | right; eexists; reflexivity].
Qed.

Lemma mapM_validate_columns (l : list string) :
  (Forall (fun k => Utils.validate_column_name k = Ok k) l
   /\ mapM Utils.validate_column_name l = Ok l)
  \/ (Exists (fun k => Utils.validate_column_name k <> Ok k) l
      /\ exists msg, mapM Utils.validate_column_name l
                     = Raise (mk_exn ValidationError msg)).
Proof.
  induction l as [|k l IH]; [left; split; [constructor|reflexivity]|].
  cbn [mapM].
  destruct (validate_column_name_cases k) as [Hok|[msg Hbad]].
  - rewrite Hok.
    destruct IH as [[Hall ->]|[Hex (msg & ->)]].
    + left. split; [now constructor|reflexivity].
    + right. split; [now apply Exists_cons_tl|]. now exists msg.
  - rewrite Hbad. right. split; [|now exists msg].
    apply Exists_cons_hd. rewrite Hbad. discriminate.
Qed.

(** X12: [validate_columns] returns the dict it was given exactly when
    every key passes [validate_column_name] (an empty dict always does);
    otherwise it raises a [ValidationError]. *)
Theorem validate_columns_accepts_iff_every_key_is_valid {V} (data : gmap string V) :
  (Utils.validate_columns data = Ok data
   <-> forall k, k ∈ dom data -> Utils.validate_column_name k = Ok k)
  /\ (Utils.validate_columns data = Ok data
      \/ exists msg, Utils.validate_columns data
                     = Raise (mk_exn ValidationError msg))
  /\ Utils.validate_columns (∅ : gmap string V) = Ok ∅.
Proof.
  assert (Hkeys : forall k, In k (map fst (map_to_list data)) <-> k ∈ dom data).
  { intros k. rewrite in_map_iff, elem_of_dom. split.
    - intros ([k' v] & <- & Hin). exists v.
      now apply elem_of_map_to_list, list_elem_of_In.
    - intros [v Hv]. exists (k, v). split; [reflexivity|].
      now apply list_elem_of_In, elem_of_map_to_list. }
  unfold Utils.validate_columns.
  destruct (mapM_validate_columns (map fst (map_to_list data)))
    as [[Hall Hm]|[Hex (msg & Hm)]]; rewrite Hm; cbn [Py.bind].
  - split; [|split].
    + split; [|reflexivity]. intros _ k Hk.
      rewrite List.Forall_forall in Hall. now apply Hall, Hkeys.
    + now left.
    + unfold Utils.validate_columns. now rewrite map_to_list_empty.
  - split; [|split].
    + split; [discriminate|]. intros Hall. exfalso.
      apply List.Exists_exists in Hex as (k & Hin & Hbad).
      apply Hbad, Hall, Hkeys, Hin.
    + right. now exists msg.
    + unfold Utils.validate_columns. now rewrite map_to_list_empty.
Qed.

Lemma validate_columns_witness :
  Utils.validate_columns (Examples.person "ann" 30) = Ok (Examples.person "ann" 30).
Proof.
  apply (validate_columns_accepts_iff_every_key_is_valid (Examples.person "ann" 30)).
  intros k Hk. unfold Examples.person in Hk.
  rewrite !dom_insert_L, dom_empty_L in Hk.
  assert (Hcases : k = "name" \/ k = "age") by set_solver.
  destruct Hcases as [->| ->]; reflexivity.
Defined.

(** ** The statements of the PostgreSQL adapter *)

Lemma mapM_Forall2 {A B} (f : A -> result B) (l : list A) (ys : list B) :
  mapM f l = Ok ys <-> Forall2 (fun x y => f x = Ok y) l ys.
Proof.
  revert ys. induction l as [|a l IH]; intros ys; simpl.
  - split; [intros [= <-]; constructor | intros H; now inversion H].
  - split.
    + destruct (f a) as [b|] eqn:Hfa; [|discriminate].
      destruct (mapM f l) as [bs|] eqn:Hl; [|discriminate].
      intros [= <-]. constructor; [exact Hfa|]. now apply IH.
    + intros H. inversion H as [|? y ? ys' Hfa Hrest]; subst.
      rewrite Hfa. apply IH in Hrest. now rewrite Hrest.
Qed.

Lemma percent_count_app (s t : string) :
  PostgreSQLAdapter.percent_count (s ++ t)%string
  = (PostgreSQLAdapter.percent_count s + PostgreSQLAdapter.percent_count t)%nat.
Proof.
  induction s as [|c s IH]; [reflexivity|].
  change (String c s ++ t)%string with (String c (s ++ t)%string).
  cbn [PostgreSQLAdapter.percent_count]. rewrite IH. lia.
Qed.

Lemma percent_count_concat (sep : string) (l : list string) :
  PostgreSQLAdapter.percent_count sep = 0%nat ->
  PostgreSQLAdapter.percent_count (String.concat sep l)
  = list_sum (map PostgreSQLAdapter.percent_count l).
Proof.
  intros Hsep. induction l as [|x l IH]; [reflexivity|].
  destruct l as [|y l].
  - simpl. lia.
  - change (String.concat sep (x :: y :: l))
      with (x ++ sep ++ String.concat sep (y :: l))%string.
    rewrite !percent_count_app, Hsep, IH. simpl. lia.
Qed.

Lemma percent_count_all_chars (cls : ascii -> bool) (s : string) :
  cls "%"%char = false -> Spec.all_chars cls s = true ->
  PostgreSQLAdapter.percent_count s = 0%nat.
Proof.
  intros Hcls. induction s as [|c s IH]; [reflexivity|].
  simpl. intros Hall. apply andb_true_iff in Hall as [Hc Hs].
  rewrite (IH Hs). destruct (Ascii.eqb_spec c "%"%char) as [->|_]; [congruence|].
  reflexivity.
Qed.

Lemma percent_count_matched (cls : ascii -> bool) (s : string) :
  cls "010"%char = false -> cls "%"%char = false ->
  Utils.re_match_class_plus cls s = true ->
  PostgreSQLAdapter.percent_count s = 0%nat.
Proof.
  intros Hnl Hpc Hm.
  apply (re_match_class_plus_spec cls Hnl) in Hm as [Hid|(p & -> & Hid)];
    unfold Spec.identifier in Hid; apply andb_true_iff in Hid as [_ Hall].
  - now apply (percent_count_all_chars cls).
  - rewrite percent_count_app, (percent_count_all_chars cls p Hpc Hall). reflexivity.
Qed.

Lemma percent_count_column (k t : string) :
  Utils.validate_column_name k = Ok t -> PostgreSQLAdapter.percent_count k = 0%nat.
Proof.
  unfold Utils.validate_column_name.
  destruct (Utils.re_match_class_plus Utils.column_char k) eqn:Hm; [|discriminate].
  intros _. now apply (percent_count_matched Utils.column_char).
Qed.

Lemma percent_count_table (k t : string) :
  Utils.validate_table_name k = Ok t -> PostgreSQLAdapter.percent_count k = 0%nat.
Proof.
  unfold Utils.validate_table_name.
  destruct (Utils.re_match_class_plus Utils.table_char k) eqn:Hm; [|discriminate].
  intros _. now apply (percent_count_matched Utils.table_char).
Qed.

Lemma percent_count_placeholders (sep : string) (n : nat) :
  PostgreSQLAdapter.percent_count sep = 0%nat ->
  PostgreSQLAdapter.percent_count (String.concat sep (repeat "%s"%string n)) = n.
Proof.
  intros Hsep. rewrite (percent_count_concat _ _ Hsep).
  induction n as [|n IH]; [reflexivity|]. simpl in *. now rewrite IH.
Qed.

Lemma where_parts_count (l : list (string * operand))
  (parts : list (string * list operand)) :
  mapM Postgres.where_part l = Ok parts ->
  list_sum (map PostgreSQLAdapter.percent_count (map fst parts))
  = length (concat (map snd parts)).
Proof.
  intros Hm. apply mapM_Forall2 in Hm.
  induction Hm as [|[k v] [t ps] l parts Hpart _ IH]; [reflexivity|].
  cbn [map fst snd list_sum fold_right concat]. rewrite length_app.
  change (fold_right Nat.add 0%nat (map PostgreSQLAdapter.percent_count (map fst parts)))
    with (list_sum (map PostgreSQLAdapter.percent_count (map fst parts))).
  rewrite IH. f_equal.
  unfold Postgres.where_part in Hpart.
  apply bind_ok in Hpart as (k' & Hk & Hpart).
  apply percent_count_column in Hk.
  destruct v as [w|ws]; injection Hpart as <- <-.
  - rewrite percent_count_app, Hk. reflexivity.
  - rewrite !percent_count_app, Hk. unfold Query.placeholders.
    rewrite percent_count_placeholders by reflexivity.
    rewrite length_map. simpl. lia.
Qed.

(** X13: in every statement [select] sends, the [%] characters are
    exactly the [%s] placeholders, one per parameter: their number equals
    the number of parameters. *)
Theorem select_statement_has_one_placeholder_per_parameter
  (table : string) (query : option Lookup) (limit offset : option Z)
  (sql : string) (params : list operand) :
  Postgres.select_statement table query limit offset = Ok (sql, params) ->
  PostgreSQLAdapter.percent_count sql = length params.
Proof.
  unfold Postgres.select_statement. intros Hs.
  apply bind_ok in Hs as (t & Ht & Hsql).
  pose proof (percent_count_table _ _ Ht) as Htable.
  apply validate_table_name_ok in Ht as [-> _].
  unfold Postgres.select_sql in Hsql.
  apply bind_ok in Hsql as (parts & Hparts & Hsql).
  pose proof (where_parts_count _ _ Hparts) as Hcount.
  assert (Hwhere :
    PostgreSQLAdapter.percent_count
      match parts with
      | [] => ("SELECT * FROM " ++ table)%string
      | _ :: _ => (("SELECT * FROM " ++ table) ++ " WHERE "
                   ++ String.concat " AND " (map fst parts))%string
      end = length (concat (map snd parts))).
  { destruct parts as [|p parts'].
    - rewrite percent_count_app, Htable. reflexivity.
    - rewrite !percent_count_app, Htable, percent_count_concat by reflexivity.
      rewrite Hcount. reflexivity. }
  cbv zeta in Hsql. revert Hsql Hwhere.
  generalize (match parts with
              | [] => ("SELECT * FROM " ++ table)%string
              | _ :: _ => (("SELECT * FROM " ++ table) ++ " WHERE "
                           ++ String.concat " AND " (map fst parts))%string
              end) as sql0.
  generalize (concat (map snd parts)) as params0.
  intros params0 sql0 Hsql Hwhere.
  destruct (Postgres.given limit) as [l|], (Postgres.given offset) as [o|];
    injection Hsql as Hsql Hparams; subst sql params;
    rewrite ?percent_count_app, ?length_app, Hwhere; simpl; lia.
Qed.

Lemma select_statement_placeholders_witness :
  PostgreSQLAdapter.percent_count
    "SELECT * FROM people WHERE id IN (%s,%s) LIMIT %s"
  = length [OVal (VInt 1); OVal (VInt 2); OVal (VInt 10)].
Proof.
  apply (select_statement_has_one_placeholder_per_parameter "people"
           (Some {["id" := OList [VInt 1; VInt 2]]}) (Some 10) None).
  vm_compute. reflexivity.
Defined.

Lemma columns_dom (data : JsonDict) (k : string) :
  In k (PostgreSQLAdapter.columns data) <-> k ∈ dom data.
Proof.
  unfold PostgreSQLAdapter.columns. rewrite in_map_iff, elem_of_dom. split.
  - intros ([k' v] & <- & Hin). exists v.
    now apply elem_of_map_to_list, list_elem_of_In.
  - intros [v Hv]. exists (k, v). split; [reflexivity|].
    now apply list_elem_of_In, elem_of_map_to_list.
Qed.

(** X14: a statement that [insert] sends was built for a table name and
    for column names that passed validation.  It lists the keys of the
    record, each once, and has one [%s] for each; the parameters are the
    values of the record in the order of the column list; and its [%]
    characters are the placeholders, one per parameter.  The text is made
    of the table name and the column names only. *)
Theorem insert_statement_is_parameterised
  (table : string) (data : JsonDict) (sql : string) (params : list operand) :
  PostgreSQLAdapter.insert_statement table data = Ok (sql, params) ->
  Utils.validate_table_name table = Ok table
  /\ (forall k, k ∈ dom data -> Utils.validate_column_name k = Ok k)
  /\ PostgreSQLAdapter.percent_count sql = length params
  /\ exists cols : list string,
       NoDup cols
       /\ (forall k, In k cols <-> k ∈ dom data)
       /\ sql = ("INSERT INTO " ++ table ++ " (" ++ String.concat ", " cols
                 ++ ") VALUES (" ++ String.concat ", " (repeat "%s" (length cols))
                 ++ ") RETURNING *")%string
       /\ params = map (fun k => OVal (get data k)) cols.
Proof.
  unfold PostgreSQLAdapter.insert_statement. intros Hs.
  apply bind_ok in Hs as (t & Ht & Hs).
  pose proof (percent_count_table _ _ Ht) as Htable.
  apply validate_table_name_ok in Ht as [-> Ht].
  apply bind_ok in Hs as (ys & Hcols & Hs).
  injection Hs as <- <-.
  split; [exact Ht|]. split; [|split].
  - intros k Hk. apply (validated_all _ _ Hcols), columns_dom, Hk.
  - unfold PostgreSQLAdapter.values. rewrite length_map.
    rewrite !percent_count_app, Htable.
    rewrite percent_count_placeholders by reflexivity.
    rewrite percent_count_concat by reflexivity.
    assert (Hzero : list_sum (map PostgreSQLAdapter.percent_count
                                (PostgreSQLAdapter.columns data)) = 0%nat).
    { assert (Hall : forall k, In k (PostgreSQLAdapter.columns data) ->
                               PostgreSQLAdapter.percent_count k = 0%nat).
      { intros k Hk. apply (percent_count_column k k), (validated_all _ _ Hcols), Hk. }
      revert Hall. generalize (PostgreSQLAdapter.columns data) as cs.
      induction cs as [|c cs IH]; intros Hall; [reflexivity|].
      simpl. rewrite (Hall c (or_introl eq_refl)).
      apply IH. intros k Hk. apply Hall. now right. }
    rewrite Hzero. simpl. lia.
  - exists (PostgreSQLAdapter.columns data).
    split; [|split; [|split]].
    + exact (NoDup_fst_map_to_list data).
    + intros k. apply columns_dom.
    + unfold PostgreSQLAdapter.columns. now rewrite length_map.
    + unfold PostgreSQLAdapter.values, PostgreSQLAdapter.columns.
      rewrite map_map. apply map_ext_in. intros [k v] Hin. cbn [fst snd].
      apply list_elem_of_In, elem_of_map_to_list in Hin.
      unfold get. now rewrite Hin.
Qed.

Lemma insert_statement_witness :
  Utils.validate_table_name "people" = Ok "people"
  /\ (forall k, k ∈ dom (Examples.person "ann" 30) ->
        Utils.validate_column_name k = Ok k)
  /\ PostgreSQLAdapter.percent_count
       "INSERT INTO people (age, name) VALUES (%s, %s) RETURNING *"
     = length [OVal (VInt 30); OVal (VStr "ann")]
  /\ exists cols : list string,
       NoDup cols
       /\ (forall k, In k cols <-> k ∈ dom (Examples.person "ann" 30))
       /\ "INSERT INTO people (age, name) VALUES (%s, %s) RETURNING *"%string
          = ("INSERT INTO " ++ "people" ++ " (" ++ String.concat ", " cols
             ++ ") VALUES (" ++ String.concat ", " (repeat "%s" (length cols))
             ++ ") RETURNING *")%string
       /\ [OVal (VInt 30); OVal (VStr "ann")]
          = map (fun k => OVal (get (Examples.person "ann" 30) k)) cols.
Proof.
  apply (insert_statement_is_parameterised "people" (Examples.person "ann" 30)).
  vm_compute. reflexivity.
Defined.


Section ErrorClasses.

Context {driver : Postgres.Driver}.


(** X16: when the statement of [update] or [delete] matches no row
    ([fetchone] gives nothing), the method raises [DatabaseError] with the
    message of the inner check behind the prefix of the handler. *)
Theorem update_and_delete_of_no_row_raise
  (table : string) (entity_id : Factory.EntityId) (data : JsonDict) :
  Utils.validate_table_name table = Ok table ->
  (forall sql params cursor,
     (forall k, k ∈ dom data -> Utils.validate_column_name k = Ok k) ->
     PostgreSQLAdapter.update_sql table entity_id data = Ok (sql, params) ->
     Postgres.execute sql params = Ok cursor ->
     Postgres.fetchall cursor = [] ->
     PostgreSQLAdapter.update table entity_id data
     = raise DatabaseError "Update failed: No rows updated")
  /\ (forall sql params cursor,
        PostgreSQLAdapter.delete_sql table entity_id = Ok (sql, params) ->
        Postgres.execute sql params = Ok cursor ->
        Postgres.fetchall cursor = [] ->
        PostgreSQLAdapter.delete table entity_id
        = raise DatabaseError "Delete failed: No rows deleted").
Proof.
  intros Ht. split.
  - intros sql params cursor Hcols Hsql Hexec Hnone.
    unfold PostgreSQLAdapter.update. rewrite retried_pure, Ht. cbn [Py.bind].
    destruct (mapM_validate_columns (PostgreSQLAdapter.columns data))
      as [[_ ->]|[Hex _]].
    + cbn [Py.bind]. rewrite Hsql. cbn [Py.bind]. rewrite Hexec. cbn [Py.bind].
      unfold PostgreSQLAdapter.fetchone. rewrite Hnone. reflexivity.
    + exfalso. apply List.Exists_exists in Hex as (k & Hin & Hbad).
      apply Hbad, Hcols, columns_dom, Hin.
  - intros sql params cursor Hsql Hexec Hnone.
    unfold PostgreSQLAdapter.delete. rewrite retried_pure, Ht. cbn [Py.bind].
    rewrite Hsql. cbn [Py.bind]. rewrite Hexec. cbn [Py.bind].
    unfold PostgreSQLAdapter.fetchone. rewrite Hnone. reflexivity.
Qed.

End ErrorClasses.


Lemma update_and_delete_of_no_row_witness :
  PostgreSQLAdapter.delete (driver := Samples.empty_table_driver) "people"
    (Factory.EId (VInt 7))
  = raise DatabaseError "Delete failed: No rows deleted".
Proof.
  apply (proj2 (update_and_delete_of_no_row_raise
                  (driver := Samples.empty_table_driver)
                  "people" (Factory.EId (VInt 7)) ∅ eq_refl)
           "DELETE FROM people WHERE id = %s RETURNING *" [OVal (VInt 7)]
           (Postgres.mkCursor ["id"] [])); reflexivity.
Defined.

(** ** Field encryption *)

Section DecryptFields.

Context {crypto : Security.Crypto}.

Lemma decrypt_value_total (self : Security.FieldEncryption) (v : value) :
  Security.cryptography_installed = true ->
  exists v', Security._decrypt_value self v = Ok v'.
Proof.
  intros Hinst. unfold Security._decrypt_value. destruct v; eauto.
  destruct (startswith s "encrypted:"); cbn [negb]; eauto.
  rewrite Hinst. cbn [negb].
  destruct (Security.decrypt_payload self (str_from 10 s)); eauto.
  destruct (Security.json_loads_value a); eauto.
Qed.

Lemma decrypt_value_unmarked (self : Security.FieldEncryption) (v : value) :
  (forall s, v = VStr s -> startswith s "encrypted:" = false) ->
  Security._decrypt_value self v = Ok v.
Proof.
  intros Hplain. unfold Security._decrypt_value. destruct v; try reflexivity.
  now rewrite (Hplain s eq_refl).
Qed.

(** X17: with [cryptography] installed [decrypt_fields] never raises.
    The dict it returns has the keys of the one it was given; a field that
    is not listed keeps its value, and so does every value that does not
    carry the [encrypted:] marker ([None] included), listed or not. *)
Theorem decrypt_fields_changes_marked_listed_values_only
  (self : Security.FieldEncryption) (data : JsonDict) (fields : list string) :
  Security.cryptography_installed = true ->
  exists r,
    Security.decrypt_fields self data fields = Ok r
    /\ dom r = dom data
    /\ (forall k, ~ In k fields -> r !! k = data !! k)
    /\ (forall k v, data !! k = Some v ->
          (forall s, v = VStr s -> startswith s "encrypted:" = false) ->
          r !! k = Some v).
Proof.
  intros Hinst. revert data.
  induction fields as [|field rest IH]; intros data.
  - exists data. repeat split; auto.
  - cbn [Security.decrypt_fields].
    assert (Hskip : forall r,
              Security.decrypt_fields self data rest = Ok r ->
              dom r = dom data ->
              (forall k, ~ In k rest -> r !! k = data !! k) ->
              (forall k v, data !! k = Some v ->
                 (forall s, v = VStr s -> startswith s "encrypted:" = false) ->
                 r !! k = Some v) ->
              exists r0,
                Security.decrypt_fields self data rest = Ok r0
                /\ dom r0 = dom data
                /\ (forall k, ~ In k (field :: rest) -> r0 !! k = data !! k)
                /\ (forall k v, data !! k = Some v ->
                      (forall s, v = VStr s -> startswith s "encrypted:" = false) ->
                      r0 !! k = Some v)).
    { intros r Hr Hdom Hout Hplain. exists r.
      split; [exact Hr|]. split; [exact Hdom|]. split; [|exact Hplain].
      intros k Hk. apply Hout. intros Hin. apply Hk. now right. }
    destruct (data !! field) as [v|] eqn:Hfield.
    + assert (Hstep : exists r0,
                Py.bind (Security._decrypt_value self v) (fun v' =>
                  Security.decrypt_fields self (<[field := v']> data) rest) = Ok r0
                /\ dom r0 = dom data
                /\ (forall k, ~ In k (field :: rest) -> r0 !! k = data !! k)
                /\ (forall k v0, data !! k = Some v0 ->
                      (forall s, v0 = VStr s -> startswith s "encrypted:" = false) ->
                      r0 !! k = Some v0)).
      { destruct (decrypt_value_total self v Hinst) as [v' Hv'].
        rewrite Hv'. cbn [Py.bind].
        destruct (IH (<[field := v']> data)) as (r & Hr & Hdom & Hout & Hplain).
        exists r. split; [exact Hr|]. split; [|split].
        - rewrite Hdom, dom_insert_L.
          assert (field ∈ dom data) by (apply elem_of_dom; eauto). set_solver.
        - intros k Hk. rewrite Hout by (intros Hin; apply Hk; now right).
          apply lookup_insert_ne. intros <-. apply Hk. now left.
        - intros k v0 Hk Hv0. apply Hplain; [|exact Hv0].
          destruct (decide (k = field)) as [->|Hne].
          + rewrite lookup_insert_eq. rewrite Hfield in Hk. injection Hk as ->.
            rewrite (decrypt_value_unmarked self v0 Hv0) in Hv'. congruence.
          + now rewrite lookup_insert_ne by congruence. }
      destruct v; try exact Hstep.
      destruct (IH data) as (r & Hr & Hdom & Hout & Hplain). eauto.
    + destruct (IH data) as (r & Hr & Hdom & Hout & Hplain). eauto.
Qed.

End DecryptFields.

Lemma decrypt_fields_witness :
  exists r,
    Security.decrypt_fields (crypto := Examples.rotated_key_crypto)
      Examples.some_key (Examples.person "ann" 30) ["name"] = Ok r
    /\ dom r = dom (Examples.person "ann" 30)
    /\ (forall k, ~ In k ["name"] -> r !! k = Examples.person "ann" 30 !! k)
    /\ (forall k v, Examples.person "ann" 30 !! k = Some v ->
          (forall s, v = VStr s -> startswith s "encrypted:" = false) ->
          r !! k = Some v).
Proof.
  apply (decrypt_fields_changes_marked_listed_values_only
           (crypto := Examples.rotated_key_crypto) Examples.some_key
           (Examples.person "ann" 30) ["name"]).
  reflexivity.
Defined.

Section RoundTrip.

Context {crypto : Security.Crypto} {enc : FieldEncryption.Encryptor}.

(** X18: encrypting a value and decrypting the result, for a cipher,
    a base64 codec and a UTF-8 codec that invert each other and a nonce of
    twelve bytes.  A value other than a string comes back as
    [json.loads(json.dumps(value))]; a string comes back as itself unless
    it reads as a JSON document, in which case what comes back is the
    parsed document; [None] is encrypted to the empty string, which
    decrypts to the empty string. *)
Theorem encrypt_then_decrypt
  (self : Security.FieldEncryption) (nonce : list Byte.byte) (v : value)
  (c : string) :
  Security.cryptography_installed = true ->
  length nonce = 12%nat ->
  (forall b, Security.b64decode (FieldEncryption.b64encode b) = Ok b) ->
  (forall key n pt ct, FieldEncryption.aesgcm_encrypt key n pt = Ok ct ->
                       Security.aesgcm_decrypt key n ct = Ok pt) ->
  (forall s, Security.utf8_decode (FieldEncryption.utf8_encode s) = Ok s) ->
  FieldEncryption._encrypt_value self nonce v = Ok c ->
  Security._decrypt_value self (VStr c)
  = Ok match v with
       | VNone => VStr ""
       | VStr s => default (VStr s) (Security.json_loads_value s)
       | _ => default (VStr (FieldEncryption.json_dumps_value v))
                (Security.json_loads_value (FieldEncryption.json_dumps_value v))
       end.
Proof.
  intros Hinst Hnonce Hb64 Haes Hutf8 Henc.
  assert (Hgen : forall data,
            Py.bind (FieldEncryption.aesgcm_encrypt (Security.encryption_key self)
                       nonce (FieldEncryption.utf8_encode data)) (fun ciphertext =>
              Ok ("encrypted:" ++ FieldEncryption.b64encode (nonce ++ ciphertext))%string)
            = Ok c ->
            Security._decrypt_value self (VStr c)
            = Ok (default (VStr data) (Security.json_loads_value data))).
  { intros data Hbind. apply bind_ok in Hbind as (ct & Hct & Hc).
    injection Hc as <-. unfold Security._decrypt_value.
    rewrite startswith_prefix, Hinst. cbn [negb].
    change 10%nat with (String.length "encrypted:").
    rewrite str_from_prefix. unfold Security.decrypt_payload.
    rewrite Hb64. cbn [Py.bind].
    rewrite take_app_length' by exact (eq_sym Hnonce).
    rewrite drop_app_length' by exact (eq_sym Hnonce).
    rewrite (Haes _ _ _ _ Hct). cbn [Py.bind]. rewrite Hutf8.
    now destruct (Security.json_loads_value data). }
  unfold FieldEncryption._encrypt_value in Henc. rewrite Hinst in Henc.
  cbn [negb] in Henc.
  destruct v as [|b|z|s].
  - injection Henc as <-. reflexivity.
  - now apply Hgen.
  - now apply Hgen.
  - now apply Hgen.
Qed.

End RoundTrip.

Lemma encrypt_then_decrypt_witness :
  Security._decrypt_value (crypto := Samples.plain_crypto) Examples.some_key
    (VStr "encrypted:abcdefghijklann")
  = Ok (default (VStr "ann") (Security.json_loads_value
                                (Crypto := Samples.plain_crypto) "ann")).
Proof.
  apply (encrypt_then_decrypt (crypto := Samples.plain_crypto)
           (enc := Samples.plain_encryptor) Examples.some_key
           Samples.twelve_bytes (VStr "ann") "encrypted:abcdefghijklann").
  - reflexivity.
  - reflexivity.
  - intros b. simpl. unfold NoSQLKV.encode, NoSQLKV.decode.
    now rewrite list_byte_of_string_of_list_byte.
  - intros key n pt ct [= <-]. reflexivity.
  - intros s. simpl. unfold NoSQLKV.encode, NoSQLKV.decode.
    now rewrite string_of_list_byte_of_string.
  - vm_compute. reflexivity.
Defined.

Section EncryptFields.

Context {crypto : Security.Crypto} {enc : FieldEncryption.Encryptor}.

Lemma encrypt_value_marked (self : Security.FieldEncryption)
  (nonce : list Byte.byte) (v : value) (c : string) :
  v <> VNone -> FieldEncryption._encrypt_value self nonce v = Ok c ->
  exists payload, c = ("encrypted:" ++ payload)%string.
Proof.
  intros Hv. unfold FieldEncryption._encrypt_value.
  destruct v; try contradiction;
    (destruct (negb Security.cryptography_installed); [discriminate|];
     destruct (FieldEncryption.aesgcm_encrypt _ _ _); [|discriminate];
     intros [= <-]; eauto).
Qed.

(** X19: when [encrypt_fields] returns, the dict has the keys it had;
    every listed field that held a value other than [None] now holds a
    string that starts with the [encrypted:] marker; fields that are not
    listed, and fields that hold [None], are as they were. *)
Theorem encrypt_fields_marks_every_listed_value
  (self : Security.FieldEncryption) (urandom : nat -> list Byte.byte)
  (drawn : nat) (data r : JsonDict) (fields : list string) :
  FieldEncryption.encrypt_fields self urandom drawn data fields = Ok r ->
  dom r = dom data
  /\ (forall k, ~ In k fields -> r !! k = data !! k)
  /\ (forall k, data !! k = Some VNone -> r !! k = Some VNone)
  /\ (forall k v, In k fields -> data !! k = Some v -> v <> VNone ->
        exists payload, r !! k = Some (VStr ("encrypted:" ++ payload))).
Proof.
  revert drawn data r. induction fields as [|field rest IH]; intros drawn data r.
  - intros [= <-]. repeat split; auto. intros k v [].
  - cbn [FieldEncryption.encrypt_fields].
    assert (Hskip : (data !! field = None \/ data !! field = Some VNone) ->
              FieldEncryption.encrypt_fields self urandom drawn data rest = Ok r ->
              dom r = dom data
              /\ (forall k, ~ In k (field :: rest) -> r !! k = data !! k)
              /\ (forall k, data !! k = Some VNone -> r !! k = Some VNone)
              /\ (forall k v, In k (field :: rest) -> data !! k = Some v ->
                    v <> VNone ->
                    exists payload, r !! k = Some (VStr ("encrypted:" ++ payload)))).
    { intros Hfield Hr. destruct (IH _ _ _ Hr) as (Hdom & Hout & Hnone & Hin).
      split; [exact Hdom|]. split; [|split; [exact Hnone|]].
      - intros k Hk. apply Hout. intros Hn. apply Hk. now right.
      - intros k v [<-|Hk] Hv Hne; [|now apply (Hin k v)].
        destruct Hfield as [Hf|Hf]; rewrite Hf in Hv; congruence. }
    destruct (data !! field) as [v|] eqn:Hfield; [|now apply Hskip; left].
    assert (Hstep : v <> VNone ->
      Py.bind (FieldEncryption._encrypt_value self (urandom drawn) v) (fun c =>
        FieldEncryption.encrypt_fields self urandom (S drawn)
          (<[field := VStr c]> data) rest) = Ok r ->
      dom r = dom data
      /\ (forall k, ~ In k (field :: rest) -> r !! k = data !! k)
      /\ (forall k, data !! k = Some VNone -> r !! k = Some VNone)
      /\ (forall k v, In k (field :: rest) -> data !! k = Some v -> v <> VNone ->
            exists payload, r !! k = Some (VStr ("encrypted:" ++ payload)))).
    { intros Hv Hb. apply bind_ok in Hb as (c & Hc & Hr).
      destruct (encrypt_value_marked _ _ _ _ Hv Hc) as [payload ->].
      destruct (IH _ _ _ Hr) as (Hdom & Hout & Hnone & Hin).
      split; [|split; [|split]].
      - rewrite Hdom, dom_insert_L.
        assert (field ∈ dom data) by (apply elem_of_dom; eauto). set_solver.
      - intros k Hk. rewrite Hout by (intros Hn; apply Hk; now right).
        apply lookup_insert_ne. intros <-. apply Hk. now left.
      - intros k Hk. apply Hnone. rewrite lookup_insert_ne; [exact Hk|].
        intros <-. congruence.
      - intros k v0 Hk Hv0 Hne.
        destruct (decide (k = field)) as [->|Hkf].
        + destruct (in_dec string_dec field rest) as [Hrest|Hrest].
          * apply (Hin field (VStr ("encrypted:" ++ payload)) Hrest);
              [apply lookup_insert_eq|discriminate].
          * exists payload. rewrite (Hout field Hrest). apply lookup_insert_eq.
        + destruct Hk as [Heq|Hk]; [congruence|].
          apply (Hin k v0 Hk); [|exact Hne].
          now rewrite lookup_insert_ne by congruence. }
    destruct v; [apply Hskip; now right| | |]; apply Hstep; discriminate.
Qed.

End EncryptFields.

Lemma encrypt_fields_witness :
  dom (<["name" := VStr "encrypted:abcdefghijklann"]> (Examples.person "ann" 30))
  = dom (Examples.person "ann" 30)
  /\ (forall k, ~ In k ["name"] ->
        <["name" := VStr "encrypted:abcdefghijklann"]> (Examples.person "ann" 30) !! k
        = Examples.person "ann" 30 !! k)
  /\ (forall k, Examples.person "ann" 30 !! k = Some VNone ->
        <["name" := VStr "encrypted:abcdefghijklann"]> (Examples.person "ann" 30) !! k
        = Some VNone)
  /\ (forall k v, In k ["name"] -> Examples.person "ann" 30 !! k = Some v ->
        v <> VNone ->
        exists payload,
          <["name" := VStr "encrypted:abcdefghijklann"]> (Examples.person "ann" 30) !! k
          = Some (VStr ("encrypted:" ++ payload))).
Proof.
  apply (encrypt_fields_marks_every_listed_value
           (crypto := Samples.plain_crypto) (enc := Samples.plain_encryptor)
           Examples.some_key (fun _ => Samples.twelve_bytes) 0
           (Examples.person "ann" 30)
           (<["name" := VStr "encrypted:abcdefghijklann"]> (Examples.person "ann" 30))
           ["name"]).
  vm_compute. reflexivity.
Defined.

(** ** Data masking *)

Lemma str_app_assoc (a b c : string) :
  ((a ++ b) ++ c)%string = (a ++ (b ++ c))%string.
Proof.
  induction a as [|x a IH]; [reflexivity|].
  change (String x ((a ++ b) ++ c)%string = String x (a ++ (b ++ c))%string).
  now rewrite IH.
Qed.

Lemma substring_zero (s : string) : String.substring 0 0 s = EmptyString.
Proof. now destruct s. Qed.

Lemma substring_skip (p s : string) (m : nat) :
  String.substring (String.length p) m (p ++ s)%string = String.substring 0 m s.
Proof. induction p as [|x p IH]; [reflexivity|exact IH]. Qed.

Lemma length_stars (n : nat) : String.length (DataMasking.stars n) = n.
Proof. induction n as [|n IH]; [reflexivity|]. simpl. now rewrite IH. Qed.

Lemma split_once_app (sep : ascii) (local domain : string) :
  Spec.all_chars (fun c => negb (Ascii.eqb c sep)) local = true ->
  DataMasking.split_once sep (local ++ String sep domain)%string
  = Some (local, domain).
Proof.
  induction local as [|x local IH]; intros Hall.
  - simpl. now rewrite Ascii.eqb_refl.
  - simpl in Hall. apply andb_true_iff in Hall as [Hx Hrest].
    change (String x local ++ String sep domain)%string
      with (String x (local ++ String sep domain)%string).
    cbn [DataMasking.split_once].
    apply negb_true_iff in Hx. rewrite Hx. now rewrite (IH Hrest).
Qed.

Lemma split_once_none (sep : ascii) (s : string) :
  Spec.all_chars (fun c => negb (Ascii.eqb c sep)) s = true ->
  DataMasking.split_once sep s = None.
Proof.
  induction s as [|x s IH]; [reflexivity|]. simpl. intros Hall.
  apply andb_true_iff in Hall as [Hx Hrest]. apply negb_true_iff in Hx.
  now rewrite Hx, (IH Hrest).
Qed.

(** X20: [_mask_email] on an address whose part before the first [@]
    has more than two characters keeps the first and the last of them and
    puts one star for each character in between; a part of one or two
    characters becomes stars altogether.  The [@] and what follows it are
    kept, and a text without [@] is returned as it is. *)
Theorem mask_email_shows_first_and_last_character_only
  (a z : ascii) (mid local domain email : string) :
  (a <> "@"%char -> z <> "@"%char -> mid <> EmptyString ->
   Spec.all_chars (fun c => negb (Ascii.eqb c "@")) mid = true ->
   DataMasking._mask_email (String a (mid ++ String z (String "@" domain)))
   = String a (DataMasking.stars (String.length mid)
               ++ String z (String "@" domain)))
  /\ (Spec.all_chars (fun c => negb (Ascii.eqb c "@")) local = true ->
      (String.length local <= 2)%nat ->
      DataMasking._mask_email (local ++ String "@" domain)
      = (DataMasking.stars (String.length local) ++ String "@" domain)%string)
  /\ (Spec.all_chars (fun c => negb (Ascii.eqb c "@")) email = true ->
      DataMasking._mask_email email = email).
Proof.
  split; [|split].
  - intros Ha Hz Hmid Hall.
    assert (Hlocal : Spec.all_chars (fun c => negb (Ascii.eqb c "@"))
                       (String a (mid ++ String z "")) = true).
    { simpl. apply andb_true_iff. split.
      - apply negb_true_iff. now apply Ascii.eqb_neq.
      - clear -Hall Hz. induction mid as [|x mid IH].
        + simpl. rewrite andb_true_r. apply negb_true_iff. now apply Ascii.eqb_neq.
        + simpl in Hall. apply andb_true_iff in Hall as [Hx Hrest].
          change (String x mid ++ String z "")%string
            with (String x (mid ++ String z "")%string).
          simpl. now rewrite Hx, (IH Hrest). }
    assert (Heq : String a (mid ++ String z (String "@" domain))
                  = (String a (mid ++ String z "") ++ String "@" domain)%string).
    { change (String a (mid ++ String z "") ++ String "@" domain)%string
        with (String a ((mid ++ String z "") ++ String "@" domain)%string).
      now rewrite str_app_assoc. }
    rewrite Heq at 1. unfold DataMasking._mask_email.
    rewrite (split_once_app _ _ _ Hlocal).
    assert (Hlen : String.length (String a (mid ++ String z ""))
                   = S (S (String.length mid))).
    { simpl. rewrite str_length_append. simpl. lia. }
    rewrite Hlen.
    destruct (String.length mid) as [|n] eqn:Hn; [now destruct mid|].
    cbn [Nat.leb]. rewrite <- Hn.
    replace (S (S (String.length mid)) - 2)%nat with (String.length mid) by lia.
    replace (S (S (String.length mid)) - 1)%nat with (S (String.length mid)) by lia.
    cbn [String.substring]. rewrite substring_zero.
    rewrite (substring_skip mid (String z "") 1). cbn [String.substring].
    change (String a "" ++ DataMasking.stars (String.length mid) ++ String z "")%string
      with (String a (DataMasking.stars (String.length mid) ++ String z "")%string).
    change ((String a (DataMasking.stars (String.length mid) ++ String z "")
             ++ "@" ++ domain)%string)
      with (String a ((DataMasking.stars (String.length mid) ++ String z "")
                      ++ String "@" domain)%string).
    now rewrite str_app_assoc.
  - intros Hall Hlen. unfold DataMasking._mask_email.
    rewrite (split_once_app _ _ _ Hall).
    now rewrite (proj2 (Nat.leb_le _ _) Hlen).
  - intros Hall. unfold DataMasking._mask_email.
    now rewrite (split_once_none _ _ Hall).
Qed.

Lemma mask_email_witness :
  DataMasking._mask_email "alice@example.org" = "a***e@example.org".
Proof.
  apply (mask_email_shows_first_and_last_character_only
           "a"%char "e"%char "lic" "" "example.org" "");
    [discriminate | discriminate | discriminate | reflexivity].
Defined.

Lemma last_four_app (hidden shown : string) :
  String.length shown = 4%nat ->
  DataMasking.last_four (hidden ++ shown) = shown.
Proof.
  intros Hlen. unfold DataMasking.last_four.
  rewrite str_length_append, Hlen.
  replace (String.length hidden + 4 - 4)%nat with (String.length hidden) by lia.
  rewrite substring_skip, <- Hlen. apply substring_all.
Qed.

(** X21: of the digits of a number the masking functions show the last
    four at most.  With more than four digits [_mask_phone] puts a star
    for every digit before the last four and [_mask_credit_card] a fixed
    prefix; with four digits or fewer both return stars only.  [_mask_ssn]
    shows the last four digits behind a fixed prefix as soon as there are
    four, so a number of exactly four digits is shown in full.  Characters
    that are no digits are dropped. *)
Theorem masked_numbers_show_the_last_four_digits_only
  (isdigit : ascii -> bool) (s hidden shown : string) :
  String.length shown = 4%nat ->
  (DataMasking.digits_of isdigit s = (hidden ++ shown)%string ->
   DataMasking._mask_phone isdigit s
   = (if String.eqb hidden "" then "****"
      else DataMasking.stars (String.length hidden) ++ shown)%string
   /\ DataMasking._mask_ssn isdigit s = ("***-**-" ++ shown)%string)
  /\ (DataMasking.digits_of isdigit
        (DataMasking.remove_char " " (DataMasking.remove_char "-" s))
      = (hidden ++ shown)%string ->
      DataMasking._mask_credit_card isdigit s
      = (if String.eqb hidden "" then "****"
         else "**** **** **** " ++ shown)%string)
  /\ ((String.length (DataMasking.digits_of isdigit s) < 4)%nat ->
      DataMasking._mask_phone isdigit s
      = DataMasking.stars (String.length (DataMasking.digits_of isdigit s))
      /\ DataMasking._mask_ssn isdigit s
         = DataMasking.stars (String.length (DataMasking.digits_of isdigit s))).
Proof.
  intros Hshown. split; [|split].
  - intros Hd. unfold DataMasking._mask_phone, DataMasking._mask_ssn.
    rewrite Hd, (last_four_app _ _ Hshown), str_length_append, Hshown. split.
    + destruct hidden as [|x hidden]; [reflexivity|].
      cbn [String.length String.eqb].
      replace (S (String.length hidden) + 4 - 4)%nat
        with (S (String.length hidden)) by lia.
      destruct (Nat.leb_spec (S (String.length hidden) + 4) 4); [lia|reflexivity].
    + destruct (Nat.leb_spec 4 (String.length hidden + 4)); [reflexivity|lia].
  - intros Hd. unfold DataMasking._mask_credit_card.
    rewrite Hd, (last_four_app _ _ Hshown), str_length_append, Hshown.
    destruct hidden as [|x hidden]; [reflexivity|].
    cbn [String.length String.eqb].
    destruct (Nat.leb_spec (S (String.length hidden) + 4) 4); [lia|reflexivity].
  - intros Hlt. unfold DataMasking._mask_phone, DataMasking._mask_ssn.
    destruct (Nat.leb_spec (String.length (DataMasking.digits_of isdigit s)) 4);
      [|lia].
    destruct (Nat.leb_spec 4 (String.length (DataMasking.digits_of isdigit s)));
      [lia|]. now split.
Qed.

Lemma masked_numbers_witness :
  DataMasking._mask_phone Samples.ascii_isdigit "+1 (555) 010-9999"
  = (if String.eqb "1555010" "" then "****"
     else DataMasking.stars (String.length "1555010") ++ "9999")%string
  /\ DataMasking._mask_ssn Samples.ascii_isdigit "+1 (555) 010-9999"
     = "***-**-9999".
Proof.
  apply (masked_numbers_show_the_last_four_digits_only Samples.ascii_isdigit
           "+1 (555) 010-9999" "1555010" "9999"); reflexivity.
Defined.

Section MaskFacts.

Variable isdigit : ascii -> bool.

Lemma infer_ssn_prefix (k : string) :
  startswith k "ssn" = true -> DataMasking._infer_mask_type k = Some DataMasking.Ssn.
Proof.
  unfold startswith. intros H. apply prefix_correct in H.
  destruct k as [|c1 [|c2 [|c3 rest]]]; simpl in H; try discriminate.
  injection H as -> -> -> _.
  unfold DataMasking._infer_mask_type, DataMasking._global_rules.
  destruct rest as [|c4 rest]; [reflexivity|].
  cbn. now destruct rest.
Qed.

Lemma infer_card_prefix (k : string) :
  startswith k "card" = true ->
  DataMasking._infer_mask_type k = Some DataMasking.CreditCard.
Proof.
  unfold startswith. intros H. apply prefix_correct in H.
  destruct k as [|c1 [|c2 [|c3 [|c4 rest]]]]; simpl in H; try discriminate.
  injection H as -> -> -> -> _.
  unfold DataMasking._infer_mask_type, DataMasking._global_rules.
  cbn. now destruct rest.
Qed.

Lemma restrict_lookup (sensitive k : string) (d : JsonDict) :
  k <> sensitive -> DataMasking.restrict sensitive d !! k = d !! k.
Proof.
  intros Hne. unfold DataMasking.restrict.
  destruct (d !! sensitive); [|reflexivity].
  now rewrite lookup_insert_ne by congruence.
Qed.

Lemma restrict_dom (sensitive : string) (d : JsonDict) :
  dom (DataMasking.restrict sensitive d) = dom d.
Proof.
  unfold DataMasking.restrict.
  destruct (d !! sensitive) as [v|] eqn:Hs; [|reflexivity].
  rewrite dom_insert_L.
  assert (sensitive ∈ dom d) by (apply elem_of_dom; eauto). set_solver.
Qed.

Lemma context_masking_lookup (d : JsonDict) (a t model k : string) :
  k <> "salary"%string -> k <> "health_info"%string ->
  DataMasking._apply_context_masking d a t model !! k = d !! k.
Proof.
  intros Hs Hh. unfold DataMasking._apply_context_masking.
  destruct (d !! "owner_id") as [owner|]; [|reflexivity].
  destruct (negb (py_eq owner (VStr a))); [|reflexivity].
  now rewrite !restrict_lookup.
Qed.

Lemma context_masking_dom (d : JsonDict) (a t model : string) :
  dom (DataMasking._apply_context_masking d a t model) = dom d.
Proof.
  unfold DataMasking._apply_context_masking.
  destruct (d !! "owner_id") as [owner|]; [|reflexivity].
  destruct (negb (py_eq owner (VStr a))); [|reflexivity].
  now rewrite !restrict_dom.
Qed.

(** X22: [mask] returns a dict with the keys of the record.  A field
    that holds [None] is not masked; a field for which the model
    configuration names no known mask type and no global rule applies keeps
    its value; and the global rules apply to more than their patterns say:
    the rule [ssn_*] masks every field whose name starts with [ssn], the
    rule [card_*] every field whose name starts with [card].  (Except for
    what the context step does to [salary] and [health_info].) *)
Theorem mask_keeps_keys_and_applies_the_rules
  (self : DataMasking.DataMasking) (data : JsonDict) (model : string)
  (actor_id tenant_id : option string) :
  dom (DataMasking.mask isdigit self data model actor_id tenant_id) = dom data
  /\ (forall k, k <> "salary"%string -> k <> "health_info"%string ->
        (data !! k = Some VNone ->
         DataMasking.mask isdigit self data model actor_id tenant_id !! k
         = Some VNone)
        /\ (DataMasking._configs self !! model = None ->
            DataMasking._infer_mask_type k = None ->
            DataMasking.mask isdigit self data model actor_id tenant_id !! k
            = data !! k)
        /\ (forall v, DataMasking._configs self !! model = None ->
              data !! k = Some v -> v <> VNone ->
              (startswith k "ssn" = true ->
               DataMasking.mask isdigit self data model actor_id tenant_id !! k
               = Some (VStr (DataMasking._mask_ssn isdigit (py_str v))))
              /\ (startswith k "card" = true ->
                  DataMasking.mask isdigit self data model actor_id tenant_id !! k
                  = Some (VStr (DataMasking._mask_credit_card isdigit (py_str v))))
              /\ (k = "password"%string ->
                  DataMasking.mask isdigit self data model actor_id tenant_id !! k
                  = Some (VStr "[REDACTED]")))).
Proof.
  set (config := default ∅ (DataMasking._configs self !! model)).
  set (result := map_imap (fun field value =>
                   Some (DataMasking.mask_field isdigit config field value)) data).
  assert (Hres : forall k, result !! k
                           = DataMasking.mask_field isdigit config k <$> data !! k).
  { intros k. unfold result. rewrite map_lookup_imap.
    now destruct (data !! k). }
  assert (Hmask : forall k, k <> "salary"%string -> k <> "health_info"%string ->
            DataMasking.mask isdigit self data model actor_id tenant_id !! k
            = result !! k).
  { intros k Hs Hh. unfold DataMasking.mask. fold config. fold result.
    destruct (Tenancy.nonempty actor_id), (Tenancy.nonempty tenant_id);
      try reflexivity.
    now apply context_masking_lookup. }
  split.
  - assert (Hdom : dom result = dom data).
    { apply set_eq. intros k. rewrite !elem_of_dom, Hres.
      destruct (data !! k); simpl; split; intros [x Hx]; eauto; discriminate. }
    unfold DataMasking.mask. fold config. fold result.
    destruct (Tenancy.nonempty actor_id), (Tenancy.nonempty tenant_id);
      try exact Hdom.
    now rewrite context_masking_dom.
  - intros k Hs Hh. rewrite (Hmask k Hs Hh), Hres. split; [|split].
    + now intros ->.
    + intros Hcfg Hinfer. unfold config. rewrite Hcfg. cbn [default from_option id].
      destruct (data !! k) as [v|]; [|reflexivity]. simpl.
      unfold DataMasking.mask_field. rewrite lookup_empty, Hinfer.
      now destruct v.
    + intros v Hcfg Hv Hne. unfold config. rewrite Hcfg, Hv.
      cbn [default from_option id fmap option_fmap option_map].
      unfold DataMasking.mask_field. rewrite lookup_empty.
      split; [|split].
      * intros Hp. rewrite (infer_ssn_prefix k Hp). now destruct v.
      * intros Hp. rewrite (infer_card_prefix k Hp). now destruct v.
      * intros ->. now destruct v.
Qed.

End MaskFacts.

Lemma mask_witness :
  DataMasking.mask Samples.ascii_isdigit Samples.no_masking_config
    Samples.staff_record "Staff" None None !! "ssnumber"
  = Some (VStr (DataMasking._mask_ssn Samples.ascii_isdigit
                  (py_str (VStr "123-45-6789")))).
Proof.
  apply (mask_keeps_keys_and_applies_the_rules Samples.ascii_isdigit
           Samples.no_masking_config Samples.staff_record "Staff" None None);
    try discriminate; reflexivity.
Defined.

(** ** Row-level security *)

(** X23: [add_policy] keeps the names of the policies of every model
    unique: it adds the policy at the end of the model's list when the name
    is new, and when a policy of that name is there it raises [ValueError]
    and adds nothing; in particular the name just added cannot be added
    again. *)
Theorem add_policy_keeps_policy_names_unique
  (self : Security.RowLevelSecurity) (model name : string)
  (f : JsonDict -> Security.SecurityContext -> bool) (apply_to : string) :
  let existing := default [] (Security.policies self !! model) in
  (In name (map Security.name existing) ->
   exists msg, RLS.add_policy self model name f apply_to
               = Raise (mk_exn ValueError msg))
  /\ (~ In name (map Security.name existing) ->
      exists self',
        RLS.add_policy self model name f apply_to = Ok self'
        /\ Security.policies self' !! model
           = Some (existing ++ [Security.mkPolicy name f apply_to])
        /\ (forall m, m <> model ->
              Security.policies self' !! m = Security.policies self !! m)
        /\ (NoDup (map Security.name existing) ->
            NoDup (map Security.name
                     (default [] (Security.policies self' !! model))))
        /\ (forall g b, exists msg,
              RLS.add_policy self' model name g b = Raise (mk_exn ValueError msg))).
Proof.
  intros existing.
  assert (Hex : forall l, existsb (String.eqb name) l = true <-> In name l).
  { intros l. rewrite existsb_exists. split.
    - intros (x & Hin & Heq). apply String.eqb_eq in Heq. now subst.
    - intros Hin. exists name. split; [exact Hin|apply String.eqb_refl]. }
  split.
  - intros Hin. unfold RLS.add_policy. fold existing.
    rewrite (proj2 (Hex _) Hin). eexists. reflexivity.
  - intros Hnew. unfold RLS.add_policy at 1. fold existing.
    destruct (existsb (String.eqb name) (map Security.name existing)) eqn:Hb;
      [apply Hex in Hb; contradiction|].
    eexists. split; [reflexivity|]. cbn [Security.policies].
    split; [apply lookup_insert_eq|]. split; [|split].
    + intros m Hm. now apply lookup_insert_ne.
    + intros Hnd. rewrite lookup_insert_eq. cbn [default from_option id].
      rewrite map_app. apply NoDup_app. split; [exact Hnd|]. split.
      * intros x Hx [Heq|[]]%list_elem_of_In. simpl in Heq. subst x.
        apply Hnew. now apply list_elem_of_In.
      * simpl. apply NoDup_singleton.
    + intros g b. unfold RLS.add_policy. cbn [Security.policies].
      rewrite lookup_insert_eq. cbn [default from_option id].
      rewrite (proj2 (Hex _)); [eexists; reflexivity|].
      rewrite map_app. apply in_or_app. right. now left.
Qed.

Lemma add_policy_witness :
  exists msg,
    RLS.add_policy Samples.isolating_rls "User" "tenant_isolation"
      RLS.ownership_policy "write"
    = Raise (mk_exn ValueError msg).
Proof.
  apply (add_policy_keeps_policy_names_unique Samples.isolating_rls "User"
           "tenant_isolation" RLS.ownership_policy "write").
  vm_compute. now left.
Defined.

Lemma enforce_write_denied (r : Security.RowLevelSecurity) (model : string)
  (ps : list Security.Policy) (p : Security.Policy) (data : JsonDict) :
  Security.policies r !! model = Some ps -> In p ps ->
  Security.func p = RLS.tenant_isolation_policy
  \/ Security.func p = RLS.ownership_policy ->
  Security.apply_to p = "write"%string \/ Security.apply_to p = "both"%string ->
  Security.enforce_write r model data
  = raise PermissionError ("RLS write denied for model '" ++ model ++ "'").
Proof.
  intros Hps Hin Hfunc Happly. unfold Security.enforce_write.
  assert (Hdeny : Security.check_access r model data (Security._get_context r)
                    "write" = false).
  { unfold Security.check_access. rewrite Hps.
    apply not_true_is_false. intros Hall. rewrite forallb_forall in Hall.
    specialize (Hall p Hin).
    assert (Hsel : contains "write" (Security.apply_to p)
                   || String.eqb (Security.apply_to p) "both" = true).
    { destruct Happly as [-> | ->]; reflexivity. }
    rewrite Hsel in Hall.
    destruct Hfunc as [Hf|Hf]; rewrite Hf in Hall; discriminate Hall. }
  now rewrite Hdeny.
Qed.

(** X24: the orchestrator calls [enforce_write] without a context, so
    the policies see no tenant and no actor.  With
    [tenant_isolation_policy] or [ownership_policy] registered for writes
    of a model (and no tenant enforcer in front), every [create], [upsert]
    and [update] of that model is refused with [PermissionError], whatever
    the record and whoever the caller. *)
Theorem context_policies_deny_every_orchestrator_write
  (self : Factory.DatabaseFactory) (env : Tenancy.Env)
  (r : Security.RowLevelSecurity) (model : Factory.ModelRef)
  (ps : list Security.Policy) (p : Security.Policy) :
  Factory.rls self = Some r -> Factory.tenant_enforcer self = false ->
  Security.policies r !! Factory.model_name model = Some ps -> In p ps ->
  Security.func p = RLS.tenant_isolation_policy
  \/ Security.func p = RLS.ownership_policy ->
  Security.apply_to p = "write"%string \/ Security.apply_to p = "both"%string ->
  forall data,
    Factory.create self env model data
    = raise PermissionError
        ("RLS write denied for model '" ++ Factory.model_name model ++ "'")
    /\ (forall replace,
          Factory.upsert self env model data replace
          = raise PermissionError
              ("RLS write denied for model '" ++ Factory.model_name model ++ "'"))
    /\ (forall entity_id etag replace,
          Factory.update self env model entity_id data etag replace
          = raise PermissionError
              ("RLS write denied for model '" ++ Factory.model_name model ++ "'")).
Proof.
  intros Hrls Hte Hps Hin Hfunc Happly data.
  assert (Hwp : forall d,
            Factory.write_policies self env (Factory.model_name model) d
            = raise PermissionError
                ("RLS write denied for model '" ++ Factory.model_name model ++ "'")).
  { intros d. unfold Factory.write_policies. rewrite Hte, Hrls. cbn [Py.bind].
    now apply (enforce_write_denied r _ ps p). }
  split; [|split].
  - unfold Factory.create. now rewrite Hwp.
  - intros replace. unfold Factory.upsert. now rewrite Hwp.
  - intros entity_id etag replace. unfold Factory.update. now rewrite Hwp.
Qed.

Lemma context_policies_witness :
  Factory.create Samples.isolating_factory Examples.tenant_env Examples.users_ref
    Examples.new_name
  = raise PermissionError "RLS write denied for model 'User'".
Proof.
  apply (context_policies_deny_every_orchestrator_write
           Samples.isolating_factory Examples.tenant_env Samples.isolating_rls
           Examples.users_ref
           [Security.mkPolicy "tenant_isolation" RLS.tenant_isolation_policy "both"]
           (Security.mkPolicy "tenant_isolation" RLS.tenant_isolation_policy "both")
           eq_refl eq_refl eq_refl (or_introl eq_refl) (or_introl eq_refl)
           (or_intror eq_refl) Examples.new_name).
Defined.

Lemma enforce_read_same_filters (r r' : Security.RowLevelSecurity)
  (model : string) (query : Lookup) :
  Security._read_filters r' = Security._read_filters r ->
  Security.enforce_read r' model query = Security.enforce_read r model query.
Proof. intros Hf. unfold Security.enforce_read. now rewrite Hf. Qed.

(** X25: [read] makes no use of the policies of row-level security:
    of the RLS object it takes the default read filters only
    ([filter_results] is not called), so two orchestrators that differ in
    their policies return the same rows.  The default filters are added
    for keys the query does not have; every entry of the caller's query is
    kept. *)
Theorem read_never_consults_row_policies
  (self : Factory.DatabaseFactory) (env : Tenancy.Env)
  (r r' : Security.RowLevelSecurity) (model : Factory.ModelRef)
  (query : option Lookup) (limit offset : option Z) (no_cache : bool)
  (cache_ttl : option Z) (include_deleted : bool) :
  Security._read_filters r' = Security._read_filters r ->
  Factory.read (DatabaseFactory.with_rls self (Some r')) env model query limit
    offset no_cache cache_ttl include_deleted
  = Factory.read (DatabaseFactory.with_rls self (Some r)) env model query limit
      offset no_cache cache_ttl include_deleted
  /\ forall q : Lookup, q ⊆ Security.enforce_read r (Factory.model_name model) q.
Proof.
  intros Hf. split.
  - unfold Factory.read, Factory.dispatch_query, Security.enforce_read.
    cbn [DatabaseFactory.with_rls Factory.rls Factory.tenant_enforcer].
    rewrite Hf. reflexivity.
  - intros q. unfold Security.enforce_read. cbn.
    destruct (Security._read_filters r !! Factory.model_name model);
      [|reflexivity].
    unfold Security.add_missing. apply map_union_subseteq_l.
Qed.

Lemma read_never_consults_row_policies_witness :
  Factory.read (DatabaseFactory.with_rls Examples.plain_factory
                  (Some Samples.isolating_rls))
    Examples.tenant_env Examples.users_ref None None None false None false
  = Factory.read (DatabaseFactory.with_rls Examples.plain_factory
                    (Some Samples.no_rls))
      Examples.tenant_env Examples.users_ref None None None false None false
  /\ forall q : Lookup,
       q ⊆ Security.enforce_read Samples.no_rls
             (Factory.model_name Examples.users_ref) q.
Proof.
  apply (read_never_consults_row_policies Examples.plain_factory
           Examples.tenant_env Samples.no_rls Samples.isolating_rls
           Examples.users_ref None None None false None false).
  reflexivity.
Defined.

(** ** Tenants *)

Lemma registry_lookup (configs : list Tenancy.TenantConfig)
  (m : gmap string Tenancy.TenantConfig) (t : string) (c : Tenancy.TenantConfig) :
  fold_left TenantRegistry.register configs m !! t = Some c ->
  (Tenancy.tenant_id c = t /\ In c configs) \/ m !! t = Some c.
Proof.
  revert m. induction configs as [|c0 configs IH]; intros m; simpl; [now right|].
  intros H. destruct (IH _ H) as [[Hid Hin]|Hm]; [left; split; [exact Hid|now right]|].
  unfold TenantRegistry.register in Hm.
  destruct (decide (Tenancy.tenant_id c0 = t)) as [<-|Hne].
  - rewrite lookup_insert_eq in Hm. injection Hm as ->. left. split; [reflexivity|now left].
  - rewrite lookup_insert_ne in Hm by exact Hne. now right.
Qed.

Lemma registry_lookup_none (configs : list Tenancy.TenantConfig)
  (m : gmap string Tenancy.TenantConfig) (t : string) :
  (forall c, In c configs -> Tenancy.tenant_id c <> t) -> m !! t = None ->
  fold_left TenantRegistry.register configs m !! t = None.
Proof.
  revert m. induction configs as [|c0 configs IH]; intros m Hall Hm; [exact Hm|].
  simpl. apply IH.
  - intros c Hc. apply Hall. now right.
  - unfold TenantRegistry.register. rewrite lookup_insert_ne; [exact Hm|].
    apply Hall. now left.
Qed.

Lemma registry_lookup_some (configs : list Tenancy.TenantConfig)
  (m : gmap string Tenancy.TenantConfig) (t : string) :
  is_Some (m !! t) \/ (exists c, In c configs /\ Tenancy.tenant_id c = t) ->
  is_Some (fold_left TenantRegistry.register configs m !! t).
Proof.
  revert m. induction configs as [|c0 configs IH]; intros m H; simpl.
  - destruct H as [H|(c & [] & _)]. exact H.
  - apply IH. unfold TenantRegistry.register.
    destruct (decide (Tenancy.tenant_id c0 = t)) as [<-|Hne].
    + left. rewrite lookup_insert_eq. eauto.
    + rewrite lookup_insert_ne by exact Hne.
      destruct H as [H|(c & [->|Hin] & Hid)]; [now left|contradiction|right; eauto].
Qed.

(** X26: in a registry filled by [register], [set_tenant(t)] succeeds
    exactly for a registered tenant and makes a registered configuration
    whose [tenant_id] is [t] the current one, so that the orchestrator then
    works for tenant [t]; for any other identifier it raises
    [ValueError]. *)
Theorem set_tenant_selects_a_registered_tenant
  (configs : list Tenancy.TenantConfig) (t : string) (env : Tenancy.Env) :
  let registry := fold_left TenantRegistry.register configs ∅ in
  (forall env', TenantContext.set_tenant t registry env = Ok env' ->
     exists c, TenantContext.get_tenant env' = Some c
               /\ Tenancy.tenant_id c = t /\ In c configs
               /\ (t <> ""%string -> Factory._current_tenant_id env' = Some t))
  /\ ((exists c, In c configs /\ Tenancy.tenant_id c = t) ->
      exists env', TenantContext.set_tenant t registry env = Ok env')
  /\ ((forall c, In c configs -> Tenancy.tenant_id c <> t) ->
      TenantContext.set_tenant t registry env
      = raise ValueError ("Tenant not found: " ++ t)).
Proof.
  intros registry. unfold TenantContext.set_tenant, TenantRegistry.get.
  split; [|split].
  - intros env' H.
    destruct (registry !! t) as [c|] eqn:Hc; [|discriminate].
    injection H as <-. exists c.
    destruct (registry_lookup _ _ _ _ Hc) as [[Hid Hin]|Hempty];
      [|rewrite lookup_empty in Hempty; discriminate].
    split; [reflexivity|]. split; [exact Hid|]. split; [exact Hin|].
    intros Hne. unfold Factory._current_tenant_id. cbn [Tenancy.current_tenant].
    rewrite Hid. destruct (String.eqb_spec t ""); [contradiction|reflexivity].
  - intros (c & Hin & Hid).
    destruct (registry_lookup_some configs ∅ t) as [c' Hc'];
      [right; eauto|].
    fold registry in Hc'. rewrite Hc'. eauto.
  - intros Hall. subst registry.
    rewrite (registry_lookup_none configs ∅ t Hall (lookup_empty t)).
    reflexivity.
Qed.

Lemma set_tenant_witness :
  (exists env', TenantContext.set_tenant "globex"
                  (fold_left TenantRegistry.register [Samples.acme; Samples.globex] ∅)
                  Examples.no_tenant_env = Ok env')
  /\ TenantContext.set_tenant "initech"
       (fold_left TenantRegistry.register [Samples.acme; Samples.globex] ∅)
       Examples.no_tenant_env
     = raise ValueError "Tenant not found: initech".
Proof.
  destruct (set_tenant_selects_a_registered_tenant [Samples.acme; Samples.globex]
              "globex" Examples.no_tenant_env) as (_ & Hsome & _).
  destruct (set_tenant_selects_a_registered_tenant [Samples.acme; Samples.globex]
              "initech" Examples.no_tenant_env) as (_ & _ & Hnone).
  split.
  - apply Hsome. exists Samples.globex. split; [right; left; reflexivity|reflexivity].
  - apply Hnone. intros c [<-|[<-|[]]]; discriminate.
Defined.

Lemma setdefault_insert_other {V} (k t : string) (x v : V) (d : gmap string V) :
  k <> t -> setdefault k x (<[t := v]> d) = <[t := v]> (setdefault k x d).
Proof.
  intros Hne. unfold setdefault. rewrite lookup_insert_ne by congruence.
  destruct (d !! k); [reflexivity|]. apply insert_insert_ne. congruence.
Qed.

Lemma inject_audit_fields_insert_tenant (env : Tenancy.Env) (v : value)
  (data : JsonDict) (is_create : bool) :
  Factory._inject_audit_fields env (<["tenant_id" := v]> data) is_create
  = <["tenant_id" := v]> (Factory._inject_audit_fields env data is_create).
Proof.
  unfold Factory._inject_audit_fields.
  destruct is_create, (Tenancy.nonempty (Factory._current_actor_id env));
    repeat (rewrite setdefault_insert_other by discriminate); reflexivity.
Qed.

(** X27: with the tenant enforcer on and a shared-schema tenant in the
    context, every write carries the tenant of the context: a [tenant_id]
    the caller puts into the record of [create], [upsert] or [update] is
    overwritten by the enforcer and has no effect on the outcome. *)
Theorem enforcer_overrides_the_callers_tenant_id
  (self : Factory.DatabaseFactory) (env : Tenancy.Env)
  (tenant : Tenancy.TenantConfig) (model : Factory.ModelRef)
  (data : JsonDict) (v : value) :
  Factory.tenant_enforcer self = true ->
  Tenancy.current_tenant env = Some tenant ->
  Tenancy.isolation_level tenant = Tenancy.SHARED_SCHEMA ->
  Factory.create self env model (<["tenant_id" := v]> data)
  = Factory.create self env model data
  /\ (forall replace,
        Factory.upsert self env model (<["tenant_id" := v]> data) replace
        = Factory.upsert self env model data replace)
  /\ (forall entity_id etag replace,
        Factory.update self env model entity_id (<["tenant_id" := v]> data)
          etag replace
        = Factory.update self env model entity_id data etag replace)
  /\ (Factory.rls self = None ->
      Factory.write_policies self env (Factory.model_name model) data
      = Ok (<["tenant_id" := VStr (Tenancy.tenant_id tenant)]> data)).
Proof.
  intros Hte Hcur Hshared.
  assert (Hwp : forall d,
            Factory.write_policies self env (Factory.model_name model)
              (<["tenant_id" := v]> d)
            = Factory.write_policies self env (Factory.model_name model) d).
  { intros d. unfold Factory.write_policies, Tenancy.enforce_write, Tenancy.enforce.
    rewrite Hte, Hcur, Hshared. now rewrite insert_insert_eq. }
  split; [|split; [|split]].
  - unfold Factory.create. now rewrite Hwp.
  - intros replace. unfold Factory.upsert. now rewrite Hwp.
  - intros entity_id etag replace. unfold Factory.update.
    rewrite inject_audit_fields_insert_tenant. now rewrite Hwp.
  - intros Hrls. unfold Factory.write_policies, Tenancy.enforce_write, Tenancy.enforce.
    now rewrite Hte, Hcur, Hshared, Hrls.
Qed.

Lemma enforcer_overrides_witness :
  Factory.create Samples.enforcing_factory Samples.acme_env Examples.users_ref
    (<["tenant_id" := VStr "globex"]> Examples.new_name)
  = Factory.create Samples.enforcing_factory Samples.acme_env Examples.users_ref
      Examples.new_name
  /\ Factory.write_policies Samples.enforcing_factory Samples.acme_env "User"
       Examples.new_name
     = Ok (<["tenant_id" := VStr "acme"]> Examples.new_name).
Proof.
  destruct (enforcer_overrides_the_callers_tenant_id Samples.enforcing_factory
              Samples.acme_env Samples.acme Examples.users_ref Examples.new_name
              (VStr "globex") eq_refl eq_refl eq_refl) as (Hc & _ & _ & Hw).
  split; [exact Hc|]. apply Hw. reflexivity.
Defined.

(** X28: the metadata [ModelRegistry.get] builds has no
    [encrypted_fields], whatever the model's [__polydb__] dict says.  For
    a registered model the orchestrator therefore never calls the
    encryption object: [create], [upsert], [update] and [read] give what
    they give without one. *)
Theorem registry_models_are_never_encrypted
  (self : Factory.DatabaseFactory) (e : Factory.Encryption) (env : Tenancy.Env)
  (raw_meta : ModelRegistry.PolydbDict) (name : string) (ty : NoSQLKV.Model) :
  let model := Factory.mkModelRef name (ModelRegistry.get raw_meta) ty in
  let on := DatabaseFactory.with_encryption self (Some e) in
  let off := DatabaseFactory.with_encryption self None in
  (forall data, Factory.create on env model data = Factory.create off env model data)
  /\ (forall data replace,
        Factory.upsert on env model data replace
        = Factory.upsert off env model data replace)
  /\ (forall entity_id data etag replace,
        Factory.update on env model entity_id data etag replace
        = Factory.update off env model entity_id data etag replace)
  /\ (forall query limit offset no_cache cache_ttl include_deleted,
        Factory.read on env model query limit offset no_cache cache_ttl
          include_deleted
        = Factory.read off env model query limit offset no_cache cache_ttl
            include_deleted).
Proof.
  intros model on off. repeat split; intros; reflexivity.
Qed.

(** ** The audit trail's changed fields *)

(** X29: [_compute_field_changes] reports exactly the keys whose values
    differ between the two records, each once, a missing key counting as
    [None]; it reports nothing ([None]) when no key differs, and also
    whenever one of the records is missing or empty, so a record compared
    with the empty dict has no changed fields. *)
Theorem compute_field_changes_reports_the_differing_keys (b a : JsonDict) :
  b <> ∅ -> a <> ∅ ->
  match DatabaseFactory._compute_field_changes (Some b) (Some a) with
  | None => forall key, py_eq (get b key) (get a key) = true
  | Some changed =>
      changed <> [] /\ NoDup changed
      /\ forall key, In key changed <-> py_eq (get b key) (get a key) = false
  end
  /\ DatabaseFactory._compute_field_changes (Some ∅) (Some a) = None
  /\ DatabaseFactory._compute_field_changes (Some b) (Some ∅) = None
  /\ DatabaseFactory._compute_field_changes None (Some a) = None
  /\ DatabaseFactory._compute_field_changes (Some b) None = None.
Proof.
  intros Hb Ha.
  split; [|split; [reflexivity|split; [|split; reflexivity]]].
  2:{ unfold DatabaseFactory._compute_field_changes.
      rewrite (bool_decide_eq_true_2 (∅ = ∅)) by reflexivity.
      now rewrite orb_true_r. }
  unfold DatabaseFactory._compute_field_changes.
  rewrite (bool_decide_eq_false_2 _ Hb), (bool_decide_eq_false_2 _ Ha). cbn [orb].
  set (keys := elements (dom b ∪ dom a)).
  set (differs := fun key => negb (py_eq (get b key) (get a key))).
  assert (Hmem : forall key, In key (List.filter differs keys)
                             <-> py_eq (get b key) (get a key) = false).
  { intros key. rewrite filter_In. unfold differs. rewrite negb_true_iff.
    split; [tauto|]. intros Hne. split; [|exact Hne].
    apply list_elem_of_In. unfold keys. apply elem_of_elements.
    apply elem_of_union.
    destruct (b !! key) as [x|] eqn:Hbk;
      [left; apply elem_of_dom; eauto|].
    destruct (a !! key) as [y|] eqn:Hak;
      [right; apply elem_of_dom; eauto|].
    unfold get in Hne. rewrite Hbk, Hak in Hne. discriminate. }
  assert (Hnodup : NoDup (List.filter differs keys)).
  { apply NoDup_ListNoDup. apply List.NoDup_filter. apply NoDup_ListNoDup.
    apply NoDup_elements. }
  destruct (List.filter differs keys) as [|k ks] eqn:Hf.
  - intros key. destruct (py_eq (get b key) (get a key)) eqn:E; [reflexivity|].
    apply Hmem in E. destruct E.
  - split; [discriminate|]. split; [exact Hnodup|exact Hmem].
Qed.

Lemma compute_field_changes_witness :
  let b : JsonDict := <["nickname" := VNone]> (<["city" := VStr "Oslo"]> ∅) in
  let a : JsonDict := <["city" := VStr "Bergen"]> ∅ in
  match DatabaseFactory._compute_field_changes (Some b) (Some a) with
  | None => forall key, py_eq (get b key) (get a key) = true
  | Some changed =>
      changed <> [] /\ NoDup changed
      /\ forall key, In key changed <-> py_eq (get b key) (get a key) = false
  end.
Proof.
  intros b a.
  apply (compute_field_changes_reports_the_differing_keys b a).
  - intros E. apply (f_equal (fun m : JsonDict => m !! "city")) in E.
    vm_compute in E. discriminate.
  - intros E. apply (f_equal (fun m : JsonDict => m !! "city")) in E.
    vm_compute in E. discriminate.
Defined.

(** ** [query_linq] of the orchestrator *)

Lemma add_filters_spec (entries : list (string * operand))
  (builder : Query.QueryBuilder) :
  fold_left (fun b kv => Query.where_ (fst kv) Query.EQ (snd kv) b) entries builder
  = Query.mkBuilder
      (Query.filters builder
       ++ map (fun kv => Query.mkFilter (fst kv) Query.EQ (snd kv)) entries)
      (Query.order_by_fields builder) (Query.skip_count builder)
      (Query.take_count builder) (Query.select_fields builder)
      (Query.group_by_fields builder) (Query.distinct builder)
      (Query.count_only builder).
Proof.
  revert builder. induction entries as [|kv entries IH]; intros builder; simpl.
  - rewrite app_nil_r. now destruct builder.
  - rewrite IH. cbn. now rewrite <- app_assoc.
Qed.

(** X30: [query_linq] of the orchestrator only ever appends equality
    filters to the caller's builder: one on [tenant_id] from the tenant
    enforcer or one per default read filter of the model; everything else
    of the builder goes to the adapter as it is.  It adds no filter on
    [deleted_at] for soft delete and none from the audit context: with no
    enforcer and no default read filters the adapter gets the caller's
    builder unchanged. *)
Theorem query_linq_adds_policy_filters_only
  (sql_query_linq : string -> Query.QueryBuilder -> result Postgres.LinqResult)
  (nosql_query_linq
    : NoSQLKV.Model -> Query.QueryBuilder -> result NoSQLKV.LinqResult)
  (self : Factory.DatabaseFactory) (env : Tenancy.Env)
  (model : Factory.ModelRef) (builder : Query.QueryBuilder) :
  let out := DatabaseFactory.query_linq sql_query_linq nosql_query_linq self env
               model builder in
  let defaults :=
    match Factory.rls self with
    | Some r => default ∅ (Security._read_filters r !! Factory.model_name model)
    | None => ∅
    end in
  (exists added,
     fst out
     = Query.mkBuilder (Query.filters builder ++ added)
         (Query.order_by_fields builder) (Query.skip_count builder)
         (Query.take_count builder) (Query.select_fields builder)
         (Query.group_by_fields builder) (Query.distinct builder)
         (Query.count_only builder)
     /\ Forall (fun f => Query.operator f = Query.EQ
                         /\ ((Factory.tenant_enforcer self = true
                              /\ Query.field f = "tenant_id"%string)
                             \/ defaults !! Query.field f = Some (Query.value f)))
          added
     /\ (Factory.tenant_enforcer self = false -> defaults = ∅ -> added = []))
  /\ (Factory.tenant_enforcer self = false -> defaults = ∅ ->
      out = (builder,
             Factory._run self
               match Factory.sql_table (Factory.meta model) with
               | Some t => Py.bind (sql_query_linq t builder) (fun r => Ok (inl r))
               | None =>
                   Py.bind (nosql_query_linq (Factory.model_type model) builder)
                     (fun r => Ok (inr r))
               end)).
Proof.
  intros out defaults.
  assert (Hrls : forall q : Lookup,
            match Factory.rls self with
            | Some r => Security.enforce_read r (Factory.model_name model) q
            | None => q
            end = q ∪ defaults).
  { intros q. unfold defaults. destruct (Factory.rls self) as [r|].
    - unfold Security.enforce_read, Security.add_missing. cbn.
      destruct (Security._read_filters r !! Factory.model_name model);
        [reflexivity|]. cbn. now rewrite (right_id_L ∅ (∪)).
    - now rewrite (right_id_L ∅ (∪)). }
  split.
  - subst out. unfold DatabaseFactory.query_linq, DatabaseFactory.extra_filter.
    destruct (Factory.tenant_enforcer self) eqn:Hte.
    + unfold Tenancy.enforce_read, Tenancy.enforce.
      destruct (Tenancy.current_tenant env) as [tenant|].
      2:{ exists []. cbn. rewrite app_nil_r. split; [now destruct builder|].
          split; [constructor|discriminate]. }
      set (extra0 := match Tenancy.isolation_level tenant with
                     | Tenancy.SHARED_SCHEMA =>
                         <["tenant_id" := OVal (VStr (Tenancy.tenant_id tenant))]> ∅
                     | _ => (∅ : Lookup)
                     end).
      assert (Hextra : forall k v, (extra0 ∪ defaults) !! k = Some v ->
                         k = "tenant_id"%string \/ defaults !! k = Some v).
      { intros k v Hkv. apply lookup_union_Some_raw in Hkv.
        destruct Hkv as [Hkv|[_ Hkv]]; [|now right].
        left. unfold extra0 in Hkv.
        destruct (Tenancy.isolation_level tenant);
          try (rewrite lookup_empty in Hkv; discriminate).
        apply lookup_insert_Some in Hkv.
        destruct Hkv as [[<- _]|[_ Hkv]]; [reflexivity|].
        rewrite lookup_empty in Hkv. discriminate. }
      exists (map (fun kv => Query.mkFilter (fst kv) Query.EQ (snd kv))
                (map_to_list (extra0 ∪ defaults))).
      split.
      { unfold extra0.
        destruct (Tenancy.isolation_level tenant); cbn [Py.bind];
          rewrite Hrls; cbn [fst]; unfold DatabaseFactory.add_filters;
          apply add_filters_spec. }
      split; [|discriminate].
      apply Forall_forall. intros f Hf. apply list_elem_of_In in Hf.
      apply in_map_iff in Hf. destruct Hf as ([k v] & <- & Hkv).
      apply list_elem_of_In, elem_of_map_to_list in Hkv. cbn.
      split; [reflexivity|].
      destruct (Hextra k v Hkv) as [->|Hd]; [left; split; reflexivity|now right].
    + cbn [Py.bind]. rewrite Hrls.
      exists (map (fun kv => Query.mkFilter (fst kv) Query.EQ (snd kv))
                (map_to_list ((∅ : Lookup) ∪ defaults))).
      split; [cbn [fst]; unfold DatabaseFactory.add_filters; apply add_filters_spec|].
      split.
      * apply Forall_forall. intros f Hf. apply list_elem_of_In in Hf.
        apply in_map_iff in Hf. destruct Hf as ([k v] & <- & Hkv).
        apply list_elem_of_In, elem_of_map_to_list in Hkv. cbn.
        split; [reflexivity|]. right.
        now rewrite (left_id_L ∅ (∪)) in Hkv.
      * intros _ ->. rewrite (left_id_L ∅ (∪)). now rewrite map_to_list_empty.
  - intros Hte Hd. subst out.
    unfold DatabaseFactory.query_linq, DatabaseFactory.extra_filter.
    rewrite Hte. cbn [Py.bind]. rewrite Hrls, Hd, (left_id_L ∅ (∪)).
    unfold DatabaseFactory.add_filters. rewrite map_to_list_empty. reflexivity.
Qed.

Lemma query_linq_witness :
  Factory._soft_delete Examples.soft_factory = true
  /\ Factory._current_tenant_id Examples.tenant_env = Some "t1"%string
  /\ DatabaseFactory.query_linq
       (fun _ b => Ok (Postgres.Count (VInt (Z.of_nat (length (Query.filters b))))))
       (fun _ _ => Ok (NoSQLKV.Rows []))
       Examples.soft_factory Examples.tenant_env Examples.users_ref Query.new
     = (Query.new, Ok (inl (Postgres.Count (VInt 0)))).
Proof.
  split; [reflexivity|]. split; [reflexivity|].
  rewrite (proj2 (query_linq_adds_policy_filters_only
                    (fun _ b => Ok (Postgres.Count
                                      (VInt (Z.of_nat (length (Query.filters b))))))
                    (fun _ _ => Ok (NoSQLKV.Rows []))
                    Examples.soft_factory Examples.tenant_env Examples.users_ref
                    Query.new) eq_refl eq_refl).
  reflexivity.
Defined.
